(** * Company chat mobile client: access control, OTP lifecycle and
    signup approval, embedded from the JavaScript sources.

  Layout: the definitions come first, one module per source file
  ([OtpGenerator] for utils/otpGenerator.js, [Firestore] for the
  document-store contract the screens call, [RoleHelper] for
  utils/roleHelper.js, [PendingApprovals] for
  screens/SuperAdmin/PendingApprovalsScreen.js, [ChatRoom] for
  screens/Chat/ChatRoomScreen.js); the properties follow. *)

From Stdlib Require Import ZArith QArith Qround Lqa String Ascii List Lia.
From Stdlib Require Import Sorted.
From Stdlib Require Import Qpower.
From stdpp Require Import base option list gmap strings.

(** ** JavaScript values that the sources test for truthiness *)

Module Js.

(** A property read that may yield [undefined]/[null] ([None]) or a
    string.  [!x] is true for [undefined], [null] and the empty string. *)
Definition falsy (x : option string) : bool :=
  match x with
  | None => true
  | Some s => if decide (s = EmptyString) then true else false
  end.

Definition truthy (x : option string) : bool := negb (falsy x).

(** [a !== b] on two such values (both strings whenever the sources
    reach the comparison). *)
Definition strict_ne (a b : option string) : bool :=
  if decide (a = b) then false else true.

(** Values held by plain objects that are read by property name. *)
Inductive value :=
| Undefined
| Null
| Bool (b : bool)
| Str (s : string)
| Num (n : Z).

#[global] Instance value_eq_dec : EqDecision value.
Proof. solve_decision. Defined.

(** [a === b]; numbers are integers here, so there is no NaN case. *)
Definition strict_eq (a b : value) : bool :=
  if decide (a = b) then true else false.

Definition to_boolean (v : value) : bool :=
  match v with
  | Undefined | Null => false
  | Bool b => b
  | Str s => if decide (s = EmptyString) then false else true
  | Num n => if decide (n = 0%Z) then false else true
  end.

(** A plain object: own properties by name; reading an absent
    property gives [undefined]. *)
Abbreviation object := (gmap string value).

Definition get (o : object) (k : string) : value :=
  default Undefined (o !! k).

Definition of_string (x : option string) : value :=
  match x with Some s => Str s | None => Undefined end.

(** [Array.prototype.sort(compare)] for a consistent comparator: the
    sort is stable.  [before y x] stands for [compare(y, x) < 0]. *)
Fixpoint sort_insert {A} (before : A -> A -> bool) (x : A) (sorted : list A)
    : list A :=
  match sorted with
  | [] => [x]
  | y :: rest =>
      if before y x then y :: sort_insert before x rest else x :: y :: rest
  end.

Definition Array_sort {A} (before : A -> A -> bool) (l : list A) : list A :=
  List.fold_right (sort_insert before) [] l.

End Js.

(** ** utils/otpGenerator.js *)

Module OtpGenerator.

Local Open Scope Z_scope.

(** *** Number.prototype.toString on integers *)

Definition digit_char (d : Z) : ascii :=
  ascii_of_nat (48 + Z.to_nat d).

(** Most significant digit first; [fuel] bounds the number of digits. *)
Fixpoint digits_of (fuel : nat) (n : Z) (acc : string) : string :=
  match fuel with
  | O => acc
  | S fuel' =>
      let acc' := String (digit_char (n mod 10)) acc in
      if n / 10 =? 0 then acc' else digits_of fuel' (n / 10) acc'
  end.

Definition Number_toString (n : Z) : string :=
  if n <? 0
  then String "-"%char (digits_of (S (Z.to_nat (Z.log2 (- n)))) (- n) EmptyString)
  else digits_of (S (Z.to_nat (Z.log2 n))) n EmptyString.

Definition is_digit (c : ascii) : bool :=
  let n := nat_of_ascii c in (48 <=? n)%nat && (n <=? 57)%nat.

Fixpoint all_digits (s : string) : bool :=
  match s with
  | EmptyString => true
  | String c s' => is_digit c && all_digits s'
  end.

(** The number a decimal numeral denotes, to read a generated code back. *)
Fixpoint decimal_value_from (acc : Z) (s : string) : Z :=
  match s with
  | EmptyString => acc
  | String c s' =>
      decimal_value_from (10 * acc + (Z.of_nat (nat_of_ascii c) - 48)) s'
  end.

Definition decimal_value (s : string) : Z := decimal_value_from 0 s.

(** *** Date *)

(** A Date object holds a time value in milliseconds, or NaN
    ("Invalid Date"). *)
Inductive Date :=
| ValidDate (ms : Z)
| InvalidDate.

(** ECMAScript TimeClip: a Date holds at most 8.64e15 ms either side
    of the epoch. *)
Definition maxTime : Z := 8640000000000000.

Definition new_Date (ms : Z) : Date :=
  if (Z.abs ms <=? maxTime) then ValidDate ms else InvalidDate.

(** [a > b] on two Dates compares the time values as numbers; any
    comparison with NaN is false. *)
Definition Date_gt (a b : Date) : bool :=
  match a, b with
  | ValidDate x, ValidDate y => y <? x
  | _, _ => false
  end.

(** *** Numbers

    A Number is an IEEE 754 binary64 value; the finite ones are
    rationals.  An arithmetic operation gives the exact result rounded
    to the nearest binary64 value, a tie going to the one whose
    significand is even.  The values the sources compute are far from
    the overflow threshold [2^1024], which is left out. *)

Definition pow2 (e : Z) : Q := (2 ^ e)%Q.

(** The integer part of the binary logarithm of [x > 0]. *)
Definition ilog2 (x : Q) : Z :=
  let e := Z.log2 (Qnum x) - Z.log2 (Zpos (Qden x)) in
  if Qle_bool (pow2 e) x then e else e - 1.

(** The nearest integer, a tie going to the even one. *)
Definition round_half_even (q : Q) : Z :=
  let f := Qfloor q in
  match Qcompare (q - inject_Z f) (1 # 2) with
  | Lt => f
  | Gt => f + 1
  | Eq => if Z.even f then f else f + 1
  end.

(** The binary64 values around [x > 0] are the multiples of
    [2^(ulp_exponent x)]: 53 significant bits, and steps of [2^-1074]
    in the subnormal range. *)
Definition ulp_exponent (x : Q) : Z := Z.max (ilog2 x - 52) (-1074).

Definition round_double_pos (x : Q) : Q :=
  let e := ulp_exponent x in
  (inject_Z (round_half_even (x / pow2 e)) * pow2 e)%Q.

Definition round_double (x : Q) : Q :=
  match Qcompare x 0 with
  | Eq => 0%Q
  | Gt => round_double_pos x
  | Lt => (- round_double_pos (- x))%Q
  end.

(** [x] is a Number. *)
Definition is_double (x : Q) : Prop := (round_double x == x)%Q.

(** [a * b] and [a + b] on Numbers. *)
Definition Number_mul (a b : Q) : Q := round_double (a * b)%Q.

Definition Number_add (a b : Q) : Q := round_double (a + b)%Q.

(** The largest Number below 1, [1 - 2^-53]. *)
Definition largest_draw : Q := (9007199254740991 # 9007199254740992)%Q.

(** *** generateOTP

    [Math.floor(100000 + Math.random() * 900000).toString()], with the
    draw of [Math.random()] as the argument [r], a Number with
    [0 <= r < 1]. *)
Definition Math_floor (x : Q) : Z := Qfloor x.

Definition generateOTP (r : Q) : string :=
  Number_toString (Math_floor (Number_add 100000 (Number_mul r 900000))).

(** *** getOTPExpiration

    [now] is the time value of [new Date()]. *)
Definition getOTPExpiration (now : Z) : Date :=
  new_Date (now + 5 * 60 * 1000).

(** *** verifyOTP *)

Record VerifyResult := { valid : bool; message : string }.

(** The shapes [expiresAt] is tested for, in the order of the tests. *)
Inductive ExpiresAt :=
| Timestamp (toDate : Date)   (* has a [toDate] method *)
| DateObject (d : Date)       (* [instanceof Date] *)
| StringValue (s : string)    (* [typeof === 'string'] *)
| OtherValue.                 (* null, undefined, a number, ... *)

Section Verify.

(** [Date.parse]: the time value of a date string, [None] for NaN.
    Which strings parse is the engine's business. *)
Variable Date_parse : string -> option Z.

Definition new_Date_string (s : string) : Date :=
  match Date_parse s with
  | Some ms => new_Date ms
  | None => InvalidDate
  end.

(** The normalisation of lines 44-57; [None] is the early return. *)
Definition expirationDate (expiresAt : ExpiresAt) : option Date :=
  match expiresAt with
  | Timestamp d => Some d
  | DateObject d => Some d
  | StringValue s => Some (new_Date_string s)
  | OtherValue => None
  end.

(** [now] is the time value of the [new Date()] of line 59. *)
Definition verifyOTP (now : Z) (enteredOTP storedOTP : option string)
    (expiresAt : ExpiresAt) : VerifyResult :=
  if Js.falsy enteredOTP || Js.falsy storedOTP then
    {| valid := false; message := "OTP is required" |}
  else if Js.strict_ne enteredOTP storedOTP then
    {| valid := false; message := "Invalid OTP" |}
  else
    match expirationDate expiresAt with
    | None => {| valid := false; message := "Invalid OTP expiration" |}
    | Some d =>
        if Date_gt (ValidDate now) d then
          {| valid := false; message := "OTP has expired" |}
        else
          {| valid := true; message := "OTP verified successfully" |}
    end.

End Verify.

(** *** formatPhoneNumber, isValidPhoneNumber *)

(** [s.replace(/\D/g, '')]: the characters 0-9 of [s], in order. *)
Fixpoint remove_non_digits (s : string) : string :=
  match s with
  | EmptyString => EmptyString
  | String c s' =>
      if is_digit c then String c (remove_non_digits s') else remove_non_digits s'
  end.

(** [countryCode] is [None] when the caller leaves it out; the default
    parameter is then ['+1']. *)
Definition formatPhoneNumber (phoneNumber : string) (countryCode : option string)
    : string :=
  let countryCode := default "+1"%string countryCode in
  let cleaned := remove_non_digits phoneNumber in
  if String.prefix "+" phoneNumber then phoneNumber
  else (countryCode ++ cleaned)%string.

Definition isValidPhoneNumber (phoneNumber : string) : bool :=
  let cleaned := remove_non_digits phoneNumber in
  (10 <=? String.length cleaned)%nat.

(** A partial table of [Date.parse], enough to run the checker on
    the ISO strings below; every other string is taken as unparsable. *)
Definition sample_Date_parse (s : string) : option Z :=
  if decide (s = "2024-01-01T00:00:00.000Z"%string) then Some 1704067200000
  else if decide (s = "2024-01-01T00:05:00.000Z"%string) then Some 1704067500000
  else None.

End OtpGenerator.

(** ** The hosted document store, as the screens use it

    The collections are those the sources name.  A call on the store
    either performs its operation or is rejected (network, permissions);
    the [faults] schedule says which of the coming calls are rejected
    and with what, so that every interleaving of failures is a world. *)

Module Firestore.

Local Open Scope Z_scope.

Inductive Error :=
| not_found            (* update of a document that does not exist *)
| unavailable          (* the backend could not be reached *)
| permission_denied.   (* the security rules refused the call *)

#[global] Instance Error_eq_dec : EqDecision Error.
Proof. solve_decision. Defined.

(** An entry of the denormalised [userProjects] array of a user document. *)
Module ProjectRole.
Record t := { projectId : string; role : string }.
End ProjectRole.

(** users/{id} *)
Module User.
Record t := {
  name : string;
  phoneNumber : string;
  globalRole : option string;
  isApproved : bool;
  approvedAt : option Z;
  userProjects : option (list ProjectRole.t)
}.
End User.

(** userProjects/{auto id}: the membership of a user in a project. *)
Module UserProject.
Record t := {
  userId : string;
  projectId : string;
  role : string;
  addedAt : Z;
  isActive : bool
}.
End UserProject.

Module Signup.
Record t := { userId : string; timestamp : Z }.
End Signup.

(** qrInvitations/{id} *)
Module QrInvitation.
Record t := {
  projectId : option string;
  pendingSignups : option (list Signup.t);
  isPending : bool
}.
End QrInvitation.

Record World := {
  users : gmap string User.t;
  userProjects : list UserProject.t;      (* in the order a query lists them *)
  qrInvitations : gmap string QrInvitation.t;
  serverTime : Z;                         (* FieldValue.serverTimestamp() *)
  faults : list (option Error);           (* one entry per coming store call *)
  console : list (string * Error);        (* console.error *)
  consoleLog : list (string * string);    (* console.log *)
  alerts : list (string * string);        (* Alert.alert(title, message) *)
  processing : option string              (* the screen's setProcessing state *)
}.

Definition set_users (u : gmap string User.t) (w : World) : World :=
  {| users := u; userProjects := userProjects w;
     qrInvitations := qrInvitations w; serverTime := serverTime w;
     faults := faults w; console := console w;
     consoleLog := consoleLog w; alerts := alerts w;
     processing := processing w |}.

Definition set_userProjects (l : list UserProject.t) (w : World) : World :=
  {| users := users w; userProjects := l;
     qrInvitations := qrInvitations w; serverTime := serverTime w;
     faults := faults w; console := console w;
     consoleLog := consoleLog w; alerts := alerts w;
     processing := processing w |}.

Definition set_qrInvitations (q : gmap string QrInvitation.t) (w : World) : World :=
  {| users := users w; userProjects := userProjects w;
     qrInvitations := q; serverTime := serverTime w;
     faults := faults w; console := console w;
     consoleLog := consoleLog w; alerts := alerts w;
     processing := processing w |}.

Definition set_faults (f : list (option Error)) (w : World) : World :=
  {| users := users w; userProjects := userProjects w;
     qrInvitations := qrInvitations w; serverTime := serverTime w;
     faults := f; console := console w;
     consoleLog := consoleLog w; alerts := alerts w;
     processing := processing w |}.

Definition set_console (c : list (string * Error)) (w : World) : World :=
  {| users := users w; userProjects := userProjects w;
     qrInvitations := qrInvitations w; serverTime := serverTime w;
     faults := faults w; console := c;
     consoleLog := consoleLog w; alerts := alerts w;
     processing := processing w |}.

Definition set_consoleLog (l : list (string * string)) (w : World) : World :=
  {| users := users w; userProjects := userProjects w;
     qrInvitations := qrInvitations w; serverTime := serverTime w;
     faults := faults w; console := console w;
     consoleLog := l; alerts := alerts w;
     processing := processing w |}.

Definition set_alerts (a : list (string * string)) (w : World) : World :=
  {| users := users w; userProjects := userProjects w;
     qrInvitations := qrInvitations w; serverTime := serverTime w;
     faults := faults w; console := console w;
     consoleLog := consoleLog w; alerts := a;
     processing := processing w |}.

Definition set_processing (p : option string) (w : World) : World :=
  {| users := users w; userProjects := userProjects w;
     qrInvitations := qrInvitations w; serverTime := serverTime w;
     faults := faults w; console := console w;
     consoleLog := consoleLog w; alerts := alerts w;
     processing := p |}.

(** *** Awaited calls: a state and exception monad *)

Inductive Result (A : Type) :=
| Ok (a : A)
| Throw (e : Error).
Arguments Ok {A} a.
Arguments Throw {A} e.

Definition Fire (A : Type) : Type := World -> Result A * World.

#[global] Instance Fire_ret : MRet Fire := fun A a w => (Ok a, w).

#[global] Instance Fire_bind : MBind Fire := fun A B f m w =>
  match m w with
  | (Ok a, w') => f a w'
  | (Throw e, w') => (Throw e, w')
  end.

(** [try { m } catch (error) { h error }] *)
Definition try_catch {A} (m : Fire A) (h : Error -> Fire A) : Fire A :=
  fun w =>
    match m w with
    | (Ok a, w') => (Ok a, w')
    | (Throw e, w') => h e w'
    end.

(** [try { m } finally { f }], for an [f] that does not throw. *)
Definition try_finally {A} (m : Fire A) (f : World -> World) : Fire A :=
  fun w => let (r, w') := m w in (r, f w').

(** A call on the store: rejected when the schedule says so. *)
Definition request {A} (op : Fire A) : Fire A :=
  fun w =>
    match faults w with
    | Some e :: rest => (Throw e, set_faults rest w)
    | None :: rest => op (set_faults rest w)
    | [] => op w
    end.

(** *** The store contract

    [doc(id).update(fields)] merges the fields into an existing document
    and is rejected with not-found when there is none;
    [doc(id).delete()] succeeds whether or not the document exists;
    [doc(id).get()] gives a snapshot ([None] when [exists] is false);
    [collection.add(data)] creates a document under a fresh id, with no
    uniqueness constraint on its fields. *)

Definition users_update (id : string) (fields : Z -> User.t -> User.t) : Fire unit :=
  request (fun w =>
    match users w !! id with
    | Some d => (Ok tt, set_users (<[id := fields (serverTime w) d]> (users w)) w)
    | None => (Throw not_found, w)
    end).

Definition users_delete (id : string) : Fire unit :=
  request (fun w => (Ok tt, set_users (delete id (users w)) w)).

Definition userProjects_add (data : Z -> UserProject.t) : Fire unit :=
  request (fun w =>
    (Ok tt, set_userProjects (userProjects w ++ [data (serverTime w)]) w)).

Definition userProjects_where (p : UserProject.t -> bool) : Fire (list UserProject.t) :=
  request (fun w => (Ok (List.filter p (userProjects w)), w)).

Definition qrInvitations_get (id : string) : Fire (option QrInvitation.t) :=
  request (fun w => (Ok (qrInvitations w !! id), w)).

Definition qrInvitations_update (id : string)
    (fields : QrInvitation.t -> QrInvitation.t) : Fire unit :=
  request (fun w =>
    match qrInvitations w !! id with
    | Some d => (Ok tt, set_qrInvitations (<[id := fields d]> (qrInvitations w)) w)
    | None => (Throw not_found, w)
    end).

Definition users_get (id : string) : Fire (option User.t) :=
  request (fun w => (Ok (users w !! id), w)).

(** The documents of a collection in the order of a query without
    [orderBy]: by document id. *)
Definition docs_by_id {V} (m : gmap string V) : list (string * V) :=
  Js.Array_sort (fun y x => String.ltb (fst y) (fst x)) (map_to_list m).

(** [collection('qrInvitations').where('isPending', '==', true).get()] *)
Definition qrInvitations_where_isPending : Fire (list (string * QrInvitation.t)) :=
  request (fun w =>
    (Ok (List.filter (fun d => QrInvitation.isPending (snd d))
           (docs_by_id (qrInvitations w))), w)).

(** *** What the screen does besides store calls *)

Definition console_error (label : string) (e : Error) : Fire unit :=
  fun w => (Ok tt, set_console (console w ++ [(label, e)]) w).

Definition console_log (label arg : string) : Fire unit :=
  fun w => (Ok tt, set_consoleLog (consoleLog w ++ [(label, arg)]) w).

Definition Alert_alert (title msg : string) : Fire unit :=
  fun w => (Ok tt, set_alerts (alerts w ++ [(title, msg)]) w).

Definition setProcessing (p : option string) : Fire unit :=
  fun w => (Ok tt, set_processing p w).

(** The first rejection among the next [calls] store calls, if any,
    and the schedule left once it has happened (or once all of them
    have been answered). *)
Fixpoint next_fault (calls : nat) (fs : list (option Error))
    : option Error * list (option Error) :=
  match calls, fs with
  | O, _ => (None, fs)
  | S _, [] => (None, [])
  | S _, Some e :: rest => (Some e, rest)
  | S calls', None :: rest => next_fault calls' rest
  end.

(** The world after an awaited call, and what the call gave. *)
Definition after {A} (m : Fire A) (w : World) : World := snd (m w).

Definition outcome {A} (m : Fire A) (w : World) : Result A := fst (m w).

(** [m] keeps [I] whether it returns or throws. *)
Definition preserves (I : World -> Prop) {A} (m : Fire A) : Prop :=
  forall w, I w -> I (after m w).

End Firestore.

(** ** utils/roleHelper.js *)

Module RoleHelper.

Import Firestore.
Local Open Scope string_scope.

Definition isSuperAdmin (userData : option User.t) : bool :=
  match userData with
  | None => false
  | Some u => if decide (User.globalRole u = Some "superadmin") then true else false
  end.

(** The value is that of [project && project.role === 'project_admin']:
    [undefined] when [find] found no entry. *)
Definition isProjectAdmin (userData : option User.t) (projectId : option string)
    : Js.value :=
  match userData with
  | None => Js.Bool false
  | Some u =>
      if Js.falsy projectId then Js.Bool false
      else if isSuperAdmin userData then Js.Bool true
      else
        let userProjects := default [] (User.userProjects u) in
        let project :=
          List.find (fun p => if decide (Some (ProjectRole.projectId p) = projectId)
                              then true else false) userProjects in
        match project with
        | None => Js.Undefined
        | Some p =>
            Js.Bool (if decide (ProjectRole.role p = "project_admin")
                     then true else false)
        end
  end.

(** The three [where] clauses of lines 84-86 and 110-112. *)
Definition active_membership (userId projectId : option string)
    (d : UserProject.t) : bool :=
  (if decide (Some (UserProject.userId d) = userId) then true else false)
  && (if decide (Some (UserProject.projectId d) = projectId) then true else false)
  && (if decide (UserProject.isActive d = true) then true else false).

(** The result is the role string, or [null] ([None]). *)
Definition getUserRoleInProject (userId projectId : option string)
    : Fire (option string) :=
  if Js.falsy userId || Js.falsy projectId then mret None
  else
    try_catch
      (snapshot ← userProjects_where (active_membership userId projectId);
       match snapshot with
       | [] => mret None
       | doc :: _ => mret (Some (UserProject.role doc))
       end)
      (fun error =>
         console_error "Error fetching user role:" error;;
         mret None).

Definition hasAccessToProject (userId projectId : option string)
    (userData : option User.t) : Fire bool :=
  if Js.falsy userId || Js.falsy projectId then mret false
  else if isSuperAdmin userData then mret true
  else
    try_catch
      (snapshot ← userProjects_where (active_membership userId projectId);
       mret (negb (if decide (snapshot = []) then true else false)))
      (fun error =>
         console_error "Error checking project access:" error;;
         mret false).

(** The object [getUserProjects] pushes for a membership whose project
    document [projectData] exists and is active (lines 56-61):
    [{ id, ...projectDoc.data(), userRole, addedAt }]. *)
Definition projectEntry (projectDocId : string) (projectData : Js.object)
    (userProjectData : UserProject.t) : Js.object :=
  <["addedAt" := Js.Num (UserProject.addedAt userProjectData)]>
    (<["userRole" := Js.Str (UserProject.role userProjectData)]>
       (projectData ∪ {["id" := Js.Str projectDocId]})).

End RoleHelper.

(** ** screens/SuperAdmin/CreateProjectModal.js: the project document *)

Module CreateProjectModal.

Local Open Scope string_scope.

(** The data of [collection('projects').add] in [handleCreate]. *)
Definition projectData (projectName createdBy : string) (createdAt : Z) : Js.object :=
  {[ "name" := Js.Str projectName;
     "createdAt" := Js.Num createdAt;
     "createdBy" := Js.Str createdBy;
     "isActive" := Js.Bool true ]}.

End CreateProjectModal.

(** ** screens/SuperAdmin/PendingApprovalsScreen.js *)

Module PendingApprovals.

Import Firestore.
Local Open Scope string_scope.

(** An element of the screen's [pendingUsers] list: the user document
    together with the invitation it signed up through. *)
Record PendingUser := {
  id : string;
  name : string;
  phoneNumber : string;
  qrId : string;
  projectId : option string   (* null for company-wide *)
}.

Definition markApproved (now : Z) (d : User.t) : User.t :=
  {| User.name := User.name d;
     User.phoneNumber := User.phoneNumber d;
     User.globalRole := User.globalRole d;
     User.isApproved := true;
     User.approvedAt := Some now;
     User.userProjects := User.userProjects d |}.

Definition newMembership (user : PendingUser) (pid : string) (now : Z)
    : UserProject.t :=
  {| UserProject.userId := id user;
     UserProject.projectId := pid;
     UserProject.role := "user";
     UserProject.addedAt := now;
     UserProject.isActive := true |}.

(** [(qrData.pendingSignups || []).filter(signup => signup.userId !== user.id)] *)
Definition updatedPendingSignups (user : PendingUser) (qrData : QrInvitation.t)
    : list Signup.t :=
  List.filter
    (fun signup => if decide (Signup.userId signup = id user) then false else true)
    (default [] (QrInvitation.pendingSignups qrData)).

(** The fields written by the [update] of lines 140-146 and 202-208. *)
Definition removePending (user : PendingUser) (qrData : QrInvitation.t)
    : QrInvitation.t :=
  {| QrInvitation.projectId := QrInvitation.projectId qrData;
     QrInvitation.pendingSignups := Some (updatedPendingSignups user qrData);
     QrInvitation.isPending :=
       (0 <? length (updatedPendingSignups user qrData))%nat |}.

(** *** loadPendingUsers *)

(** An element of [pendingUsers] in full: the user document spread
    into it, then [id], [qrId], [projectId] and [signupTimestamp]. *)
Record ListedUser := {
  entry : PendingUser;
  userData : User.t;
  signupTimestamp : Z
}.

Definition listedUser (qrDocId : string) (qrData : QrInvitation.t)
    (signup : Signup.t) (userDoc : User.t) : ListedUser :=
  {| entry :=
       {| id := Signup.userId signup;
          name := User.name userDoc;
          phoneNumber := User.phoneNumber userDoc;
          qrId := qrDocId;
          projectId := QrInvitation.projectId qrData |};
     userData := userDoc;
     signupTimestamp := Signup.timestamp signup |}.

(** The inner loop: one [get] per signup, dangling signups are skipped. *)
Fixpoint fetchSignups (qrDocId : string) (qrData : QrInvitation.t)
    (signups : list Signup.t) (pending : list ListedUser) : Fire (list ListedUser) :=
  match signups with
  | [] => mret pending
  | signup :: rest =>
      userDoc ← users_get (Signup.userId signup);
      fetchSignups qrDocId qrData rest
        (match userDoc with
         | Some d => pending ++ [listedUser qrDocId qrData signup d]
         | None => pending
         end)
  end.

(** The outer loop over the invitations of the snapshot. *)
Fixpoint fetchInvitations (docs : list (string * QrInvitation.t))
    (pending : list ListedUser) : Fire (list ListedUser) :=
  match docs with
  | [] => mret pending
  | (qrDocId, qrData) :: rest =>
      pending' ← fetchSignups qrDocId qrData
                   (default [] (QrInvitation.pendingSignups qrData)) pending;
      fetchInvitations rest pending'
  end.

(** [pending.sort((a, b) => dateB - dateA)]: newest first. *)
Definition newest_first (l : list ListedUser) : list ListedUser :=
  Js.Array_sort (fun y x => (signupTimestamp x <? signupTimestamp y)%Z) l.

(** The screen state the function sets. *)
Record Screen := {
  pendingUsers : list ListedUser;
  loading : bool;
  refreshing : bool
}.

(** The state the screen is left in: [setPendingUsers] on success, the
    alert on failure, and the flags of the [finally] block either way. *)
Definition loadPendingUsers (screen : Screen) : Fire Screen :=
  try_catch
    (qrSnapshot ← qrInvitations_where_isPending;
     pending ← fetchInvitations qrSnapshot [];
     mret {| pendingUsers := newest_first pending;
             loading := false; refreshing := false |})
    (fun error =>
       console_error "Error loading pending users:" error;;
       Alert_alert "Error" "Failed to load pending approvals";;
       mret {| pendingUsers := pendingUsers screen;
               loading := false; refreshing := false |}).

(** *** approveUser *)

(** The awaited calls of the [try] block and the success alert
    (lines 106-149). *)
Definition approveSteps (user : PendingUser) : Fire unit :=
  setProcessing (Some (id user));;
  users_update (id user) markApproved;;
  (if Js.truthy (projectId user)
   then userProjects_add (newMembership user (default "" (projectId user)))
   else mret tt);;
  qrDoc ← qrInvitations_get (qrId user);
  match qrDoc with
  | Some qrData =>
      qrInvitations_update (qrId user) (fun _ => removePending user qrData)
  | None => mret tt
  end;;
  Alert_alert "Success" (name user ++ " has been approved!").

(** [screen] is the state of the screen when the function is called;
    the result is its state once everything has settled.  The refresh
    [loadPendingUsers()] that ends the [try] block is not awaited: it
    goes on while the [finally] block runs.  It never rejects, and
    what it sets the [finally] block does not touch, so the settled
    state is that of running it in place. *)
Definition approveUser (user : PendingUser) (screen : Screen) : Fire Screen :=
  try_finally
    (try_catch
       (approveSteps user;;
        loadPendingUsers screen)
       (fun error =>
          console_error "Error approving user:" error;;
          Alert_alert "Error" "Failed to approve user";;
          mret screen))
    (set_processing None).

(** *** rejectUser *)

(** The awaited calls of the [try] block and the success alert
    (lines 176-211).  The inner [try] holds the [console.log] alone,
    which does not throw. *)
Definition rejectSteps (user : PendingUser) : Fire unit :=
  setProcessing (Some (id user));;
  users_delete (id user);;
  console_log "User removed from Firestore:" (id user);;
  qrDoc ← qrInvitations_get (qrId user);
  match qrDoc with
  | Some qrData =>
      qrInvitations_update (qrId user) (fun _ => removePending user qrData)
  | None => mret tt
  end;;
  Alert_alert "Success" (name user ++ " has been rejected and removed.").

Definition rejectUser (user : PendingUser) (screen : Screen) : Fire Screen :=
  try_finally
    (try_catch
       (rejectSteps user;;
        loadPendingUsers screen)
       (fun error =>
          console_error "Error rejecting user:" error;;
          Alert_alert "Error" "Failed to reject user";;
          mret screen))
    (set_processing None).

(** What the two loops collect when every [get] is answered, as a
    function of the user documents. *)
Definition signupEntries (us : gmap string User.t) (qrDocId : string)
    (qrData : QrInvitation.t) (signups : list Signup.t) : list ListedUser :=
  List.flat_map
    (fun signup =>
       match us !! Signup.userId signup with
       | Some d => [listedUser qrDocId qrData signup d]
       | None => []
       end)
    signups.

Definition invitationEntries (us : gmap string User.t)
    (docs : list (string * QrInvitation.t)) : list ListedUser :=
  List.flat_map
    (fun doc =>
       signupEntries us (fst doc) (snd doc)
         (default [] (QrInvitation.pendingSignups (snd doc))))
    docs.

(** The number of store calls of a [loadPendingUsers] that runs to
    the end: the query, and one [get] per signup of its snapshot. *)
Definition signupCount (docs : list (string * QrInvitation.t)) : nat :=
  length (List.flat_map
            (fun doc => default [] (QrInvitation.pendingSignups (snd doc))) docs).

Definition loadCalls (w : World) : nat :=
  S (signupCount (List.filter (fun d => QrInvitation.isPending (snd d))
                    (docs_by_id (qrInvitations w)))).

(** The list an answered [loadPendingUsers] sets. *)
Definition pendingEntries (w : World) : list ListedUser :=
  newest_first
    (invitationEntries (users w)
       (List.filter (fun d => QrInvitation.isPending (snd d))
          (docs_by_id (qrInvitations w)))).

(** *** formatDate

    [timestamp] is [None] when it is missing or has no [toDate];
    [now] is the time value of [new Date()]. *)
Definition formatDate (now : Z) (timestamp : option OtpGenerator.Date) : string :=
  match timestamp with
  | None => "Unknown"
  | Some OtpGenerator.InvalidDate => "NaNd ago"
  | Some (OtpGenerator.ValidDate date) =>
      let diffMs := (now - date)%Z in
      let diffMins := (diffMs / 60000)%Z in
      if (diffMins <? 1)%Z then "Just now"
      else if (diffMins <? 60)%Z then
        OtpGenerator.Number_toString diffMins ++ "m ago"
      else if (diffMins <? 1440)%Z then
        OtpGenerator.Number_toString (diffMins / 60)%Z ++ "h ago"
      else OtpGenerator.Number_toString (diffMins / 1440)%Z ++ "d ago"
  end.

(** The invariant of the data model on an invitation: [isPending] says
    whether the pending list is non-empty (an absent list counts as
    empty, as in [qrData.pendingSignups || []]). *)
Definition flag_ok (q : QrInvitation.t) : Prop :=
  QrInvitation.isPending q
  = (0 <? length (default [] (QrInvitation.pendingSignups q)))%nat.

Definition flags_ok (w : World) : Prop :=
  map_Forall (fun _ q => flag_ok q) (qrInvitations w).

(** The active memberships of a user in a project. *)
Definition activeMemberships (userId projectId : string) (w : World)
    : list UserProject.t :=
  List.filter
    (fun d =>
       (if decide (UserProject.userId d = userId) then true else false)
       && (if decide (UserProject.projectId d = projectId) then true else false)
       && UserProject.isActive d)
    (userProjects w).

End PendingApprovals.

(** ** context/AuthContext.js (the provider that exposes [userProjects]) *)

Module AuthContext.

Import Firestore.
Local Open Scope string_scope.

(** The [isProjectAdmin] of the context value, over the context's
    [userData] and [userProjects] (the list [getUserProjects] returned). *)
Definition isProjectAdmin (userData : option User.t)
    (userProjects : list Js.object) (projectId : option string) : Js.value :=
  match userData with
  | None => Js.Bool false
  | Some _ =>
      if Js.falsy projectId then Js.Bool false
      else if RoleHelper.isSuperAdmin userData then Js.Bool true
      else
        let project :=
          List.find (fun p => Js.strict_eq (Js.get p "id") (Js.of_string projectId))
            userProjects in
        match project with
        | None => Js.Undefined
        | Some p =>
            Js.Bool (Js.strict_eq (Js.get p "userRole") (Js.Str "project_admin"))
        end
  end.

End AuthContext.

(** ** context/AuthContext.js: loginWithPhoneOTP

    The login reads and writes fields of the user document that the
    approval screens do not touch, and calls the auth service; it has
    its own state here. *)

Module AuthContextLogin.

Import OtpGenerator.
Local Open Scope string_scope.

(** users/{id}: the fields the login uses. *)
Record Account := {
  phoneNumber : string;
  currentOTP : option string;
  otpExpiresAt : ExpiresAt;          (* [OtherValue] for null *)
  isBlocked : bool;
  lastActive : option Z;
  firebaseAuthUid : option string
}.

(** What a [throw] carries: [new Error(message)], or the rejection of
    a store or auth call. *)
Inductive Thrown :=
| Message (message : string)
| Rejected (e : Firestore.Error).

Record Device := {
  accounts : gmap string Account;
  currentUser : option string;       (* auth().currentUser?.uid *)
  anonymousUid : string;             (* the uid signInAnonymously answers with *)
  clock : Z;                         (* new Date() on the device *)
  serverTime : Z;                    (* FieldValue.serverTimestamp() *)
  faults : list (option Firestore.Error);   (* one entry per coming call *)
  console : list (string * Thrown)
}.

Definition set_accounts (a : gmap string Account) (s : Device) : Device :=
  {| accounts := a; currentUser := currentUser s;
     anonymousUid := anonymousUid s; clock := clock s;
     serverTime := serverTime s; faults := faults s; console := console s |}.

Definition set_currentUser (u : option string) (s : Device) : Device :=
  {| accounts := accounts s; currentUser := u;
     anonymousUid := anonymousUid s; clock := clock s;
     serverTime := serverTime s; faults := faults s; console := console s |}.

Definition set_faults (f : list (option Firestore.Error)) (s : Device) : Device :=
  {| accounts := accounts s; currentUser := currentUser s;
     anonymousUid := anonymousUid s; clock := clock s;
     serverTime := serverTime s; faults := f; console := console s |}.

Definition set_console (c : list (string * Thrown)) (s : Device) : Device :=
  {| accounts := accounts s; currentUser := currentUser s;
     anonymousUid := anonymousUid s; clock := clock s;
     serverTime := serverTime s; faults := faults s; console := c |}.

Inductive Outcome (A : Type) :=
| Returned (a : A)
| Threw (t : Thrown).
Arguments Returned {A} a.
Arguments Threw {A} t.

Definition Auth (A : Type) : Type := Device -> Outcome A * Device.

#[global] Instance Auth_ret : MRet Auth := fun A a s => (Returned a, s).

#[global] Instance Auth_bind : MBind Auth := fun A B f m s =>
  match m s with
  | (Returned a, s') => f a s'
  | (Threw t, s') => (Threw t, s')
  end.

Definition throw {A} (t : Thrown) : Auth A := fun s => (Threw t, s).

(** [try { m } catch (error) { h error }] *)
Definition try_catch {A} (m : Auth A) (h : Thrown -> Auth A) : Auth A :=
  fun s =>
    match m s with
    | (Returned a, s') => (Returned a, s')
    | (Threw t, s') => h t s'
    end.

(** An awaited call on the store or on the auth service. *)
Definition request {A} (op : Auth A) : Auth A :=
  fun s =>
    match faults s with
    | Some e :: rest => (Threw (Rejected e), set_faults rest s)
    | None :: rest => op (set_faults rest s)
    | [] => op s
    end.

(** [collection('users').where('phoneNumber', '==', phoneNumber)] on
    the documents in id order. *)
Definition snapshot_by_phone (phone : string) (a : gmap string Account)
    : list (string * Account) :=
  List.filter
    (fun d => if decide (phoneNumber (snd d) = phone) then true else false)
    (Firestore.docs_by_id a).

Definition users_where_phoneNumber (phone : string) : Auth (list (string * Account)) :=
  request (fun s => (Returned (snapshot_by_phone phone (accounts s)), s)).

(** [doc(id).update(fields)]: rejected with not-found on a missing document. *)
Definition users_update (id : string) (fields : Z -> Account -> Account) : Auth unit :=
  request (fun s =>
    match accounts s !! id with
    | Some d =>
        (Returned tt, set_accounts (<[id := fields (serverTime s) d]> (accounts s)) s)
    | None => (Threw (Rejected Firestore.not_found), s)
    end).

Definition signInAnonymously : Auth unit :=
  request (fun s => (Returned tt, set_currentUser (Some (anonymousUid s)) s)).

Definition new_Date_now : Auth Z := fun s => (Returned (clock s), s).

Definition console_error (label : string) (t : Thrown) : Auth unit :=
  fun s => (Returned tt, set_console (console s ++ [(label, t)]) s).

(** [{ currentOTP: null, otpExpiresAt: null, lastActive: serverTimestamp() }] *)
Definition clearOTP (now : Z) (d : Account) : Account :=
  {| phoneNumber := phoneNumber d;
     currentOTP := None;
     otpExpiresAt := OtherValue;
     isBlocked := isBlocked d;
     lastActive := Some now;
     firebaseAuthUid := firebaseAuthUid d |}.

(** [{ firebaseAuthUid: currentUid }] *)
Definition linkUid (currentUid : option string) (d : Account) : Account :=
  {| phoneNumber := phoneNumber d;
     currentOTP := currentOTP d;
     otpExpiresAt := otpExpiresAt d;
     isBlocked := isBlocked d;
     lastActive := lastActive d;
     firebaseAuthUid := currentUid |}.

(** The value the login resolves to; [userData] is the document as it
    was read, before the updates. *)
Record LoginResult := {
  uid : string;
  user_phoneNumber : string;
  userData : Account
}.

Section Login.

Variable Date_parse : string -> option Z.

Definition loginWithPhoneOTP (phone : string) (otp : option string)
    : Auth LoginResult :=
  try_catch
    (usersSnapshot ← users_where_phoneNumber phone;
     match usersSnapshot with
     | [] => throw (Message "No user found with this phone number")
     | (docId, userDataFromDb) :: _ =>
         now ← new_Date_now;
         let otpResult :=
           verifyOTP Date_parse now otp (currentOTP userDataFromDb)
             (otpExpiresAt userDataFromDb) in
         if negb (valid otpResult) then throw (Message (message otpResult))
         else if isBlocked userDataFromDb then
           throw (Message "Your account has been blocked by an administrator")
         else
           users_update docId clearOTP;;
           signInAnonymously;;
           currentUid ← (fun s => (Returned (currentUser s), s));
           users_update docId (fun _ => linkUid currentUid);;
           mret {| uid := docId;
                   user_phoneNumber := phoneNumber userDataFromDb;
                   userData := userDataFromDb |}
     end)
    (fun error =>
       console_error "Login error:" error;;
       throw error).

End Login.

(** The phone number identifies one account. *)
Definition phone_of_one_account (phone id : string) (s : Device) : Prop :=
  forall k d, accounts s !! k = Some d -> phoneNumber d = phone -> k = id.

End AuthContextLogin.

(** ** screens/SuperAdmin/UserManagementScreen.js: handleAddUsers

    Adding users to a project writes memberships with an [addedBy]
    field and the member list of the project's General channel; the
    screen has its own state here. *)

Module UserManagement.

Local Open Scope string_scope.

(** userProjects/{auto id} as this screen writes it. *)
Record Membership := {
  userId : string;
  projectId : string;
  role : string;
  addedAt : Z;
  isActive : bool;
  addedBy : string
}.

(** groups/{id}: the fields the function reads and writes. *)
Record Group := {
  group_projectId : string;
  isGeneralChannel : bool;
  members : option (list string)
}.

Record State := {
  userProjects : list Membership;
  groups : gmap string Group;
  serverTime : Z;
  faults : list (option Firestore.Error);   (* one entry per coming store call *)
  console : list (string * Firestore.Error);
  alerts : list (string * string);
  processing : bool;
  showAddUserModal : bool;
  selectedUsers : list string
}.

Definition set_userProjects (l : list Membership) (s : State) : State :=
  {| userProjects := l; groups := groups s; serverTime := serverTime s;
     faults := faults s; console := console s; alerts := alerts s;
     processing := processing s; showAddUserModal := showAddUserModal s;
     selectedUsers := selectedUsers s |}.

Definition set_groups (g : gmap string Group) (s : State) : State :=
  {| userProjects := userProjects s; groups := g; serverTime := serverTime s;
     faults := faults s; console := console s; alerts := alerts s;
     processing := processing s; showAddUserModal := showAddUserModal s;
     selectedUsers := selectedUsers s |}.

Definition set_faults (f : list (option Firestore.Error)) (s : State) : State :=
  {| userProjects := userProjects s; groups := groups s; serverTime := serverTime s;
     faults := f; console := console s; alerts := alerts s;
     processing := processing s; showAddUserModal := showAddUserModal s;
     selectedUsers := selectedUsers s |}.

Definition set_console (c : list (string * Firestore.Error)) (s : State) : State :=
  {| userProjects := userProjects s; groups := groups s; serverTime := serverTime s;
     faults := faults s; console := c; alerts := alerts s;
     processing := processing s; showAddUserModal := showAddUserModal s;
     selectedUsers := selectedUsers s |}.

Definition set_alerts (a : list (string * string)) (s : State) : State :=
  {| userProjects := userProjects s; groups := groups s; serverTime := serverTime s;
     faults := faults s; console := console s; alerts := a;
     processing := processing s; showAddUserModal := showAddUserModal s;
     selectedUsers := selectedUsers s |}.

Definition set_processing (b : bool) (s : State) : State :=
  {| userProjects := userProjects s; groups := groups s; serverTime := serverTime s;
     faults := faults s; console := console s; alerts := alerts s;
     processing := b; showAddUserModal := showAddUserModal s;
     selectedUsers := selectedUsers s |}.

Definition set_showAddUserModal (b : bool) (s : State) : State :=
  {| userProjects := userProjects s; groups := groups s; serverTime := serverTime s;
     faults := faults s; console := console s; alerts := alerts s;
     processing := processing s; showAddUserModal := b;
     selectedUsers := selectedUsers s |}.

Definition set_selectedUsers (l : list string) (s : State) : State :=
  {| userProjects := userProjects s; groups := groups s; serverTime := serverTime s;
     faults := faults s; console := console s; alerts := alerts s;
     processing := processing s; showAddUserModal := showAddUserModal s;
     selectedUsers := l |}.

Inductive Result (A : Type) :=
| Ok (a : A)
| Throw (e : Firestore.Error).
Arguments Ok {A} a.
Arguments Throw {A} e.

Definition Run (A : Type) : Type := State -> Result A * State.

#[global] Instance Run_ret : MRet Run := fun A a s => (Ok a, s).

#[global] Instance Run_bind : MBind Run := fun A B f m s =>
  match m s with
  | (Ok a, s') => f a s'
  | (Throw e, s') => (Throw e, s')
  end.

Definition try_catch {A} (m : Run A) (h : Firestore.Error -> Run A) : Run A :=
  fun s =>
    match m s with
    | (Ok a, s') => (Ok a, s')
    | (Throw e, s') => h e s'
    end.

Definition try_finally {A} (m : Run A) (f : State -> State) : Run A :=
  fun s => let (r, s') := m s in (r, f s').

Definition request {A} (op : Run A) : Run A :=
  fun s =>
    match faults s with
    | Some e :: rest => (Throw e, set_faults rest s)
    | None :: rest => op (set_faults rest s)
    | [] => op s
    end.

(** [where('projectId', '==', project.id).where('isGeneralChannel', '==', true)] *)
Definition general_channels (pid : string) (g : gmap string Group)
    : list (string * Group) :=
  List.filter
    (fun d => (if decide (group_projectId (snd d) = pid) then true else false)
              && isGeneralChannel (snd d))
    (Firestore.docs_by_id g).

Definition groups_where_general (pid : string) : Run (list (string * Group)) :=
  request (fun s => (Ok (general_channels pid (groups s)), s)).

(** [where('userId', '==', userId).where('projectId', '==', project.id)]:
    active or not. *)
Definition memberships_of (uid pid : string) (l : list Membership)
    : list Membership :=
  List.filter
    (fun m => (if decide (userId m = uid) then true else false)
              && (if decide (projectId m = pid) then true else false))
    l.

Definition userProjects_where (uid pid : string) : Run (list Membership) :=
  request (fun s => (Ok (memberships_of uid pid (userProjects s)), s)).

Definition userProjects_add (data : Z -> Membership) : Run unit :=
  request (fun s =>
    (Ok tt, set_userProjects (userProjects s ++ [data (serverTime s)]) s)).

(** [doc(id).update({ members })] *)
Definition groups_update_members (id : string) (newMembers : list string) : Run unit :=
  request (fun s =>
    match groups s !! id with
    | Some d =>
        (Ok tt,
         set_groups
           (<[id := {| group_projectId := group_projectId d;
                       isGeneralChannel := isGeneralChannel d;
                       members := Some newMembers |}]> (groups s)) s)
    | None => (Throw Firestore.not_found, s)
    end).

Definition console_error (label : string) (e : Firestore.Error) : Run unit :=
  fun s => (Ok tt, set_console (console s ++ [(label, e)]) s).

Definition Alert_alert (title msg : string) : Run unit :=
  fun s => (Ok tt, set_alerts (alerts s ++ [(title, msg)]) s).

Definition setShowAddUserModal (b : bool) : Run unit :=
  fun s => (Ok tt, set_showAddUserModal b s).

Definition setSelectedUsers (l : list string) : Run unit :=
  fun s => (Ok tt, set_selectedUsers l s).

Definition includes (l : list string) (x : string) : bool :=
  existsb (fun y => if decide (y = x) then true else false) l.

Definition newMembership (uid pid currentUid : string) (now : Z) : Membership :=
  {| userId := uid; projectId := pid; role := "user"; addedAt := now;
     isActive := true; addedBy := currentUid |}.

Section AddUsers.

(** [project.id], [project.name] and [currentUser.uid]. *)
Variables (project_id project_name currentUser_uid : string).

(** The [for] loop; [generalChannel] is the document snapshot taken
    before the loop, and [generalChannel.data()] is what it held then. *)
Fixpoint addEach (generalChannel : option (string * Group))
    (users : list string) (addedCount : nat) : Run nat :=
  match users with
  | [] => mret addedCount
  | uid :: rest =>
      existingCheck ← userProjects_where uid project_id;
      match existingCheck with
      | _ :: _ => addEach generalChannel rest addedCount
      | [] =>
          userProjects_add (newMembership uid project_id currentUser_uid);;
          match generalChannel with
          | Some (channelId, channelData) =>
              let currentMembers := default [] (members channelData) in
              if includes currentMembers uid then mret tt
              else groups_update_members channelId (currentMembers ++ [uid])
          | None => mret tt
          end;;
          addEach generalChannel rest (S addedCount)
      end
  end.

(** [`Added ${addedCount} user(s) to ${project.name}`] *)
Definition successMessage (addedCount : nat) : string :=
  "Added " ++ OtpGenerator.Number_toString (Z.of_nat addedCount)
  ++ " user(s) to " ++ project_name.

(** The [try] block. The button callback of the success alert
    ([navigation.goBack]) runs when the user presses OK, not here. *)
Definition addSelected (selected : list string) : Run unit :=
  generalChannelSnapshot ← groups_where_general project_id;
  addedCount ← addEach (head generalChannelSnapshot) selected 0;
  Alert_alert "Success" (successMessage addedCount);;
  setShowAddUserModal false;;
  setSelectedUsers [].

Definition handleAddUsers : Run unit :=
  fun s =>
    match selectedUsers s with
    | [] => Alert_alert "Error" "Please select at least one user" s
    | selected =>
        try_finally
          (try_catch (addSelected selected)
             (fun error =>
                console_error "Error adding users:" error;;
                Alert_alert "Error" "Failed to add users to project"))
          (set_processing false)
          (set_processing true s)
    end.

End AddUsers.

End UserManagement.

(** ** screens/Chat/ChatRoomScreen.js *)

Module ChatRoom.

Import Firestore.
Local Open Scope string_scope.

(** The fields of a groups/{id} document the screen reads. *)
Record Group := {
  isChannel : bool;
  projectId : option string;
  members : list string
}.

(** [userProjects?.some(up => up.projectId === group?.projectId &&
    up.role === 'project_admin')]: [undefined] when the context gives
    no [userProjects]. *)
Definition isProjectAdmin (userProjects : option (list Js.object))
    (group : option Group) : Js.value :=
  match userProjects with
  | None => Js.Undefined
  | Some l =>
      Js.Bool
        (existsb
           (fun up =>
              Js.strict_eq (Js.get up "projectId")
                           (Js.of_string (group ≫= projectId))
              && Js.strict_eq (Js.get up "role") (Js.Str "project_admin"))
           l)
  end.

(** [userData?.globalRole === 'superadmin'] *)
Definition isSuperAdmin (userData : option User.t) : bool :=
  Js.strict_eq (Js.of_string (userData ≫= User.globalRole)) (Js.Str "superadmin").

(** [a || b] *)
Definition or_else (a b : Js.value) : Js.value :=
  if Js.to_boolean a then a else b.

(** [group?.isChannel ? (isProjectAdmin || isSuperAdmin) : true] *)
Definition canSendMessages (group : option Group) (userData : option User.t)
    (userProjects : option (list Js.object)) : Js.value :=
  if default false (isChannel <$> group)
  then or_else (isProjectAdmin userProjects group) (Js.Bool (isSuperAdmin userData))
  else Js.Bool true.

End ChatRoom.

(** ** Sample data for running the sources *)

Module Scenario.

Import Firestore.
Local Open Scope string_scope.
Local Open Scope Z_scope.

(** A signup through the QR invitation of project p1, not yet approved. *)
Definition asha_doc : User.t :=
  {| User.name := "Asha"; User.phoneNumber := "+15550100";
     User.globalRole := None; User.isApproved := false;
     User.approvedAt := None; User.userProjects := None |}.

Definition asha : PendingApprovals.PendingUser :=
  {| PendingApprovals.id := "u1"; PendingApprovals.name := "Asha";
     PendingApprovals.phoneNumber := "+15550100";
     PendingApprovals.qrId := "qr1";
     PendingApprovals.projectId := Some "p1" |}.

Definition qr1 : QrInvitation.t :=
  {| QrInvitation.projectId := Some "p1";
     QrInvitation.pendingSignups :=
       Some [ {| Signup.userId := "u1"; Signup.timestamp := 1000 |} ];
     QrInvitation.isPending := true |}.

(** The store when the SuperAdmin opens the approvals screen; every
    call is answered. *)
Definition world0 : World :=
  {| users := {[ "u1" := asha_doc ]};
     userProjects := [];
     qrInvitations := {[ "qr1" := qr1 ]};
     serverTime := 2000;
     faults := [];
     console := [];
     consoleLog := [];
     alerts := [];
     processing := None |}.

(** The same store, where the third call to come (the read of the
    invitation, in an approval) is rejected. *)
Definition world_flaky : World :=
  set_faults [None; None; Some unavailable] world0.

Definition asha_membership : UserProject.t :=
  {| UserProject.userId := "u1"; UserProject.projectId := "p1";
     UserProject.role := "user"; UserProject.addedAt := 2000;
     UserProject.isActive := true |}.

(** A SuperAdmin with no membership record anywhere. *)
Definition root_doc : User.t :=
  {| User.name := "Root"; User.phoneNumber := "+1111111111";
     User.globalRole := Some "superadmin"; User.isApproved := true;
     User.approvedAt := None; User.userProjects := None |}.

Definition world_root : World :=
  {| users := {[ "root" := root_doc ]};
     userProjects := [];
     qrInvitations := ∅;
     serverTime := 2000;
     faults := [];
     console := [];
     consoleLog := [];
     alerts := [];
     processing := None |}.

(** Bina is project admin of p1. *)
Definition bina_doc : User.t :=
  {| User.name := "Bina"; User.phoneNumber := "+15550101";
     User.globalRole := None; User.isApproved := true;
     User.approvedAt := Some 1200; User.userProjects := None |}.

Definition bina_membership : UserProject.t :=
  {| UserProject.userId := "u2"; UserProject.projectId := "p1";
     UserProject.role := "project_admin"; UserProject.addedAt := 1500;
     UserProject.isActive := true |}.

(** Bina's membership is on record, but the next store call fails. *)
Definition world_down : World :=
  {| users := {[ "u2" := bina_doc ]};
     userProjects := [bina_membership];
     qrInvitations := ∅;
     serverTime := 2000;
     faults := [Some unavailable];
     console := [];
     consoleLog := [];
     alerts := [];
     processing := None |}.

(** The store answers, and Bina has no membership. *)
Definition world_denied : World :=
  {| users := {[ "u2" := bina_doc ]};
     userProjects := [];
     qrInvitations := ∅;
     serverTime := 2000;
     faults := [];
     console := [];
     consoleLog := [];
     alerts := [];
     processing := None |}.

(** What the auth context holds for Bina: the list [getUserProjects]
    builds from her membership and the project document of p1. *)
Definition apollo_data : Js.object :=
  CreateProjectModal.projectData "Apollo" "root" 1000.

Definition bina_userProjects : list Js.object :=
  [ RoleHelper.projectEntry "p1" apollo_data bina_membership ].

(** The General channel of p1. *)
Definition general_channel : ChatRoom.Group :=
  {| ChatRoom.isChannel := true; ChatRoom.projectId := Some "p1";
     ChatRoom.members := ["u2"] |}.

End Scenario.

(** ** More sample data *)

Module Samples.

Import Firestore.
Local Open Scope string_scope.
Local Open Scope Z_scope.

(** A user document with the denormalised project list: member of p1,
    admin of p2, and a second, later entry for p1. *)
Definition carol_doc : User.t :=
  {| User.name := "Carol"; User.phoneNumber := "+15550102";
     User.globalRole := None; User.isApproved := true;
     User.approvedAt := Some 1100;
     User.userProjects :=
       Some [ {| ProjectRole.projectId := "p1"; ProjectRole.role := "user" |};
              {| ProjectRole.projectId := "p2"; ProjectRole.role := "project_admin" |};
              {| ProjectRole.projectId := "p1"; ProjectRole.role := "project_admin" |} ] |}.

(** Dev signed up through the company-wide invitation (no project). *)
Definition dev_doc : User.t :=
  {| User.name := "Dev"; User.phoneNumber := "+15550103";
     User.globalRole := None; User.isApproved := false;
     User.approvedAt := None; User.userProjects := None |}.

Definition dev : PendingApprovals.PendingUser :=
  {| PendingApprovals.id := "u3"; PendingApprovals.name := "Dev";
     PendingApprovals.phoneNumber := "+15550103";
     PendingApprovals.qrId := "qr0";
     PendingApprovals.projectId := None |}.

Definition qr0 : QrInvitation.t :=
  {| QrInvitation.projectId := None;
     QrInvitation.pendingSignups :=
       Some [ {| Signup.userId := "u3"; Signup.timestamp := 1800 |} ];
     QrInvitation.isPending := true |}.

Definition world_company : World :=
  {| users := {[ "u3" := dev_doc ]};
     userProjects := [Scenario.bina_membership];
     qrInvitations := {[ "qr0" := qr0 ]};
     serverTime := 2000;
     faults := [];
     console := [];
     consoleLog := [];
     alerts := [];
     processing := None |}.

(** Asha's user document is there, the invitation she came through is not. *)
Definition world_orphan : World :=
  {| users := {[ "u1" := Scenario.asha_doc ]};
     userProjects := [];
     qrInvitations := ∅;
     serverTime := 2000;
     faults := [];
     console := [];
     consoleLog := [];
     alerts := [];
     processing := None |}.

(** Bina's active admin membership after an inactive one of hers for
    the same project. *)
Definition bina_old_membership : UserProject.t :=
  {| UserProject.userId := "u2"; UserProject.projectId := "p1";
     UserProject.role := "user"; UserProject.addedAt := 900;
     UserProject.isActive := false |}.

Definition world_team : World :=
  {| users := {[ "u2" := Scenario.bina_doc ]};
     userProjects := [bina_old_membership; Scenario.bina_membership];
     qrInvitations := ∅;
     serverTime := 2000;
     faults := [];
     console := [];
     consoleLog := [];
     alerts := [];
     processing := None |}.

(** The approvals screen before its first load. *)
Definition blank_screen : PendingApprovals.Screen :=
  {| PendingApprovals.pendingUsers := [];
     PendingApprovals.loading := true;
     PendingApprovals.refreshing := false |}.

(** Three signups waiting: Eli through the company-wide invitation qr0,
    Asha and then Dev through the invitation qr1 of project p1. *)
Definition eli_doc : User.t :=
  {| User.name := "Eli"; User.phoneNumber := "+15550105";
     User.globalRole := None; User.isApproved := false;
     User.approvedAt := None; User.userProjects := None |}.

Definition qr0_eli : QrInvitation.t :=
  {| QrInvitation.projectId := None;
     QrInvitation.pendingSignups :=
       Some [ {| Signup.userId := "u5"; Signup.timestamp := 1500 |} ];
     QrInvitation.isPending := true |}.

Definition qr1_two : QrInvitation.t :=
  {| QrInvitation.projectId := Some "p1";
     QrInvitation.pendingSignups :=
       Some [ {| Signup.userId := "u1"; Signup.timestamp := 1000 |};
              {| Signup.userId := "u3"; Signup.timestamp := 1800 |} ];
     QrInvitation.isPending := true |}.

Definition world_queue : World :=
  {| users := {[ "u1" := Scenario.asha_doc; "u3" := dev_doc; "u5" := eli_doc ]};
     userProjects := [Scenario.bina_membership];
     qrInvitations := {[ "qr0" := qr0_eli; "qr1" := qr1_two ]};
     serverTime := 2000;
     faults := [];
     console := [];
     consoleLog := [];
     alerts := [];
     processing := None |}.

(** The same store when the second read of a load (the first user
    document) is rejected. *)
Definition world_queue_flaky : World :=
  set_faults [None; Some unavailable] world_queue.

(** The screen once it has listed Asha's signup. *)
Definition asha_listed : PendingApprovals.ListedUser :=
  PendingApprovals.listedUser "qr1" Scenario.qr1
    {| Signup.userId := "u1"; Signup.timestamp := 1000 |} Scenario.asha_doc.

Definition screen_asha : PendingApprovals.Screen :=
  {| PendingApprovals.pendingUsers := [asha_listed];
     PendingApprovals.loading := false;
     PendingApprovals.refreshing := true |}.

(** Asha's account while a code is out, and the device she logs in from. *)
Definition asha_account : AuthContextLogin.Account :=
  {| AuthContextLogin.phoneNumber := "+15550100";
     AuthContextLogin.currentOTP := Some "482913";
     AuthContextLogin.otpExpiresAt :=
       OtpGenerator.Timestamp (OtpGenerator.ValidDate 1704067500000);
     AuthContextLogin.isBlocked := false;
     AuthContextLogin.lastActive := None;
     AuthContextLogin.firebaseAuthUid := None |}.

Definition device0 : AuthContextLogin.Device :=
  {| AuthContextLogin.accounts := {[ "u1" := asha_account ]};
     AuthContextLogin.currentUser := None;
     AuthContextLogin.anonymousUid := "anon-1";
     AuthContextLogin.clock := 1704067260000;
     AuthContextLogin.serverTime := 1704067261000;
     AuthContextLogin.faults := [];
     AuthContextLogin.console := [] |}.

(** The same device, when the auth service rejects the sign-in. *)
Definition device_no_auth : AuthContextLogin.Device :=
  AuthContextLogin.set_faults [None; None; Some unavailable] device0.

(** The same account, blocked by an administrator. *)
Definition asha_blocked : AuthContextLogin.Account :=
  {| AuthContextLogin.phoneNumber := "+15550100";
     AuthContextLogin.currentOTP := Some "482913";
     AuthContextLogin.otpExpiresAt :=
       OtpGenerator.Timestamp (OtpGenerator.ValidDate 1704067500000);
     AuthContextLogin.isBlocked := true;
     AuthContextLogin.lastActive := None;
     AuthContextLogin.firebaseAuthUid := None |}.

Definition device_blocked : AuthContextLogin.Device :=
  AuthContextLogin.set_accounts {[ "u1" := asha_blocked ]} device0.

(** The user management screen of project p1: a General channel with
    the creator as its only member, a second channel, an inactive
    membership of u4, and two users selected in the dialog. *)
Definition general_p1 : UserManagement.Group :=
  {| UserManagement.group_projectId := "p1";
     UserManagement.isGeneralChannel := true;
     UserManagement.members := Some ["root"] |}.

Definition design_p1 : UserManagement.Group :=
  {| UserManagement.group_projectId := "p1";
     UserManagement.isGeneralChannel := false;
     UserManagement.members := Some ["root"] |}.

Definition old_membership : UserManagement.Membership :=
  {| UserManagement.userId := "u4"; UserManagement.projectId := "p1";
     UserManagement.role := "user"; UserManagement.addedAt := 900;
     UserManagement.isActive := false; UserManagement.addedBy := "root" |}.

Definition management0 : UserManagement.State :=
  {| UserManagement.userProjects := [old_membership];
     UserManagement.groups := {[ "g1" := general_p1; "g2" := design_p1 ]};
     UserManagement.serverTime := 2000;
     UserManagement.faults := [];
     UserManagement.console := [];
     UserManagement.alerts := [];
     UserManagement.processing := false;
     UserManagement.showAddUserModal := true;
     UserManagement.selectedUsers := ["u1"; "u2"] |}.

(** The same screen with u4 selected as well. *)
Definition management_again : UserManagement.State :=
  UserManagement.set_selectedUsers ["u1"; "u4"] management0.

(** The same screen when the store rejects the fourth call. *)
Definition management_flaky : UserManagement.State :=
  UserManagement.set_faults [None; None; None; Some unavailable] management0.

End Samples.

(** * Properties *)

(** ** The OTP generator and checker *)

Import OtpGenerator.

(** ** Numbers: rounding to binary64 *)

Section NumberProperties.

Local Open Scope Q_scope.

Lemma pow2_pos (e : Z) : 0 < pow2 e.
Proof. apply Qpower_0_lt. reflexivity. Qed.

Lemma pow2_lt (a b : Z) : (a < b)%Z -> pow2 a < pow2 b.
Proof. intros H. apply Qpower_lt_compat_l; [exact H | reflexivity]. Qed.

Lemma pow2_le (a b : Z) : (a <= b)%Z -> pow2 a <= pow2 b.
Proof. intros H. apply Qpower_le_compat_l; [exact H | discriminate]. Qed.

Lemma pow2_lt_inv (a b : Z) : pow2 a < pow2 b -> (a < b)%Z.
Proof. intros H. apply (Qpower_lt_compat_l_inv 2); [exact H | reflexivity]. Qed.

Lemma pow2_plus (a b : Z) : pow2 (a + b) == pow2 a * pow2 b.
Proof. apply Qpower_plus. discriminate. Qed.

Lemma pow2_Z (n : Z) : (0 <= n)%Z -> pow2 n == inject_Z (2 ^ n).
Proof. intros H. unfold pow2. rewrite Zpower_Qpower by exact H. reflexivity. Qed.

Lemma div_pow2 (x : Q) (e : Z) : x / pow2 e == x * pow2 (- e).
Proof. unfold Qdiv, pow2. rewrite Qpower_opp. reflexivity. Qed.


(** [ilog2 x] is the integer part of the binary logarithm. *)
Lemma ilog2_spec (x : Q) :
  0 < x -> pow2 (ilog2 x) <= x /\ x < pow2 (ilog2 x + 1).
Proof.
  intros Hx. destruct x as [a b]. unfold Qlt in Hx. cbn in Hx.
  assert (Ha : (0 < a)%Z) by lia.
  pose proof (Z.log2_spec a Ha) as [Ha1 Ha2].
  pose proof (Z.log2_spec (Zpos b) eq_refl) as [Hb1 Hb2].
  pose proof (Z.log2_nonneg a) as Hla.
  pose proof (Z.log2_nonneg (Zpos b)) as Hlb.
  set (la := Z.log2 a) in *. set (lb := Z.log2 (Zpos b)) in *.
  replace (Z.succ la) with (la + 1)%Z in Ha2 by lia.
  replace (Z.succ lb) with (lb + 1)%Z in Hb2 by lia.
  assert (Hpos : forall n, (0 <= n)%Z -> exists p, (2 ^ n)%Z = Zpos p).
  { intros n Hn. pose proof (Z.pow_pos_nonneg 2 n ltac:(lia) Hn).
    destruct (2 ^ n)%Z as [| p | p]; try lia. eauto. }
  destruct (Hpos lb Hlb) as [pb Hpb].
  destruct (Hpos (lb + 1)%Z ltac:(lia)) as [pb1 Hpb1].
  assert (Hup : a # b < pow2 (la - lb + 1)).
  { replace (la - lb + 1)%Z with ((la + 1) + - lb)%Z by lia.
    rewrite pow2_plus, <- div_pow2, !pow2_Z by lia.
    rewrite Hpb, <- Qmake_Qdiv. unfold Qlt. cbn [Qnum Qden]. nia. }
  assert (Hlow : pow2 (la - lb - 1) <= a # b).
  { replace (la - lb - 1)%Z with (la + - (lb + 1))%Z by lia.
    rewrite pow2_plus, <- div_pow2, !pow2_Z by lia.
    rewrite Hpb1, <- Qmake_Qdiv. unfold Qle. cbn [Qnum Qden]. nia. }
  unfold ilog2. cbn [Qnum Qden]. fold la lb.
  destruct (Qle_bool (pow2 (la - lb)) (a # b)) eqn:Hb.
  - split; [apply Qle_bool_iff, Hb | exact Hup].
  - split; [exact Hlow |].
    replace (la - lb - 1 + 1)%Z with (la - lb)%Z by lia.
    apply Qnot_le_lt. intros Hle. apply Qle_bool_iff in Hle. congruence.
Qed.

Lemma ilog2_unique (x : Q) (e : Z) :
  pow2 e <= x -> x < pow2 (e + 1) -> ilog2 x = e.
Proof.
  intros H1 H2.
  assert (Hx : 0 < x) by (pose proof (pow2_pos e); lra).
  destruct (ilog2_spec x Hx) as [H3 H4].
  assert (pow2 e < pow2 (ilog2 x + 1)) by lra.
  assert (pow2 (ilog2 x) < pow2 (e + 1)) by lra.
  apply pow2_lt_inv in H, H0. lia.
Qed.

Lemma ilog2_mono (x y : Q) : 0 < x -> x <= y -> (ilog2 x <= ilog2 y)%Z.
Proof.
  intros Hx Hxy.
  destruct (ilog2_spec x Hx) as [H1 _].
  destruct (ilog2_spec y ltac:(lra)) as [_ H2].
  assert (H : pow2 (ilog2 x) < pow2 (ilog2 y + 1)) by lra.
  apply pow2_lt_inv in H. lia.
Qed.

Lemma ilog2_lt (x : Q) (e : Z) : 0 < x -> x < pow2 e -> (ilog2 x < e)%Z.
Proof.
  intros Hx Hlt. destruct (ilog2_spec x Hx) as [H1 _].
  apply pow2_lt_inv. lra.
Qed.


Local Ltac qcmp H :=
  match type of H with
  | Qcompare _ _ = Eq => apply Qeq_alt in H
  | Qcompare _ _ = Lt => apply Qlt_alt in H
  | Qcompare _ _ = Gt => apply Qgt_alt in H
  end.


Lemma round_half_even_Z (n : Z) : round_half_even (inject_Z n) = n.
Proof.
  unfold round_half_even. rewrite Qfloor_Z.
  destruct (Qcompare (inject_Z n - inject_Z n) (1 # 2)) eqn:Hc;
    [qcmp Hc | reflexivity | qcmp Hc]; exfalso; lra.
Qed.

Lemma round_half_even_mono (p q : Q) :
  p <= q -> (round_half_even p <= round_half_even q)%Z.
Proof.
  intros Hpq.
  pose proof (Qfloor_resp_le _ _ Hpq) as Hf.
  pose proof (Qfloor_le p) as Hp1. pose proof (Qlt_floor p) as Hp2.
  pose proof (Qfloor_le q) as Hq1. pose proof (Qlt_floor q) as Hq2.
  rewrite inject_Z_plus in Hp2, Hq2. change (inject_Z 1) with 1 in Hp2, Hq2.
  unfold round_half_even.
  destruct (Z.eq_dec (Qfloor p) (Qfloor q)) as [Heq | Hne].
  - rewrite <- Heq in *. 
    destruct (Qcompare (p - inject_Z (Qfloor p)) (1 # 2)) eqn:Hcp;
    destruct (Qcompare (q - inject_Z (Qfloor p)) (1 # 2)) eqn:Hcq;
    qcmp Hcp; qcmp Hcq;
    destruct (Z.even (Qfloor p)); try lia; exfalso; lra.
  - assert (Hlt : (Qfloor p + 1 <= Qfloor q)%Z) by lia.
    destruct (Qcompare (p - inject_Z (Qfloor p)) (1 # 2));
    destruct (Qcompare (q - inject_Z (Qfloor q)) (1 # 2));
    destruct (Z.even (Qfloor p)); destruct (Z.even (Qfloor q)); lia.
Qed.


Lemma round_half_even_le (q : Q) (n : Z) :
  q <= inject_Z n -> (round_half_even q <= n)%Z.
Proof.
  intros H. rewrite <- (round_half_even_Z n). apply round_half_even_mono, H.
Qed.

Lemma round_half_even_ge (q : Q) (n : Z) :
  inject_Z n <= q -> (n <= round_half_even q)%Z.
Proof.
  intros H. rewrite <- (round_half_even_Z n). apply round_half_even_mono, H.
Qed.

Lemma ulp_exponent_mono (x y : Q) :
  0 < x -> x <= y -> (ulp_exponent x <= ulp_exponent y)%Z.
Proof.
  intros Hx Hxy. unfold ulp_exponent.
  pose proof (ilog2_mono x y Hx Hxy). lia.
Qed.

Lemma scaled_lt (x : Q) (e k : Z) : x < pow2 (e + k) -> x / pow2 e < pow2 k.
Proof.
  intros H. apply Qlt_shift_div_r; [apply pow2_pos |].
  rewrite <- pow2_plus. replace (k + e)%Z with (e + k)%Z by lia. exact H.
Qed.

Lemma scaled_ge (x : Q) (e k : Z) : pow2 (e + k) <= x -> pow2 k <= x / pow2 e.
Proof.
  intros H. apply Qle_shift_div_l; [apply pow2_pos |].
  rewrite <- pow2_plus. replace (k + e)%Z with (e + k)%Z by lia. exact H.
Qed.

Lemma round_double_pos_nonneg (x : Q) : 0 <= x -> 0 <= round_double_pos x.
Proof.
  intros Hx. unfold round_double_pos.
  apply Qmult_le_0_compat; [| pose proof (pow2_pos (ulp_exponent x)); lra].
  change 0 with (inject_Z 0). rewrite <- Zle_Qle. apply round_half_even_ge.
  change (inject_Z 0) with 0. apply Qle_shift_div_l; [apply pow2_pos | lra].
Qed.

Lemma round_double_pos_mono (x y : Q) :
  0 < x -> x <= y -> round_double_pos x <= round_double_pos y.
Proof.
  intros Hx Hxy. assert (Hy : 0 < y) by lra.
  pose proof (ulp_exponent_mono x y Hx Hxy) as He.
  unfold round_double_pos.
  set (ex := ulp_exponent x) in *. set (ey := ulp_exponent y) in *.
  destruct (Z.eq_dec ex ey) as [Heq | Hne].
  - rewrite <- Heq. apply Qmult_le_compat_r; [| pose proof (pow2_pos ex); lra].
    rewrite <- Zle_Qle. apply round_half_even_mono.
    apply Qmult_le_compat_r; [exact Hxy |].
    apply Qlt_le_weak, Qinv_lt_0_compat, pow2_pos.
  - assert (Hlt : (ex + 1 <= ey)%Z) by lia.
    apply Qle_trans with (pow2 53 * pow2 ex).
    + apply Qmult_le_compat_r; [| pose proof (pow2_pos ex); lra].
      rewrite (pow2_Z 53) by lia. rewrite <- Zle_Qle. apply round_half_even_le.
      rewrite <- (pow2_Z 53) by lia. apply Qlt_le_weak, scaled_lt.
      destruct (ilog2_spec x Hx) as [_ H2].
      eapply Qlt_le_trans; [exact H2 |]. apply pow2_le.
      unfold ex, ulp_exponent. lia.
    + apply Qle_trans with (pow2 52 * pow2 ey).
      * rewrite <- !pow2_plus. apply pow2_le. lia.
      * apply Qmult_le_compat_r; [| pose proof (pow2_pos ey); lra].
        rewrite (pow2_Z 52) by lia. rewrite <- Zle_Qle. apply round_half_even_ge.
        rewrite <- (pow2_Z 52) by lia. apply scaled_ge.
        destruct (ilog2_spec y Hy) as [H1 _].
        eapply Qle_trans; [| exact H1]. apply pow2_le.
        assert (Hex : (-1074 <= ex)%Z) by (unfold ex, ulp_exponent; lia).
        unfold ey, ulp_exponent in *. lia.
Qed.

Lemma round_double_nonneg_mono (x y : Q) :
  0 <= x -> x <= y -> round_double x <= round_double y.
Proof.
  intros Hx Hxy. unfold round_double.
  destruct (Qcompare x 0) eqn:Hcx; qcmp Hcx;
    destruct (Qcompare y 0) eqn:Hcy; qcmp Hcy; try lra.
  - apply round_double_pos_nonneg. lra.
  - apply round_double_pos_mono; assumption.
Qed.



Lemma round_double_0 : round_double 0 == 0.
Proof. reflexivity. Qed.

Lemma round_double_nonneg (x : Q) : 0 <= x -> 0 <= round_double x.
Proof.
  intros Hx. rewrite <- round_double_0 at 1.
  apply round_double_nonneg_mono; lra.
Qed.

Lemma round_double_gt (x : Q) : 0 < x -> round_double x = round_double_pos x.
Proof.
  intros Hx. unfold round_double.
  destruct (Qcompare x 0) eqn:Hc; qcmp Hc; try reflexivity; exfalso; lra.
Qed.


(** A binary64 value below 1 is at most [1 - 2^-53]. *)
Lemma draw_le_largest (r : Q) :
  is_double r -> r < 1 -> r <= largest_draw.
Proof.
  intros Hd Hlt. destruct (Qlt_le_dec 0 r) as [Hpos | Hneg].
  - unfold is_double in Hd. rewrite (round_double_gt r Hpos) in Hd.
    unfold round_double_pos in Hd.
    assert (Hlog : (ilog2 r < 0)%Z) by (apply ilog2_lt; [exact Hpos | exact Hlt]).
    destruct (ilog2_spec r Hpos) as [_ Hup].
    destruct (Z.eq_dec (ilog2 r) (-1)%Z) as [Heq | Hne].
    + assert (He : ulp_exponent r = (-53)%Z) by (unfold ulp_exponent; lia).
      rewrite He in Hd.
      set (n := round_half_even (r / pow2 (-53))) in *.
      assert (Hn : (n < 2 ^ 53)%Z).
      { rewrite Zlt_Qlt. 
        assert (Hr : inject_Z n == r * pow2 53).
        { rewrite <- Hd at 1. rewrite <- Qmult_assoc, <- pow2_plus.
          change (pow2 (-53 + 53)) with 1. ring. }
        rewrite Hr. change (inject_Z (2 ^ 53)) with (1 * pow2 53).
        apply Qmult_lt_compat_r; [apply pow2_pos | exact Hlt]. }
      rewrite <- Hd.
      assert (Hn' : inject_Z n <= inject_Z (2 ^ 53 - 1)) by (rewrite <- Zle_Qle; lia).
      apply Qle_trans with (inject_Z (2 ^ 53 - 1) * pow2 (-53)).
      * apply Qmult_le_compat_r; [exact Hn' |]. pose proof (pow2_pos (-53)). lra.
      * vm_compute. discriminate.
    + assert (Hle : (ilog2 r + 1 <= -1)%Z) by lia.
      apply pow2_le in Hle. change (pow2 (-1)) with (1 # 2) in Hle.
      unfold largest_draw. 
      assert ((1 # 2) <= 9007199254740991 # 9007199254740992) by (vm_compute; discriminate).
      lra.
  - apply Qle_trans with 0; [exact Hneg | vm_compute; discriminate].
Qed.





End NumberProperties.

Section OtpProperties.
Local Open Scope Z_scope.

Lemma digits_of_six (fuel : nat) (n : Z) (acc : string) :
  100000 <= n <= 999999 ->
  digits_of (6 + fuel) n acc =
  String (digit_char (n / 100000))
   (String (digit_char (n / 10000 mod 10))
     (String (digit_char (n / 1000 mod 10))
       (String (digit_char (n / 100 mod 10))
         (String (digit_char (n / 10 mod 10))
           (String (digit_char (n mod 10)) acc))))).
Proof.
  intros Hn.
  assert (H1 : 10000 <= n / 10 <= 99999)
    by (Z.div_mod_to_equations; lia).
  assert (H2 : 1000 <= n / 10 / 10 <= 9999)
    by (Z.div_mod_to_equations; lia).
  assert (H3 : 100 <= n / 10 / 10 / 10 <= 999)
    by (Z.div_mod_to_equations; lia).
  assert (H4 : 10 <= n / 10 / 10 / 10 / 10 <= 99)
    by (Z.div_mod_to_equations; lia).
  assert (H5 : 1 <= n / 10 / 10 / 10 / 10 / 10 <= 9)
    by (Z.div_mod_to_equations; lia).
  assert (H6 : n / 10 / 10 / 10 / 10 / 10 / 10 = 0)
    by (Z.div_mod_to_equations; lia).
  cbn [Nat.add digits_of].
  repeat match goal with
  | |- context [?x =? 0] =>
      first [ rewrite (proj2 (Z.eqb_neq x 0)) by lia
            | rewrite (proj2 (Z.eqb_eq x 0)) by lia ]
  end.
  repeat match goal with |- String _ _ = String _ _ => f_equal end;
    try reflexivity; f_equal; Z.div_mod_to_equations; lia.
Qed.

Lemma Number_toString_six (n : Z) :
  100000 <= n <= 999999 ->
  Number_toString n =
  String (digit_char (n / 100000))
   (String (digit_char (n / 10000 mod 10))
     (String (digit_char (n / 1000 mod 10))
       (String (digit_char (n / 100 mod 10))
         (String (digit_char (n / 10 mod 10))
           (String (digit_char (n mod 10)) EmptyString))))).
Proof.
  intros Hn. unfold Number_toString.
  rewrite (proj2 (Z.ltb_ge n 0)) by lia.
  assert (Hlog : 16 <= Z.log2 n).
  { change 16 with (Z.log2 65536). apply Z.log2_le_mono. lia. }
  replace (S (Z.to_nat (Z.log2 n))) with (6 + (Z.to_nat (Z.log2 n) - 5))%nat by lia.
  apply digits_of_six, Hn.
Qed.

Lemma is_digit_digit_char (d : Z) : 0 <= d <= 9 -> is_digit (digit_char d) = true.
Proof.
  intros Hd. unfold is_digit, digit_char.
  rewrite nat_ascii_embedding by lia.
  apply andb_true_intro; split; apply Nat.leb_le; lia.
Qed.


Lemma digit_char_value (d : Z) :
  0 <= d <= 9 -> Z.of_nat (nat_of_ascii (digit_char d)) - 48 = d.
Proof.
  intros Hd. unfold digit_char. rewrite nat_ascii_embedding by lia. lia.
Qed.


Local Abbreviation otp_number r :=
  (Math_floor (Number_add 100000 (Number_mul r 900000))).

Lemma Number_mul_bounds (r : Q) :
  is_double r -> (0 <= r)%Q -> (r < 1)%Q ->
  (0 <= Number_mul r 900000 <= Number_mul largest_draw 900000)%Q.
Proof.
  intros Hd H0 H1. pose proof (draw_le_largest r Hd H1) as Hmax.
  unfold Number_mul. split.
  - apply round_double_nonneg.
    apply Qmult_le_0_compat; [exact H0 | discriminate].
  - apply round_double_nonneg_mono.
    + apply Qmult_le_0_compat; [exact H0 | discriminate].
    + apply Qmult_le_compat_r; [exact Hmax | discriminate].
Qed.

Lemma otp_number_range (r : Q) :
  is_double r -> (0 <= r)%Q -> (r < 1)%Q ->
  100000 <= otp_number r <= 999999.
Proof.
  intros Hd H0 H1. destruct (Number_mul_bounds r Hd H0 H1) as [Hlo Hhi].
  unfold Math_floor, Number_add.
  set (p := Number_mul r 900000) in *.
  split.
  - apply Z.le_trans with (Qfloor (round_double 100000));
      [vm_compute; discriminate |].
    apply Qfloor_resp_le, round_double_nonneg_mono; [discriminate | lra].
  - apply Z.le_trans
      with (Qfloor (round_double (100000 + Number_mul largest_draw 900000)));
      [| vm_compute; discriminate].
    apply Qfloor_resp_le, round_double_nonneg_mono; lra.
Qed.




Lemma generateOTP_digits (r : Q) :
  is_double r -> (0 <= r)%Q -> (r < 1)%Q ->
  String.length (generateOTP r) = 6%nat
  /\ all_digits (generateOTP r) = true
  /\ decimal_value (generateOTP r) = otp_number r.
Proof.
  intros Hd H0 H1. unfold generateOTP.
  pose proof (otp_number_range r Hd H0 H1) as Hn.
  set (n := otp_number r) in *. clearbody n.
  rewrite (Number_toString_six n Hn).
  split; [reflexivity |]. split.
  - cbn [all_digits].
    rewrite !is_digit_digit_char by (Z.div_mod_to_equations; lia).
    reflexivity.
  - unfold decimal_value. cbn [decimal_value_from].
    rewrite !digit_char_value by (Z.div_mod_to_equations; lia).
    Z.div_mod_to_equations; lia.
Qed.

Lemma getOTPExpiration_in_range (now : Z) :
  - maxTime <= now <= maxTime - 300000 ->
  getOTPExpiration now = ValidDate (now + 300000).
Proof.
  intros Hnow. unfold getOTPExpiration, new_Date, maxTime in *.
  replace (now + 5 * 60 * 1000) with (now + 300000) by lia.
  rewrite (proj2 (Z.leb_le _ _)) by lia. reflexivity.
Qed.


End OtpProperties.


Section VerifyProperties.

Local Open Scope Z_scope.
Local Open Scope string_scope.

Variable Date_parse : string -> option Z.

Lemma falsy_nonempty (code : string) :
  code <> "" -> Js.falsy (Some code) = false.
Proof. intros H. unfold Js.falsy. destruct (decide (code = "")); congruence. Qed.

(** With two equal non-empty codes the checker reaches the expiry
    normalisation. *)
Lemma verifyOTP_same_code (now : Z) (code : string) (expiresAt : ExpiresAt) :
  code <> "" ->
  verifyOTP Date_parse now (Some code) (Some code) expiresAt =
  match expirationDate Date_parse expiresAt with
  | None => {| valid := false; message := "Invalid OTP expiration" |}
  | Some d =>
      if Date_gt (ValidDate now) d
      then {| valid := false; message := "OTP has expired" |}
      else {| valid := true; message := "OTP verified successfully" |}
  end.
Proof.
  intros Hcode. unfold verifyOTP, Js.strict_ne.
  rewrite (falsy_nonempty code Hcode). cbn [orb].
  destruct (decide (Some code = Some code)); [reflexivity | congruence].
Qed.

End VerifyProperties.

(** C4. With the correct non-empty code and an expiry that normalises to
    a valid instant [e], the checker answers "OTP has expired" exactly
    when [now > e] and accepts exactly when [now <= e]; for a code
    expiring at T+5m, T+4m59s is accepted and T+5m1s is refused as
    expired. *)
Theorem verifyOTP_expired_iff_now_after_expiry :
  (forall (Date_parse : string -> option Z) (now e : Z) (code : string)
          (expiresAt : ExpiresAt),
     code <> EmptyString ->
     expirationDate Date_parse expiresAt = Some (ValidDate e) ->
     (verifyOTP Date_parse now (Some code) (Some code) expiresAt
        = {| valid := false; message := "OTP has expired" |} <-> (e < now)%Z)
     /\ (verifyOTP Date_parse now (Some code) (Some code) expiresAt
        = {| valid := true; message := "OTP verified successfully" |}
         <-> (now <= e)%Z))
  /\
  (forall (Date_parse : string -> option Z) (T : Z),
     verifyOTP Date_parse (T + (4 * 60 + 59) * 1000)
       (Some "482913"%string) (Some "482913"%string)
       (Timestamp (ValidDate (T + 5 * 60 * 1000)))
     = {| valid := true; message := "OTP verified successfully" |}
     /\
     verifyOTP Date_parse (T + (5 * 60 + 1) * 1000)
       (Some "482913"%string) (Some "482913"%string)
       (Timestamp (ValidDate (T + 5 * 60 * 1000)))
     = {| valid := false; message := "OTP has expired" |}).
Proof.
  assert (Hgen : forall (Date_parse : string -> option Z) (now e : Z)
            (code : string) (expiresAt : ExpiresAt),
     code <> EmptyString ->
     expirationDate Date_parse expiresAt = Some (ValidDate e) ->
     (verifyOTP Date_parse now (Some code) (Some code) expiresAt
        = {| valid := false; message := "OTP has expired" |} <-> (e < now)%Z)
     /\ (verifyOTP Date_parse now (Some code) (Some code) expiresAt
        = {| valid := true; message := "OTP verified successfully" |}
         <-> (now <= e)%Z)).
  { intros Date_parse now e code expiresAt Hcode Hexp.
    rewrite (verifyOTP_same_code Date_parse now code expiresAt Hcode), Hexp.
    cbn [Date_gt]. destruct (Z.ltb_spec e now) as [Hlt | Hge].
    - split; split; intros H; try reflexivity; try assumption;
        try discriminate; lia.
    - split; split; intros H; try reflexivity; try assumption;
        try discriminate; lia. }
  split; [exact Hgen |].
  intros Date_parse T. split.
  - apply (Hgen Date_parse _ (T + 5 * 60 * 1000)%Z "482913"%string);
      [discriminate | reflexivity | lia].
  - apply (Hgen Date_parse _ (T + 5 * 60 * 1000)%Z "482913"%string);
      [discriminate | reflexivity | lia].
Qed.

Lemma verifyOTP_expired_iff_now_after_expiry_witness :
  "482913"%string <> EmptyString
  /\ expirationDate sample_Date_parse (StringValue "2024-01-01T00:05:00.000Z")
     = Some (ValidDate 1704067500000)
  /\ verifyOTP sample_Date_parse 1704067501000
       (Some "482913"%string) (Some "482913"%string)
       (StringValue "2024-01-01T00:05:00.000Z")
     = {| valid := false; message := "OTP has expired" |}.
Proof.
  assert (Hcode : "482913"%string <> EmptyString) by discriminate.
  assert (Hexp : expirationDate sample_Date_parse
                   (StringValue "2024-01-01T00:05:00.000Z")
                 = Some (ValidDate 1704067500000)) by reflexivity.
  split; [exact Hcode |]. split; [exact Hexp |].
  apply (proj1 (proj1 verifyOTP_expired_iff_now_after_expiry sample_Date_parse
                  1704067501000%Z 1704067500000%Z "482913"%string _ Hcode Hexp)).
  lia.
Defined.

(** C5. Two different non-empty codes are refused with "Invalid OTP"
    (the strings are compared as they are), whatever [expiresAt] is:
    past, absent or not a date at all. *)
Theorem verifyOTP_mismatch_whatever_expiry :
  forall (Date_parse : string -> option Z) (now : Z) (entered stored : string)
         (expiresAt : ExpiresAt),
    entered <> EmptyString -> stored <> EmptyString -> entered <> stored ->
    verifyOTP Date_parse now (Some entered) (Some stored) expiresAt
    = {| valid := false; message := "Invalid OTP" |}.
Proof.
  intros Date_parse now entered stored expiresAt He Hs Hne.
  unfold verifyOTP, Js.strict_ne.
  rewrite (falsy_nonempty entered He), (falsy_nonempty stored Hs). cbn [orb].
  destruct (decide (Some entered = Some stored)) as [Heq | _]; [| reflexivity].
  congruence.
Qed.

Lemma verifyOTP_mismatch_whatever_expiry_witness :
  verifyOTP sample_Date_parse 1704067260000
    (Some "482914"%string) (Some "482913"%string) OtherValue
  = {| valid := false; message := "Invalid OTP" |}.
Proof.
  apply (verifyOTP_mismatch_whatever_expiry sample_Date_parse 1704067260000%Z
           "482914"%string "482913"%string OtherValue); discriminate.
Defined.

(** C10. With the correct non-empty code, a string [expiresAt] that does
    not parse is still normalised (to an invalid date), [now > invalid]
    is false, and the code is accepted; "Invalid OTP expiration" is
    answered exactly when [expiresAt] has none of the three shapes. *)
Theorem verifyOTP_unparsable_string_accepted :
  (forall (Date_parse : string -> option Z) (now : Z) (code s : string),
     code <> EmptyString -> Date_parse s = None ->
     expirationDate Date_parse (StringValue s) = Some InvalidDate
     /\ Date_gt (ValidDate now) InvalidDate = false
     /\ verifyOTP Date_parse now (Some code) (Some code) (StringValue s)
        = {| valid := true; message := "OTP verified successfully" |})
  /\
  (forall (Date_parse : string -> option Z) (now : Z) (code : string)
          (expiresAt : ExpiresAt),
     code <> EmptyString ->
     (verifyOTP Date_parse now (Some code) (Some code) expiresAt
      = {| valid := false; message := "Invalid OTP expiration" |}
      <-> expiresAt = OtherValue)).
Proof.
  split.
  - intros Date_parse now code s Hcode Hparse.
    assert (Hexp : expirationDate Date_parse (StringValue s) = Some InvalidDate).
    { unfold expirationDate, new_Date_string. rewrite Hparse. reflexivity. }
    split; [exact Hexp |]. split; [reflexivity |].
    rewrite (verifyOTP_same_code Date_parse now code _ Hcode), Hexp. reflexivity.
  - intros Date_parse now code expiresAt Hcode.
    rewrite (verifyOTP_same_code Date_parse now code _ Hcode).
    destruct expiresAt as [d | d | s |]; cbn [expirationDate].
    + destruct (Date_gt (ValidDate now) d); split; discriminate.
    + destruct (Date_gt (ValidDate now) d); split; discriminate.
    + destruct (Date_gt (ValidDate now) (new_Date_string Date_parse s));
        split; discriminate.
    + split; reflexivity.
Qed.

Lemma verifyOTP_unparsable_string_accepted_witness :
  "482913"%string <> EmptyString
  /\ sample_Date_parse "next tuesday" = None
  /\ verifyOTP sample_Date_parse 1704067260000
       (Some "482913"%string) (Some "482913"%string) (StringValue "next tuesday")
     = {| valid := true; message := "OTP verified successfully" |}
  /\ (verifyOTP sample_Date_parse 1704067260000
       (Some "482913"%string) (Some "482913"%string) OtherValue
      = {| valid := false; message := "Invalid OTP expiration" |}).
Proof.
  assert (Hcode : "482913"%string <> EmptyString) by discriminate.
  assert (Hparse : sample_Date_parse "next tuesday" = None) by reflexivity.
  split; [exact Hcode |]. split; [exact Hparse |]. split.
  - exact (proj2 (proj2 (proj1 verifyOTP_unparsable_string_accepted
             sample_Date_parse 1704067260000%Z "482913"%string
             "next tuesday"%string Hcode Hparse))).
  - apply (proj2 verifyOTP_unparsable_string_accepted
             sample_Date_parse 1704067260000%Z "482913"%string OtherValue Hcode).
    reflexivity.
Defined.

(** ** The store monad: invariants through awaited calls *)

Import Firestore PendingApprovals.

Section Preservation.

Context (I : World -> Prop).

Lemma preserves_mret {A} (a : A) : preserves I (mret a).
Proof. intros w Hw. exact Hw. Qed.

Lemma preserves_bind {A B} (m : Fire A) (f : A -> Fire B) :
  preserves I m -> (forall a, preserves I (f a)) -> preserves I (m ≫= f).
Proof.
  intros Hm Hf w Hw. specialize (Hm w Hw). unfold after in *.
  unfold mbind, Fire_bind. destruct (m w) as [[a | e] w']; cbn in *.
  - apply Hf, Hm.
  - exact Hm.
Qed.

Lemma preserves_try_catch {A} (m : Fire A) (h : Error -> Fire A) :
  preserves I m -> (forall e, preserves I (h e)) -> preserves I (try_catch m h).
Proof.
  intros Hm Hh w Hw. specialize (Hm w Hw). unfold after in *.
  unfold try_catch. destruct (m w) as [[a | e] w']; cbn in *.
  - exact Hm.
  - apply Hh, Hm.
Qed.

Lemma preserves_try_finally {A} (m : Fire A) (f : World -> World) :
  preserves I m -> (forall w, I w -> I (f w)) -> preserves I (try_finally m f).
Proof.
  intros Hm Hf w Hw. specialize (Hm w Hw). unfold after in *.
  unfold try_finally. destruct (m w) as [r w']; cbn in *. apply Hf, Hm.
Qed.

Lemma preserves_request {A} (op : Fire A) :
  (forall f w, I w -> I (set_faults f w)) ->
  preserves I op -> preserves I (request op).
Proof.
  intros Hf Hop w Hw. unfold after, request.
  destruct (faults w) as [| [e |] rest]; cbn.
  - apply Hop, Hw.
  - apply Hf, Hw.
  - apply Hop, Hf, Hw.
Qed.

End Preservation.

(** ** The reads of [loadPendingUsers] against the schedule *)

Section LoadRuns.

Local Open Scope list_scope.

Lemma set_faults_faults (w : World) : set_faults (faults w) w = w.
Proof. destruct w; reflexivity. Qed.

Lemma set_faults_twice (f g : list (option Error)) (w : World) :
  set_faults f (set_faults g w) = set_faults f w.
Proof. reflexivity. Qed.

Lemma bind_run {A B} (m : Fire A) (f : A -> Fire B) (w : World) :
  (m ≫= f) w
  = match m w with
    | (Ok a, w') => f a w'
    | (Throw e, w') => (Throw e, w')
    end.
Proof. reflexivity. Qed.

Lemma try_catch_run {A} (m : Fire A) (h : Error -> Fire A) (w : World) :
  try_catch m h w
  = match m w with
    | (Ok a, w') => (Ok a, w')
    | (Throw e, w') => h e w'
    end.
Proof. reflexivity. Qed.

Lemma next_fault_nil (n : nat) : next_fault n [] = (None, []).
Proof. destruct n; reflexivity. Qed.

Lemma next_fault_add (a b : nat) (fs : list (option Error)) :
  next_fault (a + b) fs
  = match next_fault a fs with
    | (None, rest) => next_fault b rest
    | (Some e, rest) => (Some e, rest)
    end.
Proof.
  revert fs. induction a as [| a IH]; intros fs; [reflexivity |].
  destruct fs as [| [e |] rest]; cbn.
  - symmetry. apply next_fault_nil.
  - reflexivity.
  - apply IH.
Qed.

(** A read answers or is rejected as the schedule says, and moves
    nothing but the schedule. *)
Lemma read_exact {A} (answer : World -> A) (w : World) :
  (forall f w0, answer (set_faults f w0) = answer w0) ->
  request (fun w0 => (Ok (answer w0), w0)) w
  = match next_fault 1 (faults w) with
    | (None, rest) => (Ok (answer w), set_faults rest w)
    | (Some e, rest) => (Throw e, set_faults rest w)
    end.
Proof.
  intros Hanswer. unfold request.
  destruct (faults w) as [| [e |] rest] eqn:Hf; cbn.
  - rewrite <- Hf, set_faults_faults. reflexivity.
  - reflexivity.
  - rewrite Hanswer. reflexivity.
Qed.

Lemma fetchSignups_exact (k : string) (q : QrInvitation.t)
    (signups : list Signup.t) :
  forall (pending : list ListedUser) (w : World),
    fetchSignups k q signups pending w
    = match next_fault (length signups) (faults w) with
      | (None, rest) =>
          (Ok (pending ++ signupEntries (users w) k q signups), set_faults rest w)
      | (Some e, rest) => (Throw e, set_faults rest w)
      end.
Proof.
  induction signups as [| s signups IH]; intros pending w.
  - cbn. rewrite app_nil_r, set_faults_faults. reflexivity.
  - cbn [fetchSignups]. rewrite bind_run. unfold users_get.
    rewrite (read_exact (fun w0 => users w0 !! Signup.userId s))
      by reflexivity.
    assert (Heq : forall pending',
      pending' = match users w !! Signup.userId s with
                 | Some d => pending ++ [listedUser k q s d]
                 | None => pending
                 end ->
      pending' ++ signupEntries (users w) k q signups
      = pending ++ signupEntries (users w) k q (s :: signups)).
    { intros pending' ->. cbn [signupEntries flat_map].
      fold (signupEntries (users w) k q signups).
      destruct (users w !! Signup.userId s); cbn; [rewrite <- app_assoc |];
        reflexivity. }
    destruct (faults w) as [| [e |] rest] eqn:Hf; cbn [next_fault length].
    + rewrite IH. cbn [faults set_faults users]. rewrite next_fault_nil.
      rewrite (Heq _ eq_refl). reflexivity.
    + reflexivity.
    + rewrite IH. cbn [faults set_faults users].
      destruct (next_fault (length signups) rest) as [[e |] rest'];
        [reflexivity |].
      rewrite (Heq _ eq_refl). reflexivity.
Qed.

Lemma signupCount_cons (k : string) (q : QrInvitation.t)
    (docs : list (string * QrInvitation.t)) :
  signupCount ((k, q) :: docs)
  = (length (default [] (QrInvitation.pendingSignups q)) + signupCount docs)%nat.
Proof. unfold signupCount. cbn. apply length_app. Qed.

Lemma fetchInvitations_exact (docs : list (string * QrInvitation.t)) :
  forall (pending : list ListedUser) (w : World),
    fetchInvitations docs pending w
    = match next_fault (signupCount docs) (faults w) with
      | (None, rest) =>
          (Ok (pending ++ invitationEntries (users w) docs), set_faults rest w)
      | (Some e, rest) => (Throw e, set_faults rest w)
      end.
Proof.
  induction docs as [| [k q] docs IH]; intros pending w.
  - cbn. rewrite app_nil_r, set_faults_faults. reflexivity.
  - cbn [fetchInvitations]. rewrite bind_run, fetchSignups_exact.
    rewrite signupCount_cons, next_fault_add.
    destruct (next_fault (length (default [] (QrInvitation.pendingSignups q)))
                (faults w)) as [[e |] rest]; [reflexivity |].
    rewrite IH. cbn [faults set_faults users].
    destruct (next_fault (signupCount docs) rest) as [[e |] rest'];
      [reflexivity |].
    cbn [invitationEntries flat_map]. fold (invitationEntries (users w) docs).
    cbn [fst snd]. rewrite <- app_assoc. reflexivity.
Qed.

(** What [loadPendingUsers] does, read off the schedule: it makes the
    query and one [get] per signup of the snapshot; if all are
    answered it sets the new list, and at the first rejection it stops,
    logs, alerts and keeps the list the screen had. *)
Lemma loadPendingUsers_exact (screen : Screen) (w : World) :
  loadPendingUsers screen w
  = match next_fault (loadCalls w) (faults w) with
    | (None, rest) =>
        (Ok {| pendingUsers := pendingEntries w;
               loading := false; refreshing := false |},
         set_faults rest w)
    | (Some e, rest) =>
        (Ok {| pendingUsers := pendingUsers screen;
               loading := false; refreshing := false |},
         set_alerts (alerts w ++ [("Error", "Failed to load pending approvals")%string])
           (set_console (console w ++ [("Error loading pending users:"%string, e)])
              (set_faults rest w)))
    end.
Proof.
  unfold loadPendingUsers, loadCalls. rewrite try_catch_run, bind_run.
  unfold qrInvitations_where_isPending.
  rewrite (read_exact
             (fun w0 => List.filter (fun d => QrInvitation.isPending (snd d))
                          (docs_by_id (qrInvitations w0))))
    by reflexivity.
  set (docs := List.filter (fun d => QrInvitation.isPending (snd d))
                 (docs_by_id (qrInvitations w))).
  change (S (signupCount docs)) with (1 + signupCount docs)%nat.
  rewrite next_fault_add.
  destruct (next_fault 1 (faults w)) as [[e |] rest]; [reflexivity |].
  rewrite bind_run, fetchInvitations_exact. cbn [faults set_faults users].
  destruct (next_fault (signupCount docs) rest) as [[e |] rest']; reflexivity.
Qed.

Lemma loadPendingUsers_run (screen : Screen) (w : World) :
  exists fs,
    (loadPendingUsers screen w
     = (Ok {| pendingUsers := pendingEntries w;
              loading := false; refreshing := false |},
        set_faults fs w)
     \/ exists e,
          loadPendingUsers screen w
          = (Ok {| pendingUsers := pendingUsers screen;
                   loading := false; refreshing := false |},
             set_alerts (alerts w ++ [("Error", "Failed to load pending approvals")%string])
               (set_console (console w ++ [("Error loading pending users:"%string, e)])
                  (set_faults fs w))))
    /\ (faults w = [] ->
        loadPendingUsers screen w
        = (Ok {| pendingUsers := pendingEntries w;
                 loading := false; refreshing := false |}, w)).
Proof.
  rewrite loadPendingUsers_exact.
  destruct (next_fault (loadCalls w) (faults w)) as [[e |] rest] eqn:Hn.
  - exists rest. split; [right; exists e; reflexivity |].
    intros Hf. rewrite Hf, next_fault_nil in Hn. discriminate.
  - exists rest. split; [left; reflexivity |].
    intros Hf. rewrite Hf, next_fault_nil in Hn. injection Hn as <-.
    rewrite <- Hf, set_faults_faults. reflexivity.
Qed.

(** The refresh writes no document, and leaves the processing flag
    and the plain log alone. *)
Lemma loadPendingUsers_frame (screen : Screen) (w : World) :
  users (after (loadPendingUsers screen) w) = users w
  /\ userProjects (after (loadPendingUsers screen) w) = userProjects w
  /\ qrInvitations (after (loadPendingUsers screen) w) = qrInvitations w
  /\ serverTime (after (loadPendingUsers screen) w) = serverTime w
  /\ consoleLog (after (loadPendingUsers screen) w) = consoleLog w
  /\ processing (after (loadPendingUsers screen) w) = processing w.
Proof.
  unfold after. rewrite loadPendingUsers_exact.
  destruct (next_fault (loadCalls w) (faults w)) as [[e |] rest];
    repeat split; reflexivity.
Qed.

Lemma loadPendingUsers_quiet (screen : Screen) (w : World) :
  faults w = [] -> after (loadPendingUsers screen) w = w.
Proof.
  intros Hf. destruct (loadPendingUsers_run screen w) as (_ & _ & Hcalm).
  unfold after. rewrite (Hcalm Hf). reflexivity.
Qed.

(** It shows no alert and logs nothing, or shows its error alert and
    logs the error. *)
Lemma loadPendingUsers_reports (screen : Screen) (w : World) :
  (alerts (after (loadPendingUsers screen) w) = alerts w
   /\ console (after (loadPendingUsers screen) w) = console w)
  \/ exists e,
       alerts (after (loadPendingUsers screen) w)
       = alerts w ++ [("Error", "Failed to load pending approvals")%string]
       /\ console (after (loadPendingUsers screen) w)
          = console w ++ [("Error loading pending users:"%string, e)].
Proof.
  unfold after. rewrite loadPendingUsers_exact.
  destruct (next_fault (loadCalls w) (faults w)) as [[e |] rest]; cbn.
  - right. exists e. split; reflexivity.
  - left. split; reflexivity.
Qed.

End LoadRuns.

(** ** Approval and rejection of a pending signup *)

Ltac run_fire :=
  unfold after, outcome, approveSteps, rejectSteps,
    RoleHelper.getUserRoleInProject, RoleHelper.hasAccessToProject,
    try_finally, try_catch,
    users_update, users_delete, userProjects_add, userProjects_where,
    qrInvitations_get, qrInvitations_update, console_error, console_log,
    Alert_alert, setProcessing, request, mbind, mret, Fire_bind, Fire_ret;
  cbn.

Section Refresh.

Local Open Scope string_scope.
Local Open Scope list_scope.

(** Both functions run their awaited steps; if a step throws they log
    and alert, otherwise the refresh runs; the processing flag is
    cleared either way. *)
Lemma approveUser_after (user : PendingUser) (screen : Screen) (w : World) :
  after (approveUser user screen) w
  = match approveSteps user w with
    | (Ok _, w1) => set_processing None (after (loadPendingUsers screen) w1)
    | (Throw error, w1) =>
        set_processing None
          (set_alerts (alerts w1 ++ [("Error", "Failed to approve user")])
             (set_console (console w1 ++ [("Error approving user:", error)]) w1))
    end.
Proof.
  unfold after, approveUser, try_finally, try_catch. rewrite bind_run.
  destruct (approveSteps user w) as [[[] | e] w1]; cbn.
  - rewrite loadPendingUsers_exact.
    destruct (next_fault (loadCalls w1) (faults w1)) as [[e |] rest]; reflexivity.
  - reflexivity.
Qed.

Lemma rejectUser_after (user : PendingUser) (screen : Screen) (w : World) :
  after (rejectUser user screen) w
  = match rejectSteps user w with
    | (Ok _, w1) => set_processing None (after (loadPendingUsers screen) w1)
    | (Throw error, w1) =>
        set_processing None
          (set_alerts (alerts w1 ++ [("Error", "Failed to reject user")])
             (set_console (console w1 ++ [("Error rejecting user:", error)]) w1))
    end.
Proof.
  unfold after, rejectUser, try_finally, try_catch. rewrite bind_run.
  destruct (rejectSteps user w) as [[[] | e] w1]; cbn.
  - rewrite loadPendingUsers_exact.
    destruct (next_fault (loadCalls w1) (faults w1)) as [[e |] rest]; reflexivity.
  - reflexivity.
Qed.

(** The same, with the refresh as a function [refresh] of the world of
    which only what the proofs below use is kept. *)
Lemma refresh_view (screen : Screen) :
  exists refresh : World -> World,
    (forall user w,
       after (approveUser user screen) w
       = match approveSteps user w with
         | (Ok _, w1) => set_processing None (refresh w1)
         | (Throw error, w1) =>
             set_processing None
               (set_alerts (alerts w1 ++ [("Error", "Failed to approve user")])
                  (set_console (console w1 ++ [("Error approving user:", error)])
                     w1))
         end)
    /\ (forall user w,
          after (rejectUser user screen) w
          = match rejectSteps user w with
            | (Ok _, w1) => set_processing None (refresh w1)
            | (Throw error, w1) =>
                set_processing None
                  (set_alerts (alerts w1 ++ [("Error", "Failed to reject user")])
                     (set_console (console w1 ++ [("Error rejecting user:", error)])
                        w1))
            end)
    /\ (forall w, users (refresh w) = users w)
    /\ (forall w, userProjects (refresh w) = userProjects w)
    /\ (forall w, qrInvitations (refresh w) = qrInvitations w)
    /\ (forall w, consoleLog (refresh w) = consoleLog w)
    /\ (forall w, faults w = [] -> refresh w = w)
    /\ (forall w,
          (alerts (refresh w) = alerts w /\ console (refresh w) = console w)
          \/ exists e,
               alerts (refresh w)
               = alerts w ++ [("Error", "Failed to load pending approvals")]
               /\ console (refresh w)
                  = console w ++ [("Error loading pending users:", e)]).
Proof.
  exists (after (loadPendingUsers screen)).
  split; [intros; apply approveUser_after |].
  split; [intros; apply rejectUser_after |].
  split; [intros w; apply loadPendingUsers_frame |].
  split; [intros w; apply loadPendingUsers_frame |].
  split; [intros w; apply loadPendingUsers_frame |].
  split; [intros w; apply loadPendingUsers_frame |].
  split; [intros w; apply loadPendingUsers_quiet |].
  intros w. apply loadPendingUsers_reports.
Qed.

End Refresh.

Section PendingFlag.

Local Open Scope string_scope.

Lemma flag_ok_removePending (user : PendingUser) (qrData : QrInvitation.t) :
  flag_ok (removePending user qrData).
Proof. reflexivity. Qed.

Lemma flags_ok_set_faults f w : flags_ok w -> flags_ok (set_faults f w).
Proof. intros H. exact H. Qed.

Lemma preserves_flags_same_invitations {A} (op : Fire A) :
  (forall w, qrInvitations (after op w) = qrInvitations w) ->
  preserves flags_ok op.
Proof. intros Hop w Hw. unfold flags_ok in *. rewrite Hop. exact Hw. Qed.

Lemma users_update_flags id fields : preserves flags_ok (users_update id fields).
Proof.
  apply preserves_request; [exact flags_ok_set_faults |].
  apply preserves_flags_same_invitations. intros w. unfold after.
  destruct (users w !! id); reflexivity.
Qed.

Lemma users_delete_flags id : preserves flags_ok (users_delete id).
Proof.
  apply preserves_request; [exact flags_ok_set_faults |].
  apply preserves_flags_same_invitations. reflexivity.
Qed.

Lemma userProjects_add_flags data : preserves flags_ok (userProjects_add data).
Proof.
  apply preserves_request; [exact flags_ok_set_faults |].
  apply preserves_flags_same_invitations. reflexivity.
Qed.

Lemma qrInvitations_get_flags id : preserves flags_ok (qrInvitations_get id).
Proof.
  apply preserves_request; [exact flags_ok_set_faults |].
  apply preserves_flags_same_invitations. reflexivity.
Qed.

Lemma qrInvitations_update_flags id fields :
  (forall d, flag_ok (fields d)) ->
  preserves flags_ok (qrInvitations_update id fields).
Proof.
  intros Hfields. apply preserves_request; [exact flags_ok_set_faults |].
  intros w Hw. unfold after. cbn.
  destruct (qrInvitations w !! id) as [d |] eqn:Hd; cbn; [| exact Hw].
  apply map_Forall_insert_2; [apply Hfields | exact Hw].
Qed.

Lemma removal_flags (user : PendingUser) (qrDoc : option QrInvitation.t) :
  preserves flags_ok
    (match qrDoc with
     | Some qrData =>
         qrInvitations_update (qrId user) (fun _ => removePending user qrData)
     | None => mret tt
     end).
Proof.
  destruct qrDoc as [qrData |].
  - apply qrInvitations_update_flags. intros _. apply flag_ok_removePending.
  - apply preserves_mret.
Qed.

Lemma loadPendingUsers_flags (screen : Screen) :
  preserves flags_ok (loadPendingUsers screen).
Proof.
  apply preserves_flags_same_invitations. intros w.
  apply loadPendingUsers_frame.
Qed.

Ltac keeps_flags :=
  repeat first
    [ apply loadPendingUsers_flags
    | apply preserves_try_finally; [| intros ? H; exact H]
    | apply preserves_try_catch; [| intros ?]
    | apply preserves_bind; [| intros ?]
    | apply users_update_flags
    | apply users_delete_flags
    | apply userProjects_add_flags
    | apply qrInvitations_get_flags
    | apply removal_flags
    | apply preserves_mret
    | apply preserves_flags_same_invitations; reflexivity ].

Lemma approveUser_keeps_flags (user : PendingUser) (screen : Screen) :
  preserves flags_ok (approveUser user screen).
Proof.
  unfold approveUser, approveSteps. keeps_flags.
  destruct (Js.truthy (projectId user)); keeps_flags.
Qed.

Lemma rejectUser_keeps_flags (user : PendingUser) (screen : Screen) :
  preserves flags_ok (rejectUser user screen).
Proof. unfold rejectUser, rejectSteps. keeps_flags. Qed.

End PendingFlag.

Section Transitions.

Local Open Scope string_scope.

Lemma approveUser_missing_user (w : World) (user : PendingUser) (screen : Screen) :
  users w !! id user = None ->
  after (approveUser user screen) w =
  {| users := users w;
     userProjects := userProjects w;
     qrInvitations := qrInvitations w;
     serverTime := serverTime w;
     faults := tail (faults w);
     console := console w ++
       [("Error approving user:",
         match faults w with Some e :: _ => e | _ => not_found end)];
     consoleLog := consoleLog w;
     alerts := alerts w ++ [("Error", "Failed to approve user")];
     processing := None |}.
Proof.
  intros Huser. rewrite approveUser_after.
  destruct w as [us ups qrs now fs con lg al pr]. cbn in Huser.
  run_fire. destruct fs as [| [e |] rest]; cbn; rewrite ?Huser; reflexivity.
Qed.

Lemma approveUser_effect (w : World) (user : PendingUser) (screen : Screen)
    (d : User.t) (q : QrInvitation.t) :
  faults w = [] ->
  users w !! id user = Some d ->
  qrInvitations w !! qrId user = Some q ->
  after (approveUser user screen) w =
  {| users := <[id user := markApproved (serverTime w) d]> (users w);
     userProjects :=
       userProjects w ++
       (if Js.truthy (projectId user)
        then [newMembership user (default "" (projectId user)) (serverTime w)]
        else []);
     qrInvitations := <[qrId user := removePending user q]> (qrInvitations w);
     serverTime := serverTime w;
     faults := [];
     console := console w;
     consoleLog := consoleLog w;
     alerts := alerts w ++ [("Success", name user ++ " has been approved!")];
     processing := None |}.
Proof.
  intros Hf Huser Hqr.
  destruct (refresh_view screen) as (refresh & Ha & _ & _ & _ & _ & _ & Hquiet & _).
  rewrite Ha. destruct w as [us ups qrs now fs con lg al pr].
  cbn in Hf, Huser, Hqr. subst fs.
  run_fire. rewrite Huser. cbn.
  destruct (Js.truthy (projectId user)); cbn; rewrite Hqr; cbn; rewrite ?Hqr; cbn;
    rewrite Hquiet by reflexivity; cbn; rewrite ?app_nil_r; reflexivity.
Qed.

Lemma rejectUser_effect (w : World) (user : PendingUser) (screen : Screen)
    (q : QrInvitation.t) :
  faults w = [] ->
  qrInvitations w !! qrId user = Some q ->
  after (rejectUser user screen) w =
  {| users := delete (id user) (users w);
     userProjects := userProjects w;
     qrInvitations := <[qrId user := removePending user q]> (qrInvitations w);
     serverTime := serverTime w;
     faults := [];
     console := console w;
     consoleLog := consoleLog w ++ [("User removed from Firestore:", id user)];
     alerts := alerts w ++ [("Success", name user ++ " has been rejected and removed.")];
     processing := None |}.
Proof.
  intros Hf Hqr.
  destruct (refresh_view screen) as (refresh & _ & Hr & _ & _ & _ & _ & Hquiet & _).
  rewrite Hr. destruct w as [us ups qrs now fs con lg al pr].
  cbn in Hf, Hqr. subst fs.
  run_fire. rewrite Hqr. cbn. rewrite Hqr. cbn.
  rewrite Hquiet by reflexivity. reflexivity.
Qed.

(** Once the [delete] call is answered the user document is gone,
    whatever happens to the calls after it. *)
Lemma rejectUser_deletes (w : World) (user : PendingUser) (screen : Screen) :
  (forall e rest, faults w <> Some e :: rest) ->
  users (after (rejectUser user screen) w) !! id user = None.
Proof.
  intros Hf.
  destruct (refresh_view screen) as (refresh & _ & Hr & Hu & _).
  rewrite Hr. destruct w as [us ups qrs now fs con lg al pr]. cbn in Hf.
  run_fire.
  destruct fs as [| [e |] fs]; [| exfalso; eapply Hf; reflexivity |]; cbn;
    repeat match goal with
      | |- context [match ?l with [] => _ | _ :: _ => _ end] =>
          is_var l; destruct l as [| [? |] ?]; cbn
      | |- context [qrs !! qrId user] => destruct (qrs !! qrId user); cbn
      end;
    rewrite ?Hu; cbn; apply lookup_delete_eq.
Qed.

End Transitions.

Local Open Scope string_scope.

(** Every answered approval of a project signup appends a membership
    document: nothing looks for an existing one first. *)
Lemma approveUser_twice_memberships (w : World) (user : PendingUser)
    (screen1 screen2 : Screen) (d : User.t) (q : QrInvitation.t) (pid : string) :
  faults w = [] ->
  users w !! id user = Some d ->
  qrInvitations w !! qrId user = Some q ->
  projectId user = Some pid -> pid <> "" ->
  userProjects (after (approveUser user screen2) (after (approveUser user screen1) w))
  = (userProjects w ++
     [newMembership user pid (serverTime w);
      newMembership user pid (serverTime w)])%list.
Proof.
  intros Hf Hu Hq Hp Hpid.
  assert (Ht : Js.truthy (projectId user) = true).
  { rewrite Hp. unfold Js.truthy, Js.falsy.
    destruct (decide (pid = "")); [contradiction | reflexivity]. }
  rewrite (approveUser_effect w user screen1 d q Hf Hu Hq).
  erewrite approveUser_effect; cbn;
    [| reflexivity | apply lookup_insert_eq | apply lookup_insert_eq].
  rewrite Ht, Hp. cbn. rewrite <- app_assoc. reflexivity.
Qed.

(** C1. When every store call is answered, approving twice a pending
    entry that carries a project adds two active memberships for the
    pair (user, project) to those already there, whatever the screen
    shows at either call.  On the store of the scenario, approving
    Asha's entry twice leaves two active memberships for (u1, p1), and
    the second call is not a no-op.  The same happens when the first
    approval fails at the read of the invitation, which leaves the
    entry pending, and the SuperAdmin approves again. *)
Theorem approveUser_twice_duplicates_membership :
  (forall (w : World) (user : PendingUser) (screen1 screen2 : Screen)
          (d : User.t) (q : QrInvitation.t) (pid : string),
     faults w = [] ->
     users w !! id user = Some d ->
     qrInvitations w !! qrId user = Some q ->
     projectId user = Some pid -> pid <> "" ->
     activeMemberships (id user) pid
       (after (approveUser user screen2) (after (approveUser user screen1) w))
     = (activeMemberships (id user) pid w ++
        [newMembership user pid (serverTime w);
         newMembership user pid (serverTime w)])%list)
  /\
  (forall screen1 screen2 : Screen,
   let w1 := after (approveUser Scenario.asha screen1) Scenario.world0 in
   let w2 := after (approveUser Scenario.asha screen2) w1 in
   activeMemberships "u1" "p1" Scenario.world0 = []
   /\ activeMemberships "u1" "p1" w1 = [Scenario.asha_membership]
   /\ User.isApproved <$> users w1 !! "u1" = Some true
   /\ activeMemberships "u1" "p1" w2
      = [Scenario.asha_membership; Scenario.asha_membership]
   /\ w2 <> w1
   /\ alerts w2 = [("Success", "Asha has been approved!");
                   ("Success", "Asha has been approved!")])
  /\
  (forall screen1 screen2 : Screen,
   let v1 := after (approveUser Scenario.asha screen1) Scenario.world_flaky in
   let v2 := after (approveUser Scenario.asha screen2) v1 in
   alerts v1 = [("Error", "Failed to approve user")]
   /\ qrInvitations v1 !! "qr1" = Some Scenario.qr1
   /\ activeMemberships "u1" "p1" v1 = [Scenario.asha_membership]
   /\ activeMemberships "u1" "p1" v2
      = [Scenario.asha_membership; Scenario.asha_membership]
   /\ alerts v2 = [("Error", "Failed to approve user");
                   ("Success", "Asha has been approved!")]).
Proof.
  split; [| split].
  - intros w user screen1 screen2 d q pid Hf Hu Hq Hp Hpid.
    unfold activeMemberships.
    rewrite (approveUser_twice_memberships w user screen1 screen2 d q pid
               Hf Hu Hq Hp Hpid).
    rewrite List.filter_app. f_equal. cbn.
    destruct (decide (id user = id user)); [| congruence].
    destruct (decide (pid = pid)); [| congruence].
    reflexivity.
  - intros screen1 screen2 w1 w2.
    assert (H1 : userProjects w1 = [Scenario.asha_membership]).
    { subst w1.
      erewrite approveUser_effect;
        [| reflexivity | apply lookup_singleton_eq | apply lookup_singleton_eq].
      reflexivity. }
    assert (H2 : userProjects w2
                 = [Scenario.asha_membership; Scenario.asha_membership]).
    { subst w2 w1.
      erewrite approveUser_twice_memberships;
        [| reflexivity | apply lookup_singleton_eq | apply lookup_singleton_eq
         | reflexivity | discriminate].
      reflexivity. }
    split; [reflexivity |].
    split; [unfold activeMemberships; rewrite H1; reflexivity |].
    split; [subst w1; vm_compute; reflexivity |].
    split; [unfold activeMemberships; rewrite H2; reflexivity |].
    split.
    + intros Heq. apply (f_equal userProjects) in Heq.
      rewrite H1, H2 in Heq. discriminate.
    + subst w2 w1. vm_compute. reflexivity.
  - intros screen1 screen2 v1 v2. subst v2 v1.
    repeat split; vm_compute; reflexivity.
Qed.

Lemma approveUser_twice_duplicates_membership_witness :
  faults Scenario.world0 = []
  /\ users Scenario.world0 !! "u1" = Some Scenario.asha_doc
  /\ qrInvitations Scenario.world0 !! "qr1" = Some Scenario.qr1
  /\ activeMemberships "u1" "p1"
       (after (approveUser Scenario.asha Samples.blank_screen)
          (after (approveUser Scenario.asha Samples.blank_screen) Scenario.world0))
     = [Scenario.asha_membership; Scenario.asha_membership].
Proof.
  assert (Hf : faults Scenario.world0 = []) by reflexivity.
  assert (Hu : users Scenario.world0 !! id Scenario.asha = Some Scenario.asha_doc)
    by (apply lookup_singleton_eq).
  assert (Hq : qrInvitations Scenario.world0 !! qrId Scenario.asha
               = Some Scenario.qr1)
    by (apply lookup_singleton_eq).
  assert (Hp : projectId Scenario.asha = Some "p1") by reflexivity.
  assert (Hpid : "p1" <> "") by discriminate.
  split; [exact Hf |]. split; [exact Hu |]. split; [exact Hq |].
  exact (proj1 approveUser_twice_duplicates_membership
           Scenario.world0 Scenario.asha Samples.blank_screen Samples.blank_screen
           Scenario.asha_doc Scenario.qr1 "p1" Hf Hu Hq Hp Hpid).
Defined.

(** C8. Approving and rejecting keep "[isPending] iff the pending list is
    non-empty" on every invitation, whichever store calls fail; and when
    every call is answered, the processed invitation is left with the
    user's entries filtered out and [isPending] recomputed from the
    filtered list. *)
Theorem isPending_tracks_pending_list :
  forall (w : World) (user : PendingUser) (screen : Screen),
    (flags_ok w ->
     flags_ok (after (approveUser user screen) w)
     /\ flags_ok (after (rejectUser user screen) w))
    /\
    (forall (d : User.t) (q : QrInvitation.t),
       faults w = [] -> users w !! id user = Some d ->
       qrInvitations w !! qrId user = Some q ->
       qrInvitations (after (approveUser user screen) w) !! qrId user
       = Some (removePending user q))
    /\
    (forall q : QrInvitation.t,
       faults w = [] -> qrInvitations w !! qrId user = Some q ->
       qrInvitations (after (rejectUser user screen) w) !! qrId user
       = Some (removePending user q))
    /\
    (forall q : QrInvitation.t,
       QrInvitation.pendingSignups (removePending user q)
       = Some (List.filter
                 (fun s => if decide (Signup.userId s = id user)
                           then false else true)
                 (default [] (QrInvitation.pendingSignups q)))
       /\ QrInvitation.isPending (removePending user q)
          = (0 <? length (default [] (QrInvitation.pendingSignups
                                        (removePending user q))))%nat
       /\ ~ In (id user)
            (List.map Signup.userId
               (default [] (QrInvitation.pendingSignups (removePending user q))))).
Proof.
  intros w user screen. split; [| split; [| split]].
  - intros Hw. split.
    + apply approveUser_keeps_flags, Hw.
    + apply rejectUser_keeps_flags, Hw.
  - intros d q Hf Hu Hq.
    rewrite (approveUser_effect w user screen d q Hf Hu Hq). cbn.
    apply lookup_insert_eq.
  - intros q Hf Hq.
    rewrite (rejectUser_effect w user screen q Hf Hq). cbn.
    apply lookup_insert_eq.
  - intros q. split; [reflexivity |]. split; [reflexivity |].
    cbn. unfold updatedPendingSignups. intros Hin.
    apply in_map_iff in Hin. destruct Hin as (s & Hs & Hin).
    apply filter_In in Hin. destruct Hin as [_ Hkeep].
    destruct (decide (Signup.userId s = id user)); [discriminate | contradiction].
Qed.

Lemma flags_ok_world0 : flags_ok Scenario.world0.
Proof.
  unfold flags_ok, Scenario.world0. cbn.
  apply map_Forall_singleton. reflexivity.
Defined.

Lemma isPending_tracks_pending_list_witness :
  flags_ok Scenario.world0
  /\ flags_ok (after (approveUser Scenario.asha Samples.blank_screen) Scenario.world0)
  /\ flags_ok (after (rejectUser Scenario.asha Samples.blank_screen) Scenario.world0)
  /\ qrInvitations (after (approveUser Scenario.asha Samples.blank_screen)
                      Scenario.world0) !! "qr1"
     = Some (removePending Scenario.asha Scenario.qr1)
  /\ qrInvitations (after (rejectUser Scenario.asha Samples.blank_screen)
                      Scenario.world0) !! "qr1"
     = Some (removePending Scenario.asha Scenario.qr1)
  /\ QrInvitation.isPending (removePending Scenario.asha Scenario.qr1) = false.
Proof.
  pose proof (isPending_tracks_pending_list Scenario.world0 Scenario.asha
                Samples.blank_screen)
    as (Hkeep & Happrove & Hreject & _).
  assert (Hf : faults Scenario.world0 = []) by reflexivity.
  assert (Hu : users Scenario.world0 !! id Scenario.asha = Some Scenario.asha_doc)
    by (apply lookup_singleton_eq).
  assert (Hq : qrInvitations Scenario.world0 !! qrId Scenario.asha = Some Scenario.qr1)
    by (apply lookup_singleton_eq).
  split; [exact flags_ok_world0 |].
  split; [exact (proj1 (Hkeep flags_ok_world0)) |].
  split; [exact (proj2 (Hkeep flags_ok_world0)) |].
  split; [exact (Happrove _ _ Hf Hu Hq) |].
  split; [exact (Hreject _ Hf Hq) | reflexivity].
Defined.

(** C9. Once [rejectUser] has deleted the user document, approving the
    same entry fails, in that world and in any later one where the
    document is still absent: the screen shows the error alert and no
    success, no user document is created or marked approved, no
    membership is added, the invitation is left alone, and the error
    caught is the store's not-found whenever the store answers the
    update. *)
Theorem approve_after_reject_fails_not_found :
  forall (w : World) (user : PendingUser) (screen : Screen),
    (forall e rest, faults w <> Some e :: rest) ->
    users (after (rejectUser user screen) w) !! id user = None
    /\
    forall (w1 : World) (screen1 : Screen),
      users w1 !! id user = None ->
      let w2 := after (approveUser user screen1) w1 in
      alerts w2 = (alerts w1 ++ [("Error", "Failed to approve user")])%list
      /\ console w2 =
           (console w1 ++
            [("Error approving user:",
              match faults w1 with Some e :: _ => e | _ => not_found end)])%list
      /\ users w2 = users w1
      /\ users w2 !! id user = None
      /\ userProjects w2 = userProjects w1
      /\ qrInvitations w2 = qrInvitations w1.
Proof.
  intros w user screen Hf. split; [apply rejectUser_deletes, Hf |].
  intros w1 screen1 Hgone w2. subst w2.
  rewrite (approveUser_missing_user w1 user screen1 Hgone). cbn.
  repeat split; try reflexivity. exact Hgone.
Qed.

Lemma approve_after_reject_fails_not_found_witness :
  let w1 := after (rejectUser Scenario.asha Samples.blank_screen) Scenario.world0 in
  let w2 := after (approveUser Scenario.asha Samples.blank_screen) w1 in
  users w1 !! "u1" = None
  /\ alerts w2 =
       [("Success", "Asha has been rejected and removed.");
        ("Error", "Failed to approve user")]
  /\ console w2 = [("Error approving user:", not_found)]
  /\ users w2 !! "u1" = None
  /\ userProjects w2 = [].
Proof.
  intros w1 w2.
  assert (Hf : forall e rest, faults Scenario.world0 <> Some e :: rest)
    by (intros e rest; discriminate).
  destruct (approve_after_reject_fails_not_found Scenario.world0 Scenario.asha
              Samples.blank_screen Hf)
    as [Hgone Hfail].
  destruct (Hfail w1 Samples.blank_screen Hgone) as (Hal & Hcon & _ & Hnone & Hups & _).
  split; [exact Hgone |].
  split; [exact Hal |].
  split; [exact Hcon |].
  split; [exact Hnone | exact Hups].
Defined.

(** ** Role helpers *)

Section RoleProperties.

Import RoleHelper.

(** C2 does not hold of the role lookup, which never sees the user
    record: a SuperAdmin without membership gets [null]. *)
Lemma getUserRoleInProject_null_for_superadmin :
  isSuperAdmin (users Scenario.world_root !! "root") = true
  /\ outcome (getUserRoleInProject (Some "root") (Some "p1")) Scenario.world_root
     = Ok None.
Proof. split; reflexivity. Qed.

Lemma getUserRoleInProject_answered (w : World) (userId projectId : string) :
  userId <> "" -> projectId <> "" -> faults w = [] ->
  getUserRoleInProject (Some userId) (Some projectId) w
  = (Ok (UserProject.role <$>
           head (List.filter (active_membership (Some userId) (Some projectId))
                   (userProjects w))), w).
Proof.
  intros Hu Hp Hf. destruct w as [us ups qrs now fs con lg al pr].
  cbn in Hf. subst fs. unfold getUserRoleInProject.
  rewrite (falsy_nonempty userId Hu), (falsy_nonempty projectId Hp).
  run_fire. destruct (List.filter _ ups); reflexivity.
Qed.

(** C2, amended.  The SuperAdmin short-circuit is in [isProjectAdmin] and
    [hasAccessToProject], which are given the user record: both answer
    true for every non-empty project id without any store read.
    [getUserRoleInProject] is given ids only and answers the role of
    the first active membership document, [null] when there is none. *)
Theorem superadmin_short_circuit_in_admin_checks :
  forall (u : User.t) (userId projectId : string) (w : World),
    isSuperAdmin (Some u) = true -> userId <> "" -> projectId <> "" ->
    isProjectAdmin (Some u) (Some projectId) = Js.Bool true
    /\ hasAccessToProject (Some userId) (Some projectId) (Some u) w = (Ok true, w)
    /\ (faults w = [] ->
        outcome (getUserRoleInProject (Some userId) (Some projectId)) w
        = Ok (UserProject.role <$>
                head (List.filter
                        (active_membership (Some userId) (Some projectId))
                        (userProjects w))))
    /\ (faults w = [] ->
        List.filter (active_membership (Some userId) (Some projectId))
          (userProjects w) = [] ->
        outcome (getUserRoleInProject (Some userId) (Some projectId)) w = Ok None).
Proof.
  intros u userId projectId w Hsa Hu Hp.
  split; [| split; [| split]].
  - unfold isProjectAdmin. rewrite (falsy_nonempty projectId Hp), Hsa. reflexivity.
  - unfold hasAccessToProject.
    rewrite (falsy_nonempty userId Hu), (falsy_nonempty projectId Hp), Hsa.
    reflexivity.
  - intros Hf. unfold outcome.
    rewrite (getUserRoleInProject_answered w userId projectId Hu Hp Hf). reflexivity.
  - intros Hf Hnone. unfold outcome.
    rewrite (getUserRoleInProject_answered w userId projectId Hu Hp Hf), Hnone.
    reflexivity.
Qed.

Lemma superadmin_short_circuit_in_admin_checks_witness :
  isSuperAdmin (Some Scenario.root_doc) = true
  /\ isProjectAdmin (Some Scenario.root_doc) (Some "p1") = Js.Bool true
  /\ hasAccessToProject (Some "root") (Some "p1") (Some Scenario.root_doc)
       Scenario.world_root = (Ok true, Scenario.world_root)
  /\ outcome (getUserRoleInProject (Some "root") (Some "p1")) Scenario.world_root
     = Ok None.
Proof.
  assert (Hsa : isSuperAdmin (Some Scenario.root_doc) = true) by reflexivity.
  assert (Hu : "root" <> "") by discriminate.
  assert (Hp : "p1" <> "") by discriminate.
  destruct (superadmin_short_circuit_in_admin_checks Scenario.root_doc
              "root" "p1" Scenario.world_root Hsa Hu Hp)
    as (Hadmin & Haccess & _ & Hnull).
  split; [exact Hsa |]. split; [exact Hadmin |]. split; [exact Haccess |].
  apply Hnull; reflexivity.
Defined.

(** C3 does not hold: a failed read and a denial give the same
    result. *)
Lemma store_failure_same_result_as_denial :
  faults Scenario.world_down = [Some unavailable]
  /\ faults Scenario.world_denied = []
  /\ outcome (getUserRoleInProject (Some "u2") (Some "p1")) Scenario.world_down
     = Ok None
  /\ outcome (getUserRoleInProject (Some "u2") (Some "p1")) Scenario.world_denied
     = Ok None
  /\ outcome (hasAccessToProject (Some "u2") (Some "p1") (Some Scenario.bina_doc))
       Scenario.world_down = Ok false
  /\ outcome (hasAccessToProject (Some "u2") (Some "p1") (Some Scenario.bina_doc))
       Scenario.world_denied = Ok false.
Proof. repeat split; reflexivity. Qed.

(** C3, amended.  A store read that fails inside [getUserRoleInProject]
    or [hasAccessToProject] is caught and written to the console, and
    the caller is given [null], respectively [false]: the values of a
    denial.  Neither function ever throws. *)
Theorem store_failure_reported_as_denial :
  forall (w : World) (e : Error) (rest : list (option Error))
         (userId projectId : string) (userData : option User.t),
    faults w = Some e :: rest -> userId <> "" -> projectId <> "" ->
    (getUserRoleInProject (Some userId) (Some projectId) w
     = (Ok None,
        set_console (console w ++ [("Error fetching user role:", e)])
          (set_faults rest w)))
    /\ (isSuperAdmin userData = false ->
        hasAccessToProject (Some userId) (Some projectId) userData w
        = (Ok false,
           set_console (console w ++ [("Error checking project access:", e)])
             (set_faults rest w)))
    /\ (forall (w' : World) (u p : option string) (ud : option User.t),
          (exists r, outcome (getUserRoleInProject u p) w' = Ok r)
          /\ (exists b, outcome (hasAccessToProject u p ud) w' = Ok b)).
Proof.
  intros w e rest userId projectId userData Hf Hu Hp.
  split; [| split].
  - destruct w as [us ups qrs now fs con lg al pr]. cbn in Hf. subst fs.
    unfold getUserRoleInProject.
    rewrite (falsy_nonempty userId Hu), (falsy_nonempty projectId Hp).
    reflexivity.
  - intros Hsa. destruct w as [us ups qrs now fs con lg al pr]. cbn in Hf. subst fs.
    unfold hasAccessToProject.
    rewrite (falsy_nonempty userId Hu), (falsy_nonempty projectId Hp), Hsa.
    reflexivity.
  - intros w' u p ud. destruct w' as [us ups qrs now fs con lg al pr]. split.
    + unfold getUserRoleInProject.
      destruct (Js.falsy u || Js.falsy p); [eexists; reflexivity |].
      run_fire. destruct fs as [| [e' |] fs]; cbn;
        try destruct (List.filter _ ups); eexists; reflexivity.
    + unfold hasAccessToProject.
      destruct (Js.falsy u || Js.falsy p); [eexists; reflexivity |].
      destruct (isSuperAdmin ud); [eexists; reflexivity |].
      run_fire. destruct fs as [| [e' |] fs]; cbn; eexists; reflexivity.
Qed.

Lemma store_failure_reported_as_denial_witness :
  faults Scenario.world_down = [Some unavailable]
  /\ outcome (getUserRoleInProject (Some "u2") (Some "p1")) Scenario.world_down
     = Ok None
  /\ console (after (getUserRoleInProject (Some "u2") (Some "p1")) Scenario.world_down)
     = [("Error fetching user role:", unavailable)]
  /\ outcome (hasAccessToProject (Some "u2") (Some "p1") (Some Scenario.bina_doc))
       Scenario.world_down = Ok false.
Proof.
  assert (Hf : faults Scenario.world_down = [Some unavailable]) by reflexivity.
  assert (Hu : "u2" <> "") by discriminate.
  assert (Hp : "p1" <> "") by discriminate.
  destruct (store_failure_reported_as_denial Scenario.world_down unavailable []
              "u2" "p1" (Some Scenario.bina_doc) Hf Hu Hp)
    as (Hrole & Haccess & _).
  split; [exact Hf |].
  split; [unfold outcome; rewrite Hrole; reflexivity |].
  split; [unfold after; rewrite Hrole; reflexivity |].
  unfold outcome. rewrite (Haccess eq_refl). reflexivity.
Defined.

End RoleProperties.

(** ** Who may post in a chat room *)

Section ChatRoomProperties.

Import ChatRoom.

(** In a group (not a channel), and when no group is loaded, anyone may post. *)
Lemma canSendMessages_group (group : option Group) (userData : option User.t)
    (userProjects : option (list Js.object)) :
  default false (isChannel <$> group) = false ->
  canSendMessages group userData userProjects = Js.Bool true.
Proof. intros H. unfold canSendMessages. rewrite H. reflexivity. Qed.

(** In a channel the answer is the disjunction the source writes. *)
Lemma canSendMessages_channel (g : Group) (userData : option User.t)
    (userProjects : option (list Js.object)) :
  isChannel g = true ->
  canSendMessages (Some g) userData userProjects
  = Js.Bool
      (existsb
         (fun up =>
            Js.strict_eq (Js.get up "projectId") (Js.of_string (projectId g))
            && Js.strict_eq (Js.get up "role") (Js.Str "project_admin"))
         (default [] userProjects)
       || isSuperAdmin userData).
Proof.
  intros H. unfold canSendMessages, or_else, isProjectAdmin. cbn. rewrite H.
  destruct userProjects as [l |]; cbn; [| reflexivity].
  destruct (existsb _ l); reflexivity.
Qed.

(** The entries of the context list carry the role under [userRole] and
    the project under [id]; they have no [role] property. *)
Lemma projectEntry_fields (pid name createdBy : string) (createdAt : Z)
    (m : UserProject.t) :
  let up := RoleHelper.projectEntry pid
              (CreateProjectModal.projectData name createdBy createdAt) m in
  Js.get up "userRole" = Js.Str (UserProject.role m)
  /\ Js.get up "id" = Js.Str pid
  /\ Js.get up "role" = Js.Undefined
  /\ Js.get up "projectId" = Js.Undefined.
Proof.
  cbn. unfold Js.get, RoleHelper.projectEntry, CreateProjectModal.projectData.
  split; [| split; [| split]]; reflexivity.
Qed.

(** So no list built by [getUserProjects] makes the screen's test true. *)
Lemma isProjectAdmin_false_on_context_list (l : list Js.object)
    (group : option Group) :
  Forall (fun up => exists pid name createdBy createdAt m,
            up = RoleHelper.projectEntry pid
                   (CreateProjectModal.projectData name createdBy createdAt) m) l ->
  isProjectAdmin (Some l) group = Js.Bool false.
Proof.
  intros Hl. unfold isProjectAdmin. f_equal.
  induction Hl as [| up l (pid & name & cb & ca & m & ->) _ IH]; [reflexivity |].
  cbn [existsb]. rewrite IH.
  destruct (projectEntry_fields pid name cb ca m) as (_ & _ & Hrole & _).
  cbn in Hrole. rewrite Hrole. unfold Js.strict_eq at 2.
  destruct (decide (Js.Undefined = Js.Str "project_admin")); [discriminate |].
  rewrite andb_false_r. reflexivity.
Qed.

(** C6. In a channel, with any list the auth context can hold (entries
    built as [getUserProjects] builds them from project documents), the
    screen lets exactly the SuperAdmins post: the membership role plays
    no part.  Bina holds an active [project_admin] membership in p1, the
    General channel belongs to p1, the context's own [isProjectAdmin]
    says she is admin of p1, and the screen does not let her post. *)
Theorem project_admin_cannot_post_in_channel :
  (forall (g : Group) (userData : option User.t) (l : list Js.object),
     isChannel g = true ->
     Forall (fun up => exists pid name createdBy createdAt m,
               up = RoleHelper.projectEntry pid
                      (CreateProjectModal.projectData name createdBy createdAt) m) l ->
     canSendMessages (Some g) userData (Some l)
     = Js.Bool (isSuperAdmin userData))
  /\
  (UserProject.role Scenario.bina_membership = "project_admin"
   /\ UserProject.projectId Scenario.bina_membership = "p1"
   /\ UserProject.isActive Scenario.bina_membership = true
   /\ projectId Scenario.general_channel = Some "p1"
   /\ isChannel Scenario.general_channel = true
   /\ AuthContext.isProjectAdmin (Some Scenario.bina_doc)
        Scenario.bina_userProjects (Some "p1") = Js.Bool true
   /\ canSendMessages (Some Scenario.general_channel) (Some Scenario.bina_doc)
        (Some Scenario.bina_userProjects) = Js.Bool false
   /\ canSendMessages (Some Scenario.general_channel) (Some Scenario.bina_doc)
        None = Js.Bool false).
Proof.
  split.
  - intros g userData l Hch Hl.
    pose proof (isProjectAdmin_false_on_context_list l (Some g) Hl) as Hpa.
    unfold canSendMessages.
    change (default false (isChannel <$> Some g)) with (isChannel g).
    rewrite Hch, Hpa. reflexivity.
  - repeat (split; [reflexivity |]). reflexivity.
Qed.

Lemma project_admin_cannot_post_in_channel_witness :
  isChannel Scenario.general_channel = true
  /\ canSendMessages (Some Scenario.general_channel) (Some Scenario.bina_doc)
       (Some Scenario.bina_userProjects)
     = Js.Bool (isSuperAdmin (Some Scenario.bina_doc))
  /\ isSuperAdmin (Some Scenario.bina_doc) = false.
Proof.
  assert (Hch : isChannel Scenario.general_channel = true) by reflexivity.
  split; [exact Hch |]. split; [| reflexivity].
  apply (proj1 project_admin_cannot_post_in_channel
           Scenario.general_channel (Some Scenario.bina_doc)
           Scenario.bina_userProjects Hch).
  repeat constructor.
  exists "p1", "Apollo", "root", 1000%Z, Scenario.bina_membership. reflexivity.
Defined.

End ChatRoomProperties.

(** * Further properties of the sources *)

(** ** Phone numbers (utils/otpGenerator.js) *)

Section PhoneProperties.

Local Open Scope string_scope.

Lemma append_String (c : ascii) (a b : string) :
  String c a ++ b = String c (a ++ b).
Proof. reflexivity. Qed.

Lemma remove_non_digits_app (a b : string) :
  remove_non_digits (a ++ b) = remove_non_digits a ++ remove_non_digits b.
Proof.
  induction a as [| c a IH]; [reflexivity |].
  rewrite append_String. cbn [remove_non_digits].
  destruct (is_digit c); rewrite ?append_String, IH; reflexivity.
Qed.

Lemma all_digits_remove_non_digits (s : string) :
  all_digits (remove_non_digits s) = true.
Proof.
  induction s as [| c s IH]; [reflexivity |].
  cbn. destruct (is_digit c) eqn:Hc; [cbn; rewrite Hc |]; exact IH.
Qed.

Lemma remove_non_digits_all_digits (s : string) :
  all_digits s = true -> remove_non_digits s = s.
Proof.
  induction s as [| c s IH]; [reflexivity |].
  cbn. intros H. apply andb_prop in H. destruct H as [Hc Hs].
  rewrite Hc, (IH Hs). reflexivity.
Qed.

Lemma all_digits_app (a b : string) :
  all_digits a = true -> all_digits b = true -> all_digits (a ++ b) = true.
Proof.
  induction a as [| c a IH]; [intros _ H; exact H |].
  rewrite append_String. cbn [all_digits]. intros H Hb. apply andb_prop in H.
  destruct H as [Hc Ha]. rewrite Hc. cbn [andb]. apply IH; assumption.
Qed.

Lemma prefix_plus_app (a b : string) :
  String.prefix "+" a = true -> String.prefix "+" (a ++ b) = true.
Proof.
  destruct a as [| c a]; [discriminate |]. rewrite append_String.
  cbn [String.prefix]. destruct (ascii_dec "+" c); [| discriminate].
  intros _. destruct (a ++ b); reflexivity.
Qed.

Lemma string_length_app (a b : string) :
  String.length (a ++ b) = (String.length a + String.length b)%nat.
Proof.
  induction a as [| c a IH]; [reflexivity |].
  rewrite append_String. cbn [String.length]. rewrite IH. reflexivity.
Qed.

(** X1. When the country code starts with '+' (the default does),
    the formatted number starts with '+', and formatting it again, with
    any country code, changes nothing. *)
Theorem formatPhoneNumber_idempotent :
  forall (phoneNumber : string) (countryCode countryCode' : option string),
    String.prefix "+" (default "+1" countryCode) = true ->
    String.prefix "+" (formatPhoneNumber phoneNumber countryCode) = true
    /\ formatPhoneNumber (formatPhoneNumber phoneNumber countryCode) countryCode'
       = formatPhoneNumber phoneNumber countryCode.
Proof.
  intros p cc cc' Hcc.
  assert (H : String.prefix "+" (formatPhoneNumber p cc) = true).
  { unfold formatPhoneNumber. destruct (String.prefix "+" p) eqn:Hp; [exact Hp |].
    apply prefix_plus_app, Hcc. }
  split; [exact H |].
  unfold formatPhoneNumber at 1. rewrite H. reflexivity.
Qed.


Lemma formatPhoneNumber_idempotent_witness :
  String.prefix "+" (default "+1" (Some "+91")) = true
  /\ formatPhoneNumber (formatPhoneNumber "98765 43210" (Some "+91")) None
     = "+919876543210".
Proof.
  assert (Hcc : String.prefix "+" (default "+1" (Some "+91")) = true)
    by reflexivity.
  split; [exact Hcc |].
  exact (proj2 (formatPhoneNumber_idempotent "98765 43210" (Some "+91") None Hcc)).
Defined.

(** A number typed with a leading '+' is returned as typed,
    whatever else it contains; any other input becomes the country
    code followed by the digits of the input only, so with a country
    code made of '+' and digits the result is '+' and digits. *)
Theorem formatPhoneNumber_shape :
  forall (phoneNumber : string) (countryCode : option string),
    (String.prefix "+" phoneNumber = true ->
     formatPhoneNumber phoneNumber countryCode = phoneNumber)
    /\
    (String.prefix "+" phoneNumber = false ->
     forall ccDigits : string,
       default "+1" countryCode = "+" ++ ccDigits ->
       all_digits ccDigits = true ->
       formatPhoneNumber phoneNumber countryCode
       = "+" ++ (ccDigits ++ remove_non_digits phoneNumber)
       /\ all_digits (ccDigits ++ remove_non_digits phoneNumber) = true).
Proof.
  intros p cc. split.
  - intros Hp. unfold formatPhoneNumber. rewrite Hp. reflexivity.
  - intros Hp ccd Hcc Hd. unfold formatPhoneNumber. rewrite Hp, Hcc. split.
    + reflexivity.
    + apply all_digits_app; [exact Hd | apply all_digits_remove_non_digits].
Qed.

Lemma formatPhoneNumber_shape_witness :
  String.prefix "+" "+1 (555) 010-0000" = true
  /\ formatPhoneNumber "+1 (555) 010-0000" None = "+1 (555) 010-0000"
  /\ String.prefix "+" "(555) 010-0000" = false
  /\ formatPhoneNumber "(555) 010-0000" None = "+15550100000".
Proof.
  assert (H1 : String.prefix "+" "+1 (555) 010-0000" = true) by reflexivity.
  assert (H2 : String.prefix "+" "(555) 010-0000" = false) by reflexivity.
  split; [exact H1 |].
  split; [exact (proj1 (formatPhoneNumber_shape "+1 (555) 010-0000" None) H1) |].
  split; [exact H2 |].
  exact (proj1 (proj2 (formatPhoneNumber_shape "(555) 010-0000" None) H2 "1"
                  eq_refl eq_refl)).
Defined.

(** X3. The screens validate the formatted number, so the digits of
    the country code count towards the ten required: for an input
    without a leading '+' and the default country code, nine typed
    digits are enough.  A number that is valid as typed stays valid
    after formatting. *)
Theorem isValidPhoneNumber_counts_country_code :
  forall (phoneNumber : string) (countryCode : option string),
    (String.prefix "+" phoneNumber = false ->
     isValidPhoneNumber (formatPhoneNumber phoneNumber countryCode)
     = (10 <=? String.length (remove_non_digits (default "+1" countryCode))
               + String.length (remove_non_digits phoneNumber))%nat)
    /\
    (String.prefix "+" phoneNumber = false ->
     isValidPhoneNumber (formatPhoneNumber phoneNumber None)
     = (9 <=? String.length (remove_non_digits phoneNumber))%nat)
    /\
    (isValidPhoneNumber phoneNumber = true ->
     isValidPhoneNumber (formatPhoneNumber phoneNumber countryCode) = true).
Proof.
  intros p cc.
  assert (Hgen : forall cc', String.prefix "+" p = false ->
     isValidPhoneNumber (formatPhoneNumber p cc')
     = (10 <=? String.length (remove_non_digits (default "+1" cc'))
               + String.length (remove_non_digits p))%nat).
  { intros cc' Hp. unfold isValidPhoneNumber, formatPhoneNumber. rewrite Hp.
    rewrite remove_non_digits_app, string_length_app.
    rewrite (remove_non_digits_all_digits _ (all_digits_remove_non_digits p)).
    reflexivity. }
  split; [apply Hgen |]. split.
  - intros Hp. rewrite (Hgen None Hp). reflexivity.
  - intros Hv. destruct (String.prefix "+" p) eqn:Hp.
    + unfold formatPhoneNumber. rewrite Hp. exact Hv.
    + rewrite (Hgen cc eq_refl). unfold isValidPhoneNumber in Hv.
      apply Nat.leb_le in Hv. apply Nat.leb_le. lia.
Qed.

Lemma isValidPhoneNumber_counts_country_code_witness :
  String.prefix "+" "555 010 000" = false
  /\ isValidPhoneNumber "555 010 000" = false
  /\ isValidPhoneNumber (formatPhoneNumber "555 010 000" None) = true
  /\ isValidPhoneNumber "(555) 010-0000" = true
  /\ isValidPhoneNumber (formatPhoneNumber "(555) 010-0000" (Some "+44")) = true.
Proof.
  assert (H1 : String.prefix "+" "555 010 000" = false) by reflexivity.
  assert (H2 : isValidPhoneNumber "(555) 010-0000" = true) by reflexivity.
  split; [exact H1 |]. split; [reflexivity |].
  split.
  - rewrite (proj1 (proj2 (isValidPhoneNumber_counts_country_code
                             "555 010 000" None)) H1).
    reflexivity.
  - split; [exact H2 |].
    exact (proj2 (proj2 (isValidPhoneNumber_counts_country_code
                           "(555) 010-0000" (Some "+44"))) H2).
Defined.

End PhoneProperties.

(** ** More on the OTP checker *)

Section VerifyMore.

Local Open Scope string_scope.

Lemma falsy_false_inv (x : option string) :
  Js.falsy x = false -> exists s, x = Some s /\ s <> "".
Proof.
  destruct x as [s |]; [| discriminate]. unfold Js.falsy.
  destruct (decide (s = "")); [discriminate |]. intros _. exists s. split; auto.
Qed.

(** X4. The checker accepts exactly when both codes are the same
    non-empty string, the expiry has one of the three shapes, and
    [now > expiry] is false; it never accepts a missing or different
    code, nor an expiry of another shape. *)
Theorem verifyOTP_accepts_iff :
  forall (Date_parse : string -> option Z) (now : Z)
         (enteredOTP storedOTP : option string) (expiresAt : ExpiresAt),
    valid (verifyOTP Date_parse now enteredOTP storedOTP expiresAt) = true
    <->
    exists (code : string) (d : Date),
      enteredOTP = Some code /\ storedOTP = Some code /\ code <> ""
      /\ expirationDate Date_parse expiresAt = Some d
      /\ Date_gt (ValidDate now) d = false.
Proof.
  intros parse now entered stored exp. split.
  - unfold verifyOTP.
    destruct (Js.falsy entered) eqn:He; [discriminate |].
    destruct (Js.falsy stored) eqn:Hs; [discriminate |]. cbn [orb].
    unfold Js.strict_ne. destruct (decide (entered = stored)) as [Heq |];
      [| discriminate].
    destruct (falsy_false_inv entered He) as (code & -> & Hcode).
    destruct (expirationDate parse exp) as [d |] eqn:Hexp; [| discriminate].
    destruct (Date_gt (ValidDate now) d) eqn:Hgt; [discriminate |].
    intros _. exists code, d. repeat split; auto.
  - intros (code & d & -> & -> & Hcode & Hexp & Hgt).
    rewrite (verifyOTP_same_code parse now code exp Hcode), Hexp, Hgt.
    reflexivity.
Qed.

(** X5. "OTP is required" is answered exactly when the entered or the
    stored code is absent or empty, before the codes are compared and
    whatever the expiry. *)
Theorem verifyOTP_required_iff_missing :
  forall (Date_parse : string -> option Z) (now : Z)
         (enteredOTP storedOTP : option string) (expiresAt : ExpiresAt),
    verifyOTP Date_parse now enteredOTP storedOTP expiresAt
    = {| valid := false; message := "OTP is required" |}
    <->
    (enteredOTP = None \/ enteredOTP = Some "" \/
     storedOTP = None \/ storedOTP = Some "").
Proof.
  intros parse now entered stored exp. unfold verifyOTP. split.
  - destruct (Js.falsy entered) eqn:He.
    + intros _. destruct entered as [s |]; [| auto].
      unfold Js.falsy in He. destruct (decide (s = "")); [subst; auto | discriminate].
    + destruct (Js.falsy stored) eqn:Hs.
      * intros _. destruct stored as [s |]; [| auto].
        unfold Js.falsy in Hs.
        destruct (decide (s = "")); [subst; auto | discriminate].
      * cbn [orb]. destruct (Js.strict_ne entered stored); [discriminate |].
        destruct (expirationDate parse exp) as [d |]; [| discriminate].
        destruct (Date_gt (ValidDate now) d); discriminate.
  - intros [-> | [-> | [-> | ->]]]; cbn; try reflexivity;
      destruct (Js.falsy entered); reflexivity.
Qed.

Lemma digits_of_nonempty (fuel : nat) (n : Z) (acc : string) :
  digits_of (S fuel) n acc <> "".
Proof.
  revert n acc. induction fuel as [| fuel IH]; intros n acc.
  - cbn. destruct (n / 10 =? 0)%Z; discriminate.
  - cbn [digits_of]. destruct (n / 10 =? 0)%Z; [discriminate | apply IH].
Qed.

Lemma generateOTP_nonempty (r : Q) :
  (0 <= r)%Q -> (r < 1)%Q -> generateOTP r <> "".
Proof.
  intros _ _. unfold generateOTP, Number_toString.
  destruct (_ <? 0)%Z; [discriminate | apply digits_of_nonempty].
Qed.

(** X6. A code as [generateOTP] makes it, checked against the expiry
    [getOTPExpiration] gave at time T, is accepted at every instant up
    to T plus five minutes and refused as expired after it. *)
Theorem generated_code_verifies_for_five_minutes :
  forall (Date_parse : string -> option Z) (r : Q) (T now : Z),
    (0 <= r)%Q -> (r < 1)%Q ->
    (- maxTime <= T <= maxTime - 300000)%Z ->
    let code := Some (generateOTP r) in
    let expiresAt := DateObject (getOTPExpiration T) in
    (verifyOTP Date_parse now code code expiresAt
     = {| valid := true; message := "OTP verified successfully" |}
     <-> (now <= T + 5 * 60 * 1000)%Z)
    /\
    (verifyOTP Date_parse now code code expiresAt
     = {| valid := false; message := "OTP has expired" |}
     <-> (T + 5 * 60 * 1000 < now)%Z).
Proof.
  intros parse r T now H0 H1 HT code expiresAt. subst code expiresAt.
  rewrite (verifyOTP_same_code parse now _ _ (generateOTP_nonempty r H0 H1)).
  cbn [expirationDate]. rewrite (getOTPExpiration_in_range T HT).
  cbn [Date_gt]. destruct (Z.ltb_spec (T + 300000) now) as [Hlt | Hge];
    split; split; intros H; try reflexivity; try discriminate; lia.
Qed.

Lemma generated_code_verifies_for_five_minutes_witness :
  (0 <= 1 # 2)%Q /\ (1 # 2 < 1)%Q
  /\ (- maxTime <= 1704067200000 <= maxTime - 300000)%Z
  /\ verifyOTP sample_Date_parse 1704067500000
       (Some (generateOTP (1 # 2))) (Some (generateOTP (1 # 2)))
       (DateObject (getOTPExpiration 1704067200000))
     = {| valid := true; message := "OTP verified successfully" |}.
Proof.
  assert (H0 : (0 <= 1 # 2)%Q) by (unfold Qle; simpl; lia).
  assert (H1 : (1 # 2 < 1)%Q) by (unfold Qlt; simpl; lia).
  assert (HT : (- maxTime <= 1704067200000 <= maxTime - 300000)%Z)
    by (unfold maxTime; lia).
  split; [exact H0 |]. split; [exact H1 |]. split; [exact HT |].
  apply (proj1 (generated_code_verifies_for_five_minutes sample_Date_parse
                  (1 # 2) 1704067200000%Z 1704067500000%Z H0 H1 HT)).
  lia.
Defined.

(** X7. Two draws give the same code exactly when the floor the code
    is the numeral of is the same number for both; a code made from
    another number than the stored one is refused as "Invalid OTP". *)
Theorem generateOTP_distinct_numbers_distinct_codes :
  forall (Date_parse : string -> option Z) (now : Z) (r1 r2 : Q)
         (expiresAt : ExpiresAt),
    is_double r1 -> (0 <= r1)%Q -> (r1 < 1)%Q ->
    is_double r2 -> (0 <= r2)%Q -> (r2 < 1)%Q ->
    let n1 := Math_floor (Number_add 100000 (Number_mul r1 900000)) in
    let n2 := Math_floor (Number_add 100000 (Number_mul r2 900000)) in
    (generateOTP r1 = generateOTP r2 <-> n1 = n2)
    /\
    (n1 <> n2 ->
     verifyOTP Date_parse now (Some (generateOTP r1)) (Some (generateOTP r2)) expiresAt
     = {| valid := false; message := "Invalid OTP" |}).
Proof.
  intros parse now r1 r2 exp Hd1 H10 H11 Hd2 H20 H21 n1 n2. subst n1 n2.
  destruct (generateOTP_digits r1 Hd1 H10 H11) as (_ & _ & Hv1).
  destruct (generateOTP_digits r2 Hd2 H20 H21) as (_ & _ & Hv2).
  assert (Hiff : generateOTP r1 = generateOTP r2
     <-> Math_floor (Number_add 100000 (Number_mul r1 900000))
         = Math_floor (Number_add 100000 (Number_mul r2 900000))).
  { split.
    - intros Heq. rewrite <- Hv1, <- Hv2, Heq. reflexivity.
    - intros Heq. unfold generateOTP. rewrite Heq. reflexivity. }
  split; [exact Hiff |].
  intros Hne. unfold verifyOTP, Js.strict_ne.
  rewrite (falsy_nonempty _ (generateOTP_nonempty r1 H10 H11)).
  rewrite (falsy_nonempty _ (generateOTP_nonempty r2 H20 H21)). cbn [orb].
  destruct (decide (Some (generateOTP r1) = Some (generateOTP r2))) as [Heq |];
    [| reflexivity].
  exfalso. apply Hne, Hiff. congruence.
Qed.

Lemma generateOTP_distinct_numbers_distinct_codes_witness :
  (is_double (1 # 2) /\ is_double (1 # 4)
   /\ verifyOTP sample_Date_parse 1704067260000
        (Some (generateOTP (1 # 2))) (Some (generateOTP (1 # 4)))
        (DateObject (ValidDate 1704067500000))
      = {| valid := false; message := "Invalid OTP" |})
  /\
  (is_double (300239975158 # 9007199254740992)
   /\ is_double (305243974744 # 9007199254740992)
   /\ generateOTP (300239975158 # 9007199254740992)
      = generateOTP (305243974744 # 9007199254740992)).
Proof.
  assert (Hd1 : is_double (1 # 2)) by (vm_compute; reflexivity).
  assert (H10 : (0 <= 1 # 2)%Q) by (vm_compute; discriminate).
  assert (H11 : (1 # 2 < 1)%Q) by (vm_compute; reflexivity).
  assert (Hd2 : is_double (1 # 4)) by (vm_compute; reflexivity).
  assert (H20 : (0 <= 1 # 4)%Q) by (vm_compute; discriminate).
  assert (H21 : (1 # 4 < 1)%Q) by (vm_compute; reflexivity).
  assert (Hd3 : is_double (300239975158 # 9007199254740992))
    by (vm_compute; reflexivity).
  assert (H30 : (0 <= 300239975158 # 9007199254740992)%Q)
    by (vm_compute; discriminate).
  assert (H31 : (300239975158 # 9007199254740992 < 1)%Q)
    by (vm_compute; reflexivity).
  assert (Hd4 : is_double (305243974744 # 9007199254740992))
    by (vm_compute; reflexivity).
  assert (H40 : (0 <= 305243974744 # 9007199254740992)%Q)
    by (vm_compute; discriminate).
  assert (H41 : (305243974744 # 9007199254740992 < 1)%Q)
    by (vm_compute; reflexivity).
  split.
  - split; [exact Hd1 |]. split; [exact Hd2 |].
    apply (proj2 (generateOTP_distinct_numbers_distinct_codes sample_Date_parse
                    1704067260000%Z (1 # 2) (1 # 4)
                    (DateObject (ValidDate 1704067500000))
                    Hd1 H10 H11 Hd2 H20 H21)).
    vm_compute. discriminate.
  - split; [exact Hd3 |]. split; [exact Hd4 |].
    apply (proj1 (generateOTP_distinct_numbers_distinct_codes sample_Date_parse
                    1704067260000%Z _ _ OtherValue Hd3 H30 H31 Hd4 H40 H41)).
    vm_compute. reflexivity.
Defined.

End VerifyMore.

(** ** More on the role helpers *)

Section RoleMore.

Import RoleHelper.
Local Open Scope string_scope.

(** [Array.prototype.find] returns the first element that passes. *)
Lemma find_first {A} (f : A -> bool) (l : list A) (x : A) :
  List.find f l = Some x <->
  exists l1 l2, l = (l1 ++ x :: l2)%list /\ f x = true
                /\ Forall (fun y => f y = false) l1.
Proof.
  split.
  - induction l as [| y l IH]; [discriminate |].
    cbn. destruct (f y) eqn:Hy.
    + intros [= ->]. exists [], l. repeat split; auto.
    + intros H. destruct (IH H) as (l1 & l2 & -> & Hx & Hl1).
      exists (y :: l1), l2. repeat split; auto.
  - intros (l1 & l2 & -> & Hx & Hl1).
    induction Hl1 as [| y l1 Hy _ IH]; cbn; [rewrite Hx | rewrite Hy]; auto.
Qed.

(** X8. For a user who is not SuperAdmin, [isProjectAdmin] looks at
    the first entry of [userData.userProjects] for the project only:
    it is true exactly when that entry has role project_admin, and an
    earlier entry for the same project hides a later one. *)
Theorem isProjectAdmin_first_entry_decides :
  forall (u : User.t) (projectId : string),
    isSuperAdmin (Some u) = false -> projectId <> "" ->
    (Js.to_boolean (isProjectAdmin (Some u) (Some projectId)) = true
     <->
     exists (l1 l2 : list ProjectRole.t) (p : ProjectRole.t),
       default [] (User.userProjects u) = (l1 ++ p :: l2)%list
       /\ Forall (fun q => ProjectRole.projectId q <> projectId) l1
       /\ ProjectRole.projectId p = projectId
       /\ ProjectRole.role p = "project_admin").
Proof.
  intros u pid Hsa Hpid. unfold isProjectAdmin.
  rewrite (falsy_nonempty pid Hpid), Hsa. cbn zeta.
  set (f := fun p : ProjectRole.t =>
              if decide (Some (ProjectRole.projectId p) = Some pid)
              then true else false).
  assert (Hrhs : forall l1 l2 p,
            default [] (User.userProjects u) = (l1 ++ p :: l2)%list ->
            Forall (fun q => ProjectRole.projectId q <> pid) l1 ->
            ProjectRole.projectId p = pid ->
            List.find f (default [] (User.userProjects u)) = Some p).
  { intros l1 l2 p Hl Hl1 Hp. apply find_first. exists l1, l2.
    split; [exact Hl |]. split.
    - unfold f. destruct (decide _) as [| Hne]; [reflexivity | congruence].
    - eapply Forall_impl; [exact Hl1 |]. intros q Hq. cbn. unfold f.
      destruct (decide _) as [Heq |]; [congruence | reflexivity]. }
  destruct (List.find f (default [] (User.userProjects u))) as [p |] eqn:Hfind.
  - apply find_first in Hfind. destruct Hfind as (l1 & l2 & Hl & Hp & Hl1).
    assert (Hpp : ProjectRole.projectId p = pid).
    { unfold f in Hp. destruct (decide _) as [Heq |]; [congruence | discriminate]. }
    assert (Hl1' : Forall (fun q => ProjectRole.projectId q <> pid) l1).
    { eapply Forall_impl; [exact Hl1 |]. intros q Hq. cbn in Hq. unfold f in Hq.
      destruct (decide _) as [| Hne]; [discriminate | congruence]. }
    cbn. split.
    + destruct (decide (ProjectRole.role p = "project_admin")); [| discriminate].
      intros _. exists l1, l2, p. auto.
    + intros (k1 & k2 & p' & Hk & Hk1 & Hp' & Hrole).
      pose proof (Hrhs k1 k2 p' Hk Hk1 Hp') as Heq. injection Heq as <-.
      destruct (decide (ProjectRole.role p = "project_admin"));
        [reflexivity | contradiction].
  - cbn. split; [discriminate |].
    intros (k1 & k2 & p & Hk & Hk1 & Hp & _).
    pose proof (Hrhs k1 k2 p Hk Hk1 Hp) as Heq. discriminate.
Qed.


Lemma isProjectAdmin_first_entry_decides_witness :
  isSuperAdmin (Some Samples.carol_doc) = false
  /\ Js.to_boolean (isProjectAdmin (Some Samples.carol_doc) (Some "p2")) = true
  /\ Js.to_boolean (isProjectAdmin (Some Samples.carol_doc) (Some "p1")) = false.
Proof.
  assert (Hsa : isSuperAdmin (Some Samples.carol_doc) = false) by reflexivity.
  assert (Hp : "p2" <> "") by discriminate.
  split; [exact Hsa |]. split; [| reflexivity].
  apply (proj2 (isProjectAdmin_first_entry_decides Samples.carol_doc "p2" Hsa Hp)).
  exists [ {| ProjectRole.projectId := "p1"; ProjectRole.role := "user" |} ],
         [ {| ProjectRole.projectId := "p1"; ProjectRole.role := "project_admin" |} ],
         {| ProjectRole.projectId := "p2"; ProjectRole.role := "project_admin" |}.
  split; [reflexivity |]. split; [| split; reflexivity].
  constructor; [discriminate | constructor].
Defined.

Ltac run_lookup :=
  unfold after, outcome, try_catch, userProjects_where, console_error,
    request, mbind, mret, Fire_bind, Fire_ret;
  cbn.

(** With a missing or empty user id or project id, the role
    lookup answers [null] and the access check [false], for a
    SuperAdmin too, without calling the store; [isProjectAdmin] is
    false for a missing or empty project id, for a SuperAdmin too. *)
Theorem lookups_refuse_missing_ids_without_store_call :
  forall (w : World) (userId projectId : option string) (userData : option User.t),
    Js.falsy userId = true \/ Js.falsy projectId = true ->
    getUserRoleInProject userId projectId w = (Ok None, w)
    /\ hasAccessToProject userId projectId userData w = (Ok false, w)
    /\ (Js.falsy projectId = true ->
        isProjectAdmin userData projectId = Js.Bool false).
Proof.
  intros w u p ud H.
  assert (Hor : Js.falsy u || Js.falsy p = true).
  { destruct H as [-> | ->]; [reflexivity | apply orb_true_r]. }
  split; [| split].
  - unfold getUserRoleInProject. rewrite Hor. reflexivity.
  - unfold hasAccessToProject. rewrite Hor. reflexivity.
  - intros Hp. unfold isProjectAdmin. rewrite Hp. destruct ud; reflexivity.
Qed.

Lemma lookups_refuse_missing_ids_without_store_call_witness :
  RoleHelper.isSuperAdmin (Some Scenario.root_doc) = true
  /\ hasAccessToProject (Some "root") (Some "") (Some Scenario.root_doc)
       Scenario.world_down = (Ok false, Scenario.world_down)
  /\ getUserRoleInProject None (Some "p1") Scenario.world_down
     = (Ok None, Scenario.world_down)
  /\ isProjectAdmin (Some Scenario.root_doc) (Some "") = Js.Bool false.
Proof.
  split; [reflexivity |].
  destruct (lookups_refuse_missing_ids_without_store_call Scenario.world_down
              (Some "root") (Some "") (Some Scenario.root_doc)
              (or_intror eq_refl)) as (_ & Hacc & Hadm).
  destruct (lookups_refuse_missing_ids_without_store_call Scenario.world_down
              None (Some "p1") None (or_introl eq_refl)) as (Hrole & _).
  split; [exact Hacc |]. split; [exact Hrole |]. exact (Hadm eq_refl).
Defined.

(** X10. For a user who is not SuperAdmin, on the same store the
    access check is true exactly when the role lookup gives a role,
    whether or not the read fails; a role that is given is that of an
    active membership of the user in the project, and inactive
    memberships give none. *)
Theorem hasAccess_agrees_with_role_lookup :
  forall (w : World) (userId projectId : string) (userData : option User.t),
    userId <> "" -> projectId <> "" -> isSuperAdmin userData = false ->
    exists role : option string,
      outcome (getUserRoleInProject (Some userId) (Some projectId)) w = Ok role
      /\ outcome (hasAccessToProject (Some userId) (Some projectId) userData) w
         = Ok (match role with Some _ => true | None => false end)
      /\ (forall r, role = Some r ->
          exists d, In d (userProjects w)
                    /\ UserProject.userId d = userId
                    /\ UserProject.projectId d = projectId
                    /\ UserProject.isActive d = true
                    /\ UserProject.role d = r)
      /\ ((forall d, In d (userProjects w) ->
             UserProject.userId d = userId ->
             UserProject.projectId d = projectId ->
             UserProject.isActive d = false) ->
          role = None).
Proof.
  intros w uid pid ud Hu Hp Hsa.
  unfold getUserRoleInProject, hasAccessToProject.
  rewrite (falsy_nonempty uid Hu), (falsy_nonempty pid Hp), Hsa. cbn [orb].
  destruct w as [us ups qrs now fs con lg al pr]. run_lookup.
  destruct fs as [| [e |] fs]; cbn.
  1, 3: (
    destruct (List.filter (active_membership (Some uid) (Some pid)) ups)
      as [| d rest] eqn:Hfilter; cbn;
    [ exists None; repeat split; try reflexivity; intros; discriminate
    | exists (Some (UserProject.role d));
      assert (Hd : In d (List.filter (active_membership (Some uid) (Some pid)) ups))
        by (rewrite Hfilter; left; reflexivity);
      apply filter_In in Hd; destruct Hd as [Hin Hact];
      unfold active_membership in Hact;
      destruct (decide (Some (UserProject.userId d) = Some uid)) as [Hdu |];
        [| discriminate];
      destruct (decide (Some (UserProject.projectId d) = Some pid)) as [Hdp |];
        [| discriminate];
      destruct (decide (UserProject.isActive d = true)) as [Hda |];
        [| discriminate];
      split; [reflexivity |]; split;
        [destruct (decide (d :: rest = [])); [discriminate | reflexivity] |];
      split;
        [ intros r [= <-]; exists d; repeat split; congruence
        | intros Hall; exfalso;
          assert (UserProject.isActive d = false)
            by (apply Hall; congruence);
          congruence ] ]).
  exists None. repeat split; try reflexivity. intros; discriminate.
Qed.

Lemma hasAccess_agrees_with_role_lookup_witness :
  "u2" <> "" /\ "p1" <> "" /\ isSuperAdmin (Some Scenario.bina_doc) = false
  /\ exists role : option string,
       outcome (getUserRoleInProject (Some "u2") (Some "p1")) Samples.world_team
       = Ok role
       /\ outcome (hasAccessToProject (Some "u2") (Some "p1")
                     (Some Scenario.bina_doc)) Samples.world_team
          = Ok (match role with Some _ => true | None => false end).
Proof.
  assert (Hu : "u2" <> "") by discriminate.
  assert (Hp : "p1" <> "") by discriminate.
  assert (Hsa : isSuperAdmin (Some Scenario.bina_doc) = false) by reflexivity.
  split; [exact Hu |]. split; [exact Hp |]. split; [exact Hsa |].
  destruct (hasAccess_agrees_with_role_lookup Samples.world_team "u2" "p1"
              (Some Scenario.bina_doc) Hu Hp Hsa) as (role & Hrole & Hacc & _).
  exists role. split; [exact Hrole | exact Hacc].
Defined.

(** X11. The two lookups never write: users, memberships,
    invitations and alerts are as before.  They make one store call,
    or none when an id is missing or empty (or, for the access check,
    when the user is SuperAdmin); the console gets one entry, the
    rejection, exactly when that call was made and rejected, and none
    otherwise. *)
Theorem lookups_never_write :
  forall (w : World) (userId projectId : option string) (userData : option User.t),
    let w1 := after (getUserRoleInProject userId projectId) w in
    let w2 := after (hasAccessToProject userId projectId userData) w in
    let asked1 := negb (Js.falsy userId || Js.falsy projectId) in
    let asked2 := asked1 && negb (isSuperAdmin userData) in
    (users w1 = users w /\ userProjects w1 = userProjects w
     /\ qrInvitations w1 = qrInvitations w /\ alerts w1 = alerts w
     /\ faults w1 = (if asked1 then tail (faults w) else faults w)
     /\ console w1
        = (console w ++
           match faults w with
           | Some e :: _ =>
               if asked1 then [("Error fetching user role:"%string, e)] else []
           | _ => []
           end)%list)
    /\
    (users w2 = users w /\ userProjects w2 = userProjects w
     /\ qrInvitations w2 = qrInvitations w /\ alerts w2 = alerts w
     /\ faults w2 = (if asked2 then tail (faults w) else faults w)
     /\ console w2
        = (console w ++
           match faults w with
           | Some e :: _ =>
               if asked2 then [("Error checking project access:"%string, e)] else []
           | _ => []
           end)%list).
Proof.
  intros w u p ud w1 w2 asked1 asked2. subst w1 w2 asked1 asked2.
  unfold getUserRoleInProject, hasAccessToProject.
  destruct w as [us ups qrs now fs con lg al pr].
  destruct (Js.falsy u || Js.falsy p); cbn [negb andb].
  { unfold after. cbn. destruct fs as [| [e |] fs];
      rewrite ?app_nil_r; repeat split; reflexivity. }
  split.
  - run_lookup. destruct fs as [| [e |] fs]; cbn;
      try destruct (List.filter _ ups); cbn;
      rewrite ?app_nil_r; repeat split; reflexivity.
  - destruct (isSuperAdmin ud); cbn [negb].
    + unfold after. cbn. destruct fs as [| [e |] fs];
        rewrite ?app_nil_r; repeat split; reflexivity.
    + run_lookup. destruct fs as [| [e |] fs]; cbn;
        rewrite ?app_nil_r; repeat split; reflexivity.
Qed.

Lemma lookups_never_write_witness :
  console (after (getUserRoleInProject (Some "u2") (Some "p1")) Scenario.world_down)
  = [("Error fetching user role:"%string, unavailable)]
  /\ console (after (getUserRoleInProject (Some "u2") (Some "p1"))
                Samples.world_team)
     = []
  /\ console (after (hasAccessToProject (Some "root") (Some "p1")
                       (Some Scenario.root_doc)) Scenario.world_down)
     = []
  /\ faults (after (hasAccessToProject (Some "root") (Some "p1")
                      (Some Scenario.root_doc)) Scenario.world_down)
     = [Some unavailable].
Proof.
  destruct (lookups_never_write Scenario.world_down (Some "u2") (Some "p1") None)
    as ((_ & _ & _ & _ & _ & Hcon1) & _).
  destruct (lookups_never_write Samples.world_team (Some "u2") (Some "p1") None)
    as ((_ & _ & _ & _ & _ & Hcon2) & _).
  destruct (lookups_never_write Scenario.world_down (Some "root") (Some "p1")
              (Some Scenario.root_doc))
    as (_ & (_ & _ & _ & _ & Hf3 & Hcon3)).
  split; [exact Hcon1 |]. split; [exact Hcon2 |]. split; [exact Hcon3 | exact Hf3].
Defined.

End RoleMore.

(** ** More on approval and rejection *)

Section TransitionsMore.

Local Open Scope string_scope.

Ltac all_runs us qrs :=
  repeat match goal with
    | |- context [match ?l with [] => _ | _ :: _ => _ end] =>
        is_var l; destruct l as [| [? |] ?]; cbn
    | |- context [us !! ?k] => destruct (us !! k) eqn:?; cbn
    | |- context [qrs !! ?k] => destruct (qrs !! k) eqn:?; cbn
    | |- context [Js.truthy ?x] => destruct (Js.truthy x) eqn:?; cbn
    end.

(** X12. Whichever store calls fail, [rejectUser] leaves the
    memberships as they are (those of the rejected user included), and
    [approveUser] leaves them as they are or appends one membership of
    the approved user; for an entry without a project it appends none. *)
Theorem memberships_only_appended :
  forall (w : World) (user : PendingUser) (screen : Screen),
    userProjects (after (rejectUser user screen) w) = userProjects w
    /\ (userProjects (after (approveUser user screen) w) = userProjects w
        \/ exists pid,
             projectId user = Some pid /\ pid <> ""
             /\ is_Some (users w !! id user)
             /\ userProjects (after (approveUser user screen) w)
                = (userProjects w ++ [newMembership user pid (serverTime w)])%list)
    /\ (Js.truthy (projectId user) = false ->
        userProjects (after (approveUser user screen) w) = userProjects w).
Proof.
  intros w user screen.
  destruct (refresh_view screen) as (refresh & Ha & Hr & _ & Hp & _).
  rewrite Ha, Hr. destruct w as [us ups qrs now fs con lg al pr].
  split; [| split].
  - run_fire. all_runs us qrs; rewrite ?Hp; reflexivity.
  - destruct (Js.truthy (projectId user)) eqn:Ht.
    + destruct (projectId user) as [pid |] eqn:Hpid; [| discriminate].
      assert (Hne : pid <> "").
      { intros ->. discriminate. }
      run_fire. rewrite Hpid, Ht. cbn.
      destruct (us !! id user) as [d |] eqn:Hu.
      * all_runs us qrs; rewrite ?Hu; cbn; all_runs us qrs; rewrite ?Hp; cbn;
          first [ left; reflexivity
                | right; exists pid; repeat split; eauto ].
      * left. all_runs us qrs; rewrite ?Hu; cbn; reflexivity.
    + left. run_fire. rewrite Ht. all_runs us qrs; rewrite ?Hp; reflexivity.
  - intros Ht. run_fire. rewrite Ht. all_runs us qrs; rewrite ?Hp; reflexivity.
Qed.

Lemma memberships_only_appended_witness :
  Js.truthy (projectId Samples.dev) = false
  /\ userProjects (after (approveUser Samples.dev Samples.blank_screen)
                     Samples.world_company)
     = userProjects Samples.world_company
  /\ User.isApproved <$>
       users (after (approveUser Samples.dev Samples.blank_screen)
                Samples.world_company) !! "u3"
     = Some true.
Proof.
  assert (Ht : Js.truthy (projectId Samples.dev) = false) by reflexivity.
  split; [exact Ht |]. split; [| vm_compute; reflexivity].
  exact (proj2 (proj2 (memberships_only_appended Samples.world_company Samples.dev
                         Samples.blank_screen)) Ht).
Defined.




(** X14. Whichever store calls fail, approving or rejecting an entry
    leaves every other user document and every other invitation as it
    was. *)
Theorem transitions_touch_one_user_one_invitation :
  forall (w : World) (user : PendingUser) (screen : Screen) (k : string),
    (k <> id user ->
     users (after (approveUser user screen) w) !! k = users w !! k
     /\ users (after (rejectUser user screen) w) !! k = users w !! k)
    /\
    (k <> qrId user ->
     qrInvitations (after (approveUser user screen) w) !! k = qrInvitations w !! k
     /\ qrInvitations (after (rejectUser user screen) w) !! k = qrInvitations w !! k).
Proof.
  intros w user screen k.
  destruct (refresh_view screen) as (refresh & Ha & Hr & Hu & _ & Hq & _).
  rewrite Ha, Hr. destruct w as [us ups qrs now fs con lg al pr].
  split; intros Hk; split; run_fire; all_runs us qrs; rewrite ?Hu, ?Hq; cbn;
    rewrite ?lookup_insert_ne, ?lookup_delete_ne by congruence; congruence.
Qed.

Lemma transitions_touch_one_user_one_invitation_witness :
  "u3" <> id Scenario.asha
  /\ users (after (rejectUser Scenario.asha Samples.blank_screen)
              Samples.world_queue) !! "u3"
     = Some Samples.dev_doc
  /\ users (after (rejectUser Scenario.asha Samples.blank_screen)
              Samples.world_queue) !! "u1"
     = None
  /\ "qr0" <> qrId Scenario.asha
  /\ qrInvitations (after (approveUser Scenario.asha Samples.blank_screen)
                      Samples.world_queue) !! "qr0"
     = Some Samples.qr0_eli
  /\ qrInvitations (after (approveUser Scenario.asha Samples.blank_screen)
                      Samples.world_queue) !! "qr1"
     <> Some Samples.qr1_two.
Proof.
  assert (H1 : "u3" <> id Scenario.asha) by discriminate.
  assert (H2 : "qr0" <> qrId Scenario.asha) by discriminate.
  split; [exact H1 |].
  split.
  { rewrite (proj2 (proj1 (transitions_touch_one_user_one_invitation
                             Samples.world_queue Scenario.asha
                             Samples.blank_screen "u3") H1)).
    vm_compute. reflexivity. }
  split; [vm_compute; reflexivity |].
  split; [exact H2 |].
  split.
  { rewrite (proj1 (proj2 (transitions_touch_one_user_one_invitation
                             Samples.world_queue Scenario.asha
                             Samples.blank_screen "qr0") H2)).
    vm_compute. reflexivity. }
  vm_compute. discriminate.
Defined.

Lemma filter_filter {A} (f : A -> bool) (l : list A) :
  List.filter f (List.filter f l) = List.filter f l.
Proof.
  induction l as [| x l IH]; [reflexivity |].
  cbn. destruct (f x) eqn:Hx; cbn; rewrite ?Hx, IH; reflexivity.
Qed.

Lemma removePending_idempotent (user : PendingUser) (q : QrInvitation.t) :
  removePending user (removePending user q) = removePending user q.
Proof.
  unfold removePending, updatedPendingSignups. cbn.
  rewrite filter_filter. reflexivity.
Qed.

(** X15. When every call is answered, rejecting the same entry a
    second time changes nothing in the store: the user document stays
    deleted, memberships and invitations are as after the first
    rejection. *)
Theorem rejectUser_idempotent_on_store :
  forall (w : World) (user : PendingUser) (screen1 screen2 : Screen),
    faults w = [] ->
    let w1 := after (rejectUser user screen1) w in
    let w2 := after (rejectUser user screen2) w1 in
    users w2 = users w1
    /\ userProjects w2 = userProjects w1
    /\ qrInvitations w2 = qrInvitations w1
    /\ users w1 = delete (id user) (users w).
Proof.
  intros w user screen1 screen2 Hf.
  destruct (refresh_view screen1) as (refresh1 & _ & Hr1 & _ & _ & _ & _ & Hq1 & _).
  destruct (refresh_view screen2) as (refresh2 & _ & Hr2 & _ & _ & _ & _ & Hq2 & _).
  cbn zeta. rewrite Hr2, Hr1. destruct w as [us ups qrs now fs con lg al pr].
  cbn in Hf. subst fs. run_fire.
  destruct (qrs !! qrId user) as [q |] eqn:Hq; cbn; rewrite ?Hq; cbn;
    rewrite Hq1 by reflexivity; cbn.
  - rewrite !lookup_insert_eq. cbn. rewrite !lookup_insert_eq. cbn.
    rewrite Hq2 by reflexivity. cbn.
    repeat split; try reflexivity.
    + apply delete_delete_eq.
    + rewrite insert_insert_eq, removePending_idempotent. reflexivity.
  - rewrite Hq. cbn. rewrite Hq2 by reflexivity. cbn.
    repeat split; try reflexivity. apply delete_delete_eq.
Qed.

Lemma rejectUser_idempotent_on_store_witness :
  faults Scenario.world0 = []
  /\ users (after (rejectUser Scenario.asha Samples.blank_screen)
              (after (rejectUser Scenario.asha Samples.blank_screen) Scenario.world0))
     = users (after (rejectUser Scenario.asha Samples.blank_screen) Scenario.world0)
  /\ qrInvitations (after (rejectUser Scenario.asha Samples.blank_screen)
                      (after (rejectUser Scenario.asha Samples.blank_screen)
                         Scenario.world0))
     = qrInvitations (after (rejectUser Scenario.asha Samples.blank_screen)
                        Scenario.world0).
Proof.
  assert (Hf : faults Scenario.world0 = []) by reflexivity.
  destruct (rejectUser_idempotent_on_store Scenario.world0 Scenario.asha
              Samples.blank_screen Samples.blank_screen Hf)
    as (Hu & _ & Hq & _).
  split; [exact Hf |]. split; [exact Hu | exact Hq].
Defined.

(** X16. The writes of [approveUser] are not undone when a later call
    fails: if the membership write is rejected the user stays approved
    without membership, and if the read of the invitation is rejected
    the user stays approved with the membership added, while the
    invitation still lists the signup and the error alert is shown. *)
Theorem approveUser_not_atomic :
  forall (w : World) (user : PendingUser) (screen : Screen) (d : User.t)
         (pid : string) (e : Error) (rest : list (option Error)),
    users w !! id user = Some d ->
    projectId user = Some pid -> pid <> "" ->
    (faults w = None :: Some e :: rest ->
     let w' := after (approveUser user screen) w in
     users w' !! id user = Some (markApproved (serverTime w) d)
     /\ userProjects w' = userProjects w
     /\ qrInvitations w' = qrInvitations w
     /\ alerts w' = (alerts w ++ [("Error", "Failed to approve user")])%list)
    /\
    (faults w = None :: None :: Some e :: rest ->
     let w' := after (approveUser user screen) w in
     users w' !! id user = Some (markApproved (serverTime w) d)
     /\ userProjects w'
        = (userProjects w ++ [newMembership user pid (serverTime w)])%list
     /\ qrInvitations w' = qrInvitations w
     /\ alerts w' = (alerts w ++ [("Error", "Failed to approve user")])%list).
Proof.
  intros w user screen d pid e rest Hu Hp Hpid.
  assert (Ht : Js.truthy (projectId user) = true).
  { rewrite Hp. unfold Js.truthy. rewrite (falsy_nonempty pid Hpid). reflexivity. }
  destruct w as [us ups qrs now fs con lg al pr]. cbn in Hu.
  split; intros Hf; cbn in Hf; subst fs; cbn zeta; rewrite approveUser_after;
    run_fire; rewrite Hu; cbn; rewrite Ht, ?Hp; cbn;
    (split; [apply lookup_insert_eq |]); repeat split; reflexivity.
Qed.

Lemma approveUser_not_atomic_witness :
  users Scenario.world_flaky !! id Scenario.asha = Some Scenario.asha_doc
  /\ faults Scenario.world_flaky = [None; None; Some unavailable]
  /\ userProjects (after (approveUser Scenario.asha Samples.blank_screen)
                     Scenario.world_flaky)
     = [Scenario.asha_membership]
  /\ qrInvitations (after (approveUser Scenario.asha Samples.blank_screen)
                      Scenario.world_flaky)
     = qrInvitations Scenario.world_flaky.
Proof.
  assert (Hu : users Scenario.world_flaky !! id Scenario.asha
               = Some Scenario.asha_doc) by (apply lookup_singleton_eq).
  assert (Hp : projectId Scenario.asha = Some "p1") by reflexivity.
  assert (Hpid : "p1" <> "") by discriminate.
  assert (Hf : faults Scenario.world_flaky = [None; None; Some unavailable])
    by reflexivity.
  destruct (proj2 (approveUser_not_atomic Scenario.world_flaky Scenario.asha
                     Samples.blank_screen Scenario.asha_doc "p1" unavailable []
                     Hu Hp Hpid) Hf)
    as (_ & Hups & Hqr & _).
  split; [exact Hu |]. split; [exact Hf |]. split; [exact Hups | exact Hqr].
Defined.

(** X17. When the invitation document no longer exists, an answered
    approval still approves the user and shows the success alert; no
    invitation document is created. *)
Theorem approveUser_without_invitation_document :
  forall (w : World) (user : PendingUser) (screen : Screen) (d : User.t),
    faults w = [] ->
    users w !! id user = Some d ->
    qrInvitations w !! qrId user = None ->
    let w' := after (approveUser user screen) w in
    users w' !! id user = Some (markApproved (serverTime w) d)
    /\ qrInvitations w' = qrInvitations w
    /\ alerts w'
       = (alerts w ++ [("Success", (name user ++ " has been approved!")%string)])%list
    /\ console w' = console w.
Proof.
  intros w user screen d Hf Hu Hq.
  destruct (refresh_view screen) as (refresh & Ha & _ & _ & _ & _ & _ & Hquiet & _).
  cbn zeta. rewrite Ha. destruct w as [us ups qrs now fs con lg al pr].
  cbn in Hf, Hu, Hq. subst fs. run_fire. rewrite Hu. cbn.
  destruct (Js.truthy (projectId user)); cbn; rewrite Hq; cbn;
    rewrite Hquiet by reflexivity; cbn;
    (split; [apply lookup_insert_eq |]); repeat split; reflexivity.
Qed.

Lemma approveUser_without_invitation_document_witness :
  faults Samples.world_orphan = []
  /\ users Samples.world_orphan !! id Scenario.asha = Some Scenario.asha_doc
  /\ qrInvitations Samples.world_orphan !! qrId Scenario.asha = None
  /\ alerts (after (approveUser Scenario.asha Samples.blank_screen)
               Samples.world_orphan)
     = [("Success", "Asha has been approved!")].
Proof.
  assert (Hf : faults Samples.world_orphan = []) by reflexivity.
  assert (Hu : users Samples.world_orphan !! id Scenario.asha
               = Some Scenario.asha_doc) by (apply lookup_singleton_eq).
  assert (Hq : qrInvitations Samples.world_orphan !! qrId Scenario.asha = None)
    by (apply lookup_empty).
  destruct (approveUser_without_invitation_document Samples.world_orphan
              Scenario.asha Samples.blank_screen Scenario.asha_doc Hf Hu Hq)
    as (_ & _ & Hal & _).
  split; [exact Hf |]. split; [exact Hu |]. split; [exact Hq | exact Hal].
Defined.

End TransitionsMore.

(** ** Relative dates on the approvals screen *)

Section FormatDateProperties.

Local Open Scope string_scope.
Local Open Scope Z_scope.

(** X18. For a valid timestamp the label is "Just now" below one
    minute of age (a timestamp in the future included), then whole
    minutes from 1 to 59, whole hours from 1 to 23, and whole days
    from 1 on. *)
Theorem formatDate_relative_labels :
  forall (now date : Z),
    let age := now - date in
    let label := formatDate now (Some (OtpGenerator.ValidDate date)) in
    (age < 60000 -> label = "Just now")
    /\ (60000 <= age < 3600000 ->
        label = OtpGenerator.Number_toString (age / 60000) ++ "m ago"
        /\ 1 <= age / 60000 <= 59)
    /\ (3600000 <= age < 86400000 ->
        label = OtpGenerator.Number_toString (age / 3600000) ++ "h ago"
        /\ 1 <= age / 3600000 <= 23)
    /\ (86400000 <= age ->
        label = OtpGenerator.Number_toString (age / 86400000) ++ "d ago"
        /\ 1 <= age / 86400000).
Proof.
  intros now date age label. subst label. unfold formatDate. fold age.
  cbn zeta. generalize age. clear. intros age.
  assert (Hh : age / 60000 / 60 = age / 3600000)
    by (rewrite Z.div_div by lia; reflexivity).
  assert (Hd : age / 60000 / 1440 = age / 86400000)
    by (rewrite Z.div_div by lia; reflexivity).
  rewrite Hh, Hd.
  split; [| split; [| split]]; intros Hage.
  - rewrite (proj2 (Z.ltb_lt _ _)) by (Z.div_mod_to_equations; lia). reflexivity.
  - rewrite (proj2 (Z.ltb_ge _ _)) by (Z.div_mod_to_equations; lia).
    rewrite (proj2 (Z.ltb_lt _ _)) by (Z.div_mod_to_equations; lia).
    split; [reflexivity | Z.div_mod_to_equations; lia].
  - rewrite (proj2 (Z.ltb_ge (age / 60000) 1)) by (Z.div_mod_to_equations; lia).
    rewrite (proj2 (Z.ltb_ge (age / 60000) 60)) by (Z.div_mod_to_equations; lia).
    rewrite (proj2 (Z.ltb_lt (age / 60000) 1440)) by (Z.div_mod_to_equations; lia).
    split; [reflexivity | Z.div_mod_to_equations; lia].
  - rewrite (proj2 (Z.ltb_ge (age / 60000) 1)) by (Z.div_mod_to_equations; lia).
    rewrite (proj2 (Z.ltb_ge (age / 60000) 60)) by (Z.div_mod_to_equations; lia).
    rewrite (proj2 (Z.ltb_ge (age / 60000) 1440)) by (Z.div_mod_to_equations; lia).
    split; [reflexivity | Z.div_mod_to_equations; lia].
Qed.

Lemma formatDate_relative_labels_witness :
  formatDate 1704067200000 (Some (OtpGenerator.ValidDate 1704067260000)) = "Just now"
  /\ formatDate 1704074400000 (Some (OtpGenerator.ValidDate 1704067200000)) = "2h ago"
  /\ formatDate 1704326400000 (Some (OtpGenerator.ValidDate 1704067200000)) = "3d ago".
Proof.
  split; [| split].
  - apply (proj1 (formatDate_relative_labels 1704067200000 1704067260000)). lia.
  - destruct (proj1 (proj2 (proj2 (formatDate_relative_labels
                 1704074400000 1704067200000))) ltac:(lia)) as [H _].
    rewrite H. reflexivity.
  - destruct (proj2 (proj2 (proj2 (formatDate_relative_labels
                 1704326400000 1704067200000))) ltac:(lia)) as [H _].
    rewrite H. reflexivity.
Defined.

End FormatDateProperties.

(** ** Loading the pending approvals *)

Section SortProperties.

Context {A : Type} (before : A -> A -> bool).

Lemma In_sort_insert (x y : A) (l : list A) :
  In y (Js.sort_insert before x l) <-> y = x \/ In y l.
Proof.
  induction l as [| z l IH]; cbn.
  - split; [intros [-> | []]; auto | intros [-> | []]; auto].
  - destruct (before z x); cbn; rewrite ?IH; intuition (subst; auto).
Qed.

Lemma In_Array_sort (y : A) (l : list A) :
  In y (Js.Array_sort before l) <-> In y l.
Proof.
  induction l as [| x l IH]; cbn; [reflexivity |].
  rewrite In_sort_insert, IH. intuition (subst; auto).
Qed.

End SortProperties.

Section LoadProperties.

Local Open Scope list_scope.

Lemma In_docs_by_id {V} (m : gmap string V) (k : string) (v : V) :
  In (k, v) (docs_by_id m) <-> m !! k = Some v.
Proof.
  unfold docs_by_id. rewrite In_Array_sort, <- list_elem_of_In.
  apply elem_of_map_to_list.
Qed.

Lemma In_signupEntries (us : gmap string User.t) (k : string)
    (q : QrInvitation.t) (signups : list Signup.t) (x : ListedUser) :
  In x (signupEntries us k q signups) <->
  exists signup d,
    In signup signups /\ us !! Signup.userId signup = Some d
    /\ x = listedUser k q signup d.
Proof.
  unfold signupEntries. rewrite in_flat_map. split.
  - intros (s & Hs & Hx). destruct (us !! Signup.userId s) as [d |] eqn:Hd.
    + destruct Hx as [<- | []]. exists s, d. auto.
    + destruct Hx.
  - intros (s & d & Hs & Hd & ->). exists s. split; [exact Hs |].
    rewrite Hd. left. reflexivity.
Qed.

Lemma In_pendingEntries (w : World) (x : ListedUser) :
  In x (pendingEntries w) <->
  exists k q signup d,
    qrInvitations w !! k = Some q
    /\ QrInvitation.isPending q = true
    /\ In signup (default [] (QrInvitation.pendingSignups q))
    /\ users w !! Signup.userId signup = Some d
    /\ x = listedUser k q signup d.
Proof.
  unfold pendingEntries, newest_first, invitationEntries.
  rewrite In_Array_sort, in_flat_map. split.
  - intros ([k q] & Hdoc & Hx). apply filter_In in Hdoc.
    destruct Hdoc as [Hdoc Hflag]. apply In_docs_by_id in Hdoc.
    apply In_signupEntries in Hx. destruct Hx as (s & d & Hs & Hd & ->).
    exists k, q, s, d. auto.
  - intros (k & q & s & d & Hq & Hflag & Hs & Hd & ->).
    exists (k, q). split.
    + apply filter_In. split; [apply In_docs_by_id, Hq | exact Hflag].
    + apply In_signupEntries. exists s, d. auto.
Qed.

(** X19. When every call is answered, the list the screen is given
    holds exactly the signups of the invitations flagged [isPending]
    whose user document exists; a signup without user document, or in
    an invitation whose flag is false, is not listed. *)
Theorem loadPendingUsers_lists_pending_signups_with_a_user :
  forall (screen : Screen) (w : World),
    faults w = [] ->
    exists screen',
      loadPendingUsers screen w = (Ok screen', w)
      /\ forall x : ListedUser,
           In x (pendingUsers screen') <->
           exists k q signup d,
             qrInvitations w !! k = Some q
             /\ QrInvitation.isPending q = true
             /\ In signup (default [] (QrInvitation.pendingSignups q))
             /\ users w !! Signup.userId signup = Some d
             /\ x = listedUser k q signup d.
Proof.
  intros screen w Hf.
  destruct (loadPendingUsers_run screen w) as (_ & _ & Hcalm).
  eexists. split; [apply (Hcalm Hf) |].
  intros x. cbn. apply In_pendingEntries.
Qed.

Lemma sort_insert_newest_first (x : ListedUser) (l : list ListedUser) :
  Sorted (fun a b => (signupTimestamp b <= signupTimestamp a)%Z) l ->
  Sorted (fun a b => (signupTimestamp b <= signupTimestamp a)%Z)
    (Js.sort_insert
       (fun y x => (signupTimestamp x <? signupTimestamp y)%Z) x l).
Proof.
  induction 1 as [| y l Hl IH Hhd]; cbn.
  - repeat constructor.
  - destruct (Z.ltb_spec (signupTimestamp x) (signupTimestamp y)) as [Hlt | Hge].
    + constructor; [exact IH |].
      destruct l as [| z l]; cbn.
      * constructor. lia.
      * destruct (signupTimestamp x <? signupTimestamp z)%Z.
        -- constructor. inversion Hhd; assumption.
        -- constructor. lia.
    + constructor; [constructor; assumption |]. constructor. exact Hge.
Qed.

Lemma newest_first_sorted (l : list ListedUser) :
  Sorted (fun a b => (signupTimestamp b <= signupTimestamp a)%Z) (newest_first l).
Proof.
  unfold newest_first, Js.Array_sort.
  induction l as [| x l IH]; cbn; [constructor |].
  apply sort_insert_newest_first, IH.
Qed.

Lemma loadPendingUsers_lists_pending_signups_with_a_user_witness :
  faults Scenario.world0 = []
  /\ exists screen',
       loadPendingUsers Samples.blank_screen Scenario.world0
       = (Ok screen', Scenario.world0)
       /\ In (listedUser "qr1" Scenario.qr1
                {| Signup.userId := "u1"; Signup.timestamp := 1000 |}
                Scenario.asha_doc)
             (pendingUsers screen').
Proof.
  assert (Hf : faults Scenario.world0 = []) by reflexivity.
  split; [exact Hf |].
  destruct (loadPendingUsers_lists_pending_signups_with_a_user
              Samples.blank_screen Scenario.world0 Hf) as (screen' & Hrun & Hin).
  exists screen'. split; [exact Hrun |].
  apply Hin. exists "qr1"%string, Scenario.qr1,
    {| Signup.userId := "u1"; Signup.timestamp := 1000 |}, Scenario.asha_doc.
  split; [apply lookup_singleton_eq |]. split; [reflexivity |].
  split; [left; reflexivity |]. split; [apply lookup_singleton_eq | reflexivity].
Defined.

(** X20. When every call is answered, the list the screen is given is
    ordered by signup time, newest first. *)
Theorem loadPendingUsers_newest_first :
  forall (screen : Screen) (w : World),
    faults w = [] ->
    exists screen',
      loadPendingUsers screen w = (Ok screen', w)
      /\ Sorted (fun a b => (signupTimestamp b <= signupTimestamp a)%Z)
           (pendingUsers screen').
Proof.
  intros screen w Hf.
  destruct (loadPendingUsers_run screen w) as (_ & _ & Hcalm).
  eexists. split; [apply (Hcalm Hf) |]. cbn. apply newest_first_sorted.
Qed.

Lemma loadPendingUsers_newest_first_witness :
  faults Samples.world_queue = []
  /\ List.map signupTimestamp (pendingEntries Samples.world_queue)
     = [1800; 1500; 1000]%Z
  /\ exists screen',
       loadPendingUsers Samples.blank_screen Samples.world_queue
       = (Ok screen', Samples.world_queue)
       /\ List.map (fun x => id (entry x)) (pendingUsers screen')
          = ["u3"; "u5"; "u1"]%string
       /\ Sorted (fun a b => (signupTimestamp b <= signupTimestamp a)%Z)
            (pendingUsers screen').
Proof.
  assert (Hf : faults Samples.world_queue = []) by reflexivity.
  split; [exact Hf |]. split; [vm_compute; reflexivity |].
  destruct (loadPendingUsers_newest_first Samples.blank_screen Samples.world_queue Hf)
    as (screen' & Hrun & Hsorted).
  exists screen'. split; [exact Hrun |]. split; [| exact Hsorted].
  assert (Hout : outcome (loadPendingUsers Samples.blank_screen) Samples.world_queue
                 = Ok screen') by (unfold outcome; rewrite Hrun; reflexivity).
  vm_compute in Hout. injection Hout as <-. reflexivity.
Defined.

Lemma rejectUser_answered (w : World) (user : PendingUser) (screen : Screen) :
  faults w = [] ->
  faults (after (rejectUser user screen) w) = []
  /\ users (after (rejectUser user screen) w) = delete (id user) (users w)
  /\ outcome (rejectUser user screen) w
     = Ok {| pendingUsers := pendingEntries (after (rejectUser user screen) w);
             loading := false; refreshing := false |}.
Proof.
  intros Hf. unfold outcome, after, rejectUser, try_finally, try_catch.
  rewrite bind_run. destruct w as [us ups qrs now fs con lg al pr].
  cbn in Hf. subst fs. run_fire.
  destruct (qrs !! qrId user) eqn:Hq; cbn; rewrite ?Hq; cbn;
    rewrite loadPendingUsers_exact; cbn [faults]; rewrite next_fault_nil;
    cbn; repeat split; reflexivity.
Qed.

Lemma approveUser_answered (w : World) (user : PendingUser) (screen : Screen) :
  faults w = [] ->
  faults (after (approveUser user screen) w) = []
  /\ (users w !! id user = None ->
      users (after (approveUser user screen) w) = users w)
  /\ (is_Some (users w !! id user) ->
      qrInvitations (after (approveUser user screen) w) !! qrId user
      = removePending user <$> qrInvitations w !! qrId user)
  /\ (is_Some (users w !! id user) ->
      outcome (approveUser user screen) w
      = Ok {| pendingUsers := pendingEntries (after (approveUser user screen) w);
              loading := false; refreshing := false |}).
Proof.
  intros Hf. unfold outcome, after, approveUser, try_finally, try_catch.
  rewrite bind_run. destruct w as [us ups qrs now fs con lg al pr].
  cbn in Hf. subst fs. run_fire. destruct (us !! id user) as [d |] eqn:Hu; cbn.
  - destruct (Js.truthy (projectId user)); cbn;
      destruct (qrs !! qrId user) eqn:Hq; cbn; rewrite ?Hq; cbn;
      rewrite loadPendingUsers_exact; cbn [faults]; rewrite next_fault_nil; cbn;
      (split; [reflexivity |]); (split; [discriminate |]);
      (split; [intros _; rewrite ?lookup_insert_eq, ?Hq; reflexivity |]);
      intros _; reflexivity.
  - split; [reflexivity |]. split; [reflexivity |].
    split; intros [? ?]; discriminate.
Qed.

(** X21. When every call is answered, the list [rejectUser] leaves on
    the screen holds no entry of the rejected user, and the list
    [approveUser] leaves holds no entry of the approved user for the
    invitation that was processed; the same is true of any reload
    after them. *)
Theorem processed_user_is_no_longer_listed :
  forall (screen screen0 : Screen) (w : World) (user : PendingUser),
    faults w = [] ->
    (exists screen',
       outcome (loadPendingUsers screen) (after (rejectUser user screen0) w)
       = Ok screen'
       /\ forall x, In x (pendingUsers screen') -> id (entry x) <> id user)
    /\
    (exists screen',
       outcome (loadPendingUsers screen) (after (approveUser user screen0) w)
       = Ok screen'
       /\ forall x, In x (pendingUsers screen') ->
            ~ (id (entry x) = id user /\ qrId (entry x) = qrId user))
    /\
    (exists screen',
       outcome (rejectUser user screen0) w = Ok screen'
       /\ forall x, In x (pendingUsers screen') -> id (entry x) <> id user)
    /\
    (is_Some (users w !! id user) ->
     exists screen',
       outcome (approveUser user screen0) w = Ok screen'
       /\ forall x, In x (pendingUsers screen') ->
            ~ (id (entry x) = id user /\ qrId (entry x) = qrId user)).
Proof.
  intros screen screen0 w user Hf.
  destruct (rejectUser_answered w user screen0 Hf) as (Hf1 & Hus & Hout1).
  destruct (approveUser_answered w user screen0 Hf) as (Hf2 & Hnone & Hsome & Hout2).
  assert (Hrej : forall x,
            In x (pendingEntries (after (rejectUser user screen0) w)) ->
            id (entry x) <> id user).
  { intros x Hx. apply In_pendingEntries in Hx.
    destruct Hx as (k & q & s & d & _ & _ & _ & Hd & ->). cbn. intros Heq.
    rewrite Hus, Heq, lookup_delete_eq in Hd. discriminate. }
  assert (Happ : forall x,
            In x (pendingEntries (after (approveUser user screen0) w)) ->
            ~ (id (entry x) = id user /\ qrId (entry x) = qrId user)).
  { intros x Hx. apply In_pendingEntries in Hx.
    destruct Hx as (k & q & s & d & Hq & _ & Hs & Hd & ->). cbn.
    intros [Hid Hqr]. subst k.
    destruct (users w !! id user) as [d0 |] eqn:Hu.
    + rewrite (Hsome ltac:(eauto)) in Hq.
      destruct (qrInvitations w !! qrId user) as [q0 |]; [| discriminate].
      cbn in Hq. injection Hq as <-. cbn in Hs.
      unfold updatedPendingSignups in Hs. apply filter_In in Hs.
      destruct Hs as [_ Hkeep].
      destruct (decide (Signup.userId s = id user)); [discriminate | contradiction].
    + rewrite (Hnone eq_refl), Hid, Hu in Hd. discriminate. }
  split; [| split; [| split]].
  - destruct (loadPendingUsers_run screen (after (rejectUser user screen0) w))
      as (_ & _ & Hcalm).
    eexists. unfold outcome. rewrite (Hcalm Hf1). split; [reflexivity |].
    exact Hrej.
  - destruct (loadPendingUsers_run screen (after (approveUser user screen0) w))
      as (_ & _ & Hcalm).
    eexists. unfold outcome. rewrite (Hcalm Hf2). split; [reflexivity |].
    exact Happ.
  - eexists. split; [exact Hout1 |]. exact Hrej.
  - intros Hu. eexists. split; [exact (Hout2 Hu) |]. exact Happ.
Qed.

Lemma processed_user_is_no_longer_listed_witness :
  faults Samples.world_queue = []
  /\ (exists screen',
        outcome (loadPendingUsers Samples.blank_screen)
          (after (rejectUser Scenario.asha Samples.screen_asha) Samples.world_queue)
        = Ok screen'
        /\ forall x, In x (pendingUsers screen') -> id (entry x) <> "u1"%string)
  /\ (exists screen',
        outcome (rejectUser Scenario.asha Samples.screen_asha) Samples.world_queue
        = Ok screen'
        /\ (forall x, In x (pendingUsers screen') -> id (entry x) <> "u1"%string)
        /\ List.map (fun x => id (entry x)) (pendingUsers screen')
           = ["u3"; "u5"]%string).
Proof.
  assert (Hf : faults Samples.world_queue = []) by reflexivity.
  split; [exact Hf |].
  destruct (processed_user_is_no_longer_listed Samples.blank_screen
              Samples.screen_asha Samples.world_queue Scenario.asha Hf)
    as (Hreload & _ & (screen' & Hout & Hnot) & _).
  split; [exact Hreload |].
  exists screen'. split; [exact Hout |]. split; [exact Hnot |].
  vm_compute in Hout. injection Hout as <-. reflexivity.
Defined.

(** X22. [loadPendingUsers] never throws and never writes to the
    store, and always leaves the loading and refreshing flags off.  It
    makes the query and one read per signup of the snapshot, and the
    schedule decides the rest: when all these calls are answered it
    sets the new list, shows no alert and logs nothing; at the first
    call that is rejected it stops, keeps the list the screen had, logs
    that rejection and shows one error alert. *)
Theorem loadPendingUsers_failure_keeps_the_list :
  forall (screen : Screen) (w : World),
    exists screen' w',
      loadPendingUsers screen w = (Ok screen', w')
      /\ loading screen' = false /\ refreshing screen' = false
      /\ users w' = users w /\ userProjects w' = userProjects w
      /\ qrInvitations w' = qrInvitations w
      /\ ((pendingUsers screen' = pendingEntries w
           /\ alerts w' = alerts w /\ console w' = console w)
          \/ (pendingUsers screen' = pendingUsers screen
              /\ alerts w'
                 = alerts w ++ [("Error", "Failed to load pending approvals")%string]
              /\ exists e,
                   console w'
                   = console w ++ [("Error loading pending users:"%string, e)]))
      /\ (forall e rest, faults w = Some e :: rest ->
          pendingUsers screen' = pendingUsers screen
          /\ console w' = console w ++ [("Error loading pending users:"%string, e)])
      /\ match next_fault (loadCalls w) (faults w) with
         | (None, rest) =>
             pendingUsers screen' = pendingEntries w
             /\ alerts w' = alerts w /\ console w' = console w
             /\ faults w' = rest
         | (Some e, rest) =>
             pendingUsers screen' = pendingUsers screen
             /\ alerts w'
                = alerts w ++ [("Error", "Failed to load pending approvals")%string]
             /\ console w'
                = console w ++ [("Error loading pending users:"%string, e)]
             /\ faults w' = rest
         end.
Proof.
  intros screen w. rewrite loadPendingUsers_exact.
  destruct (next_fault (loadCalls w) (faults w)) as [[e |] rest] eqn:Hn.
  - eexists _, _. split; [reflexivity |]. cbn.
    do 5 (split; [reflexivity |]). split; [| split].
    + right. repeat split; eauto.
    + intros e' rest' Hfault. rewrite Hfault in Hn. cbn in Hn.
      injection Hn as <- <-. split; reflexivity.
    + repeat split; reflexivity.
  - eexists _, _. split; [reflexivity |]. cbn.
    do 5 (split; [reflexivity |]). split; [| split].
    + left. repeat split; reflexivity.
    + intros e' rest' Hfault. rewrite Hfault in Hn. cbn in Hn. discriminate.
    + repeat split; reflexivity.
Qed.

Lemma loadPendingUsers_failure_keeps_the_list_witness :
  faults Samples.world_queue_flaky = [None; Some unavailable]
  /\ pendingUsers Samples.screen_asha = [Samples.asha_listed]
  /\ exists screen' w',
       loadPendingUsers Samples.screen_asha Samples.world_queue_flaky
       = (Ok screen', w')
       /\ pendingUsers screen' = [Samples.asha_listed]
       /\ refreshing screen' = false
       /\ console w' = [("Error loading pending users:"%string, unavailable)]
       /\ faults w' = [].
Proof.
  split; [reflexivity |]. split; [reflexivity |].
  destruct (loadPendingUsers_failure_keeps_the_list Samples.screen_asha
              Samples.world_queue_flaky)
    as (screen' & w' & Hrun & _ & Hrefresh & _ & _ & _ & _ & _ & Hexact).
  exists screen', w'. split; [exact Hrun |].
  assert (Hn : next_fault (loadCalls Samples.world_queue_flaky)
                 (faults Samples.world_queue_flaky)
               = (Some unavailable, [])) by (vm_compute; reflexivity).
  rewrite Hn in Hexact. destruct Hexact as (Hlist & _ & Hcon & Hfaults).
  split; [exact Hlist |]. split; [exact Hrefresh |].
  split; [exact Hcon | exact Hfaults].
Defined.

End LoadProperties.

(** ** The auth context's project list *)

Section ContextProperties.

Local Open Scope string_scope.

(** X24. In an entry of the list [getUserProjects] builds, [userRole]
    and [addedAt] always come from the membership; [id] is the project
    document's id unless the project data has a field [id] of its own,
    which then wins; every other field is that of the project data. *)
Theorem projectEntry_spread_order :
  forall (projectDocId : string) (projectData : Js.object) (m : UserProject.t),
    let up := RoleHelper.projectEntry projectDocId projectData m in
    Js.get up "userRole" = Js.Str (UserProject.role m)
    /\ Js.get up "addedAt" = Js.Num (UserProject.addedAt m)
    /\ Js.get up "id" = default (Js.Str projectDocId) (projectData !! "id")
    /\ (forall k, k <> "userRole" -> k <> "addedAt" -> k <> "id" ->
        Js.get up k = Js.get projectData k).
Proof.
  intros pid data m up. subst up. unfold Js.get, RoleHelper.projectEntry.
  split; [| split; [| split]].
  - rewrite lookup_insert_ne by discriminate. rewrite lookup_insert_eq. reflexivity.
  - rewrite lookup_insert_eq. reflexivity.
  - do 2 rewrite lookup_insert_ne by discriminate.
    rewrite lookup_union. destruct (data !! "id") as [v |] eqn:Hv; cbn.
    + rewrite lookup_singleton_eq. reflexivity.
    + rewrite lookup_singleton_eq. reflexivity.
  - intros k H1 H2 H3. do 2 rewrite lookup_insert_ne by congruence.
    rewrite lookup_union, lookup_singleton_ne by congruence.
    destruct (data !! k); reflexivity.
Qed.

Lemma projectEntry_spread_order_witness :
  Js.get (RoleHelper.projectEntry "p1" Scenario.apollo_data Scenario.bina_membership)
    "name" = Js.Str "Apollo"
  /\ Js.get (RoleHelper.projectEntry "p1" Scenario.apollo_data Scenario.bina_membership)
       "id" = Js.Str "p1".
Proof.
  destruct (projectEntry_spread_order "p1" Scenario.apollo_data
              Scenario.bina_membership) as (_ & _ & Hid & Hother).
  split.
  - rewrite (Hother "name"); [reflexivity | discriminate..].
  - rewrite Hid. reflexivity.
Defined.

(** X23. For a user who is not SuperAdmin, the [isProjectAdmin] of the
    auth context is true exactly when the first entry of the context
    list whose [id] is the project has [userRole] project_admin. *)
Theorem context_isProjectAdmin_first_entry_decides :
  forall (u : User.t) (userProjects : list Js.object) (projectId : string),
    RoleHelper.isSuperAdmin (Some u) = false -> projectId <> "" ->
    (Js.to_boolean (AuthContext.isProjectAdmin (Some u) userProjects (Some projectId))
     = true
     <->
     exists (l1 l2 : list Js.object) (p : Js.object),
       userProjects = (l1 ++ p :: l2)%list
       /\ Forall (fun q => Js.get q "id" <> Js.Str projectId) l1
       /\ Js.get p "id" = Js.Str projectId
       /\ Js.get p "userRole" = Js.Str "project_admin").
Proof.
  intros u l pid Hsa Hpid. unfold AuthContext.isProjectAdmin.
  rewrite (falsy_nonempty pid Hpid), Hsa. cbn zeta.
  set (f := fun p : Js.object =>
              Js.strict_eq (Js.get p "id") (Js.of_string (Some pid))).
  assert (Hf : forall p, f p = true <-> Js.get p "id" = Js.Str pid).
  { intros p. unfold f, Js.strict_eq. cbn.
    destruct (decide (Js.get p "id" = Js.Str pid)); split; auto; discriminate. }
  assert (Hrhs : forall l1 l2 p,
            l = (l1 ++ p :: l2)%list ->
            Forall (fun q => Js.get q "id" <> Js.Str pid) l1 ->
            Js.get p "id" = Js.Str pid ->
            List.find f l = Some p).
  { intros l1 l2 p Hl Hl1 Hp. apply find_first. exists l1, l2.
    split; [exact Hl |]. split; [apply Hf, Hp |].
    eapply Forall_impl; [exact Hl1 |]. intros q Hq. cbn.
    destruct (f q) eqn:Hfq; [| reflexivity]. apply Hf in Hfq. contradiction. }
  destruct (List.find f l) as [p |] eqn:Hfind.
  - apply find_first in Hfind. destruct Hfind as (l1 & l2 & Hl & Hp & Hl1).
    apply Hf in Hp.
    assert (Hl1' : Forall (fun q => Js.get q "id" <> Js.Str pid) l1).
    { eapply Forall_impl; [exact Hl1 |]. intros q Hq Habs. cbn in Hq.
      apply Hf in Habs. congruence. }
    cbn. unfold Js.strict_eq.
    destruct (decide (Js.get p "userRole" = Js.Str "project_admin")) as [Hr | Hr].
    + split; [intros _; exists l1, l2, p; auto | reflexivity].
    + split; [discriminate |].
      intros (k1 & k2 & p' & Hk & Hk1 & Hp' & Hrole).
      pose proof (Hrhs k1 k2 p' Hk Hk1 Hp') as Heq. injection Heq as <-.
      contradiction.
  - cbn. split; [discriminate |].
    intros (k1 & k2 & p & Hk & Hk1 & Hp & _).
    pose proof (Hrhs k1 k2 p Hk Hk1 Hp) as Heq. discriminate.
Qed.

Lemma context_isProjectAdmin_first_entry_decides_witness :
  RoleHelper.isSuperAdmin (Some Scenario.bina_doc) = false
  /\ Js.to_boolean (AuthContext.isProjectAdmin (Some Scenario.bina_doc)
                      Scenario.bina_userProjects (Some "p1")) = true.
Proof.
  assert (Hsa : RoleHelper.isSuperAdmin (Some Scenario.bina_doc) = false)
    by reflexivity.
  assert (Hp : "p1" <> "") by discriminate.
  split; [exact Hsa |].
  apply (proj2 (context_isProjectAdmin_first_entry_decides Scenario.bina_doc
                  Scenario.bina_userProjects "p1" Hsa Hp)).
  exists [], [],
    (RoleHelper.projectEntry "p1" Scenario.apollo_data Scenario.bina_membership).
  split; [reflexivity |]. split; [constructor |]. split; reflexivity.
Defined.

End ContextProperties.

(** ** Logging in with a phone number and a code *)

Section LoginProperties.

Import AuthContextLogin.
Local Open Scope string_scope.
Local Open Scope list_scope.

Variable Date_parse : string -> option Z.

Ltac run_login :=
  unfold loginWithPhoneOTP, AuthContextLogin.try_catch, users_where_phoneNumber,
    AuthContextLogin.users_update, signInAnonymously, new_Date_now,
    AuthContextLogin.console_error, throw, AuthContextLogin.request,
    mbind, mret, Auth_bind, Auth_ret;
  cbn.

Lemma In_snapshot_by_phone (phone : string) (a : gmap string Account)
    (k : string) (d : Account) :
  In (k, d) (snapshot_by_phone phone a) <-> a !! k = Some d /\ phoneNumber d = phone.
Proof.
  unfold snapshot_by_phone. rewrite filter_In, In_docs_by_id. cbn.
  destruct (decide (phoneNumber d = phone)); intuition discriminate.
Qed.

Lemma snapshot_of_one_account (phone id : string) (d : Account) (s : Device) :
  accounts s !! id = Some d -> phoneNumber d = phone ->
  phone_of_one_account phone id s ->
  exists rest, snapshot_by_phone phone (accounts s) = (id, d) :: rest.
Proof.
  intros Hd Hp Hone.
  assert (Hin : In (id, d) (snapshot_by_phone phone (accounts s)))
    by (apply In_snapshot_by_phone; auto).
  destruct (snapshot_by_phone phone (accounts s)) as [| [k d'] rest] eqn:Hs;
    [destruct Hin |].
  assert (Hhead : In (k, d') (snapshot_by_phone phone (accounts s)))
    by (rewrite Hs; left; reflexivity).
  apply In_snapshot_by_phone in Hhead. destruct Hhead as [Hk Hkp].
  assert (k = id) by (eapply Hone; eauto). subst k.
  assert (d' = d) by congruence. subst d'. eauto.
Qed.

(** X25. When every call is answered, a login with the right code for
    an account that is not blocked returns the account as it was read,
    signs the device in, links the uid and clears the stored code; any
    further login for that phone number, whatever code is entered, is
    refused with "OTP is required" and changes no account. *)
Theorem login_consumes_the_code :
  forall (s : Device) (phone : string) (otp : option string)
         (id : string) (d : Account),
    faults s = [] ->
    accounts s !! id = Some d -> phoneNumber d = phone ->
    phone_of_one_account phone id s ->
    isBlocked d = false ->
    valid (verifyOTP Date_parse (clock s) otp (currentOTP d) (otpExpiresAt d)) = true ->
    let s1 := snd (loginWithPhoneOTP Date_parse phone otp s) in
    fst (loginWithPhoneOTP Date_parse phone otp s)
    = Returned {| uid := id; user_phoneNumber := phone; userData := d |}
    /\ accounts s1 !! id
       = Some (linkUid (Some (anonymousUid s)) (clearOTP (serverTime s) d))
    /\ currentUser s1 = Some (anonymousUid s)
    /\ forall otp' : option string,
         fst (loginWithPhoneOTP Date_parse phone otp' s1)
         = Threw (Message "OTP is required")
         /\ accounts (snd (loginWithPhoneOTP Date_parse phone otp' s1)) = accounts s1.
Proof.
  intros s phone otp id d Hf Hd Hp Hone Hb Hv.
  destruct (snapshot_of_one_account phone id d s Hd Hp Hone) as [rest Hsnap].
  assert (Hrun : loginWithPhoneOTP Date_parse phone otp s
    = (Returned {| uid := id; user_phoneNumber := phone; userData := d |},
       set_accounts
         (<[id := linkUid (Some (anonymousUid s)) (clearOTP (serverTime s) d)]>
            (<[id := clearOTP (serverTime s) d]> (accounts s)))
         (set_currentUser (Some (anonymousUid s)) s))).
  { destruct s as [acc cu uidA clk now fs con]. cbn in *. subst fs.
    run_login. rewrite Hsnap. cbn. rewrite Hv, Hb. cbn. rewrite Hd. cbn.
    rewrite lookup_insert_eq. subst phone. reflexivity. }
  rewrite Hrun. cbn [fst snd]. split; [reflexivity |].
  split; [cbn; apply lookup_insert_eq |]. split; [reflexivity |].
  intros otp'.
  set (d1 := linkUid (Some (anonymousUid s)) (clearOTP (serverTime s) d)).
  set (s1 := set_accounts _ _).
  assert (Hd1 : accounts s1 !! id = Some d1) by (cbn; apply lookup_insert_eq).
  assert (Hone1 : phone_of_one_account phone id s1).
  { intros k dk Hk Hkp. cbn in Hk.
    destruct (decide (k = id)) as [-> | Hne]; [reflexivity |].
    do 2 rewrite lookup_insert_ne in Hk by congruence. eapply Hone; eauto. }
  destruct (snapshot_of_one_account phone id d1 s1 Hd1 Hp Hone1) as [rest1 Hsnap1].
  assert (Hf1 : faults s1 = []) by exact Hf.
  clearbody s1. destruct s1 as [acc cu uidA clk now fs con]. cbn in *. subst fs.
  run_login. rewrite Hsnap1. cbn.
  unfold verifyOTP. cbn. rewrite orb_true_r. cbn. split; reflexivity.
Qed.

(** X26. When the code check fails (wrong, expired or missing code),
    the login throws the checker's message and leaves the accounts and
    the signed-in user as they were: the stored code stays in place,
    and a blocked account gets the same answer as any other. *)
Theorem login_refusal_keeps_the_code :
  forall (s : Device) (phone : string) (otp : option string)
         (id : string) (d : Account) (rest : list (string * Account)),
    (forall e r, faults s <> Some e :: r) ->
    snapshot_by_phone phone (accounts s) = (id, d) :: rest ->
    valid (verifyOTP Date_parse (clock s) otp (currentOTP d) (otpExpiresAt d)) = false ->
    fst (loginWithPhoneOTP Date_parse phone otp s)
    = Threw (Message
               (message (verifyOTP Date_parse (clock s) otp (currentOTP d)
                           (otpExpiresAt d))))
    /\ accounts (snd (loginWithPhoneOTP Date_parse phone otp s)) = accounts s
    /\ currentUser (snd (loginWithPhoneOTP Date_parse phone otp s)) = currentUser s.
Proof.
  intros s phone otp id d rest Hf Hsnap Hv.
  destruct s as [acc cu uidA clk now fs con]. cbn in *.
  run_login.
  destruct fs as [| [e |] fs]; [| exfalso; eapply Hf; reflexivity |];
    cbn; rewrite Hsnap; cbn; rewrite Hv; cbn; repeat split; reflexivity.
Qed.

(** X27. A phone number without account is refused with "No user
    found with this phone number"; a blocked account that enters the
    right code is refused with the blocked message, and its code is
    not cleared. *)
Theorem login_unknown_or_blocked :
  forall (s : Device) (phone : string) (otp : option string),
    (forall e r, faults s <> Some e :: r) ->
    (snapshot_by_phone phone (accounts s) = [] ->
     fst (loginWithPhoneOTP Date_parse phone otp s)
     = Threw (Message "No user found with this phone number")
     /\ accounts (snd (loginWithPhoneOTP Date_parse phone otp s)) = accounts s)
    /\
    (forall (id : string) (d : Account) (rest : list (string * Account)),
       snapshot_by_phone phone (accounts s) = (id, d) :: rest ->
       valid (verifyOTP Date_parse (clock s) otp (currentOTP d) (otpExpiresAt d))
       = true ->
       isBlocked d = true ->
       fst (loginWithPhoneOTP Date_parse phone otp s)
       = Threw (Message "Your account has been blocked by an administrator")
       /\ accounts (snd (loginWithPhoneOTP Date_parse phone otp s)) = accounts s
       /\ currentUser (snd (loginWithPhoneOTP Date_parse phone otp s))
          = currentUser s).
Proof.
  intros s phone otp Hf. destruct s as [acc cu uidA clk now fs con]. cbn in *.
  split.
  - intros Hsnap. run_login.
    destruct fs as [| [e |] fs]; [| exfalso; eapply Hf; reflexivity |];
      cbn; rewrite Hsnap; cbn; split; reflexivity.
  - intros id d rest Hsnap Hv Hb. run_login.
    destruct fs as [| [e |] fs]; [| exfalso; eapply Hf; reflexivity |];
      cbn; rewrite Hsnap; cbn; rewrite Hv, Hb; cbn; repeat split; reflexivity.
Qed.

(** X29. The login is not atomic: when the code has been cleared and
    the sign-in is then rejected, the login fails with that rejection
    and the code stays cleared, so the same code cannot be used for
    another attempt. *)
Theorem login_not_atomic :
  forall (s : Device) (phone : string) (otp : option string)
         (id : string) (d : Account) (rest : list (string * Account))
         (e : Firestore.Error) (later : list (option Firestore.Error)),
    faults s = None :: None :: Some e :: later ->
    snapshot_by_phone phone (accounts s) = (id, d) :: rest ->
    valid (verifyOTP Date_parse (clock s) otp (currentOTP d) (otpExpiresAt d)) = true ->
    isBlocked d = false ->
    let s1 := snd (loginWithPhoneOTP Date_parse phone otp s) in
    fst (loginWithPhoneOTP Date_parse phone otp s) = Threw (Rejected e)
    /\ accounts s1 !! id = Some (clearOTP (serverTime s) d)
    /\ currentUser s1 = currentUser s
    /\ console s1 = console s ++ [("Login error:", Rejected e)].
Proof.
  intros s phone otp id d rest e later Hf Hsnap Hv Hb.
  assert (Hd : accounts s !! id = Some d).
  { assert (Hin : In (id, d) (snapshot_by_phone phone (accounts s)))
      by (rewrite Hsnap; left; reflexivity).
    apply In_snapshot_by_phone in Hin. tauto. }
  destruct s as [acc cu uidA clk now fs con]. cbn in *. subst fs.
  run_login. rewrite Hsnap. cbn. rewrite Hv, Hb. cbn. rewrite Hd. cbn.
  split; [reflexivity |]. split; [apply lookup_insert_eq |].
  split; reflexivity.
Qed.

(** X28. Whichever calls fail, a login that throws has logged exactly
    the error it throws, and a login that returns has logged nothing
    and has cleared the code of the account it returns. *)
Theorem login_logs_and_rethrows :
  forall (s : Device) (phone : string) (otp : option string),
    let s1 := snd (loginWithPhoneOTP Date_parse phone otp s) in
    match fst (loginWithPhoneOTP Date_parse phone otp s) with
    | Threw t => console s1 = console s ++ [("Login error:", t)]
    | Returned r =>
        console s1 = console s
        /\ currentOTP <$> accounts s1 !! uid r = Some None
    end.
Proof.
  intros s phone otp. destruct s as [acc cu uidA clk now fs con]. cbn zeta.
  run_login.
  destruct fs as [| [e |] fs]; cbn; try reflexivity;
    (destruct (snapshot_by_phone phone acc) as [| [docId d] rest]; cbn;
     [reflexivity |];
     destruct (valid (verifyOTP Date_parse clk otp (currentOTP d) (otpExpiresAt d)));
     cbn; [| reflexivity];
     destruct (isBlocked d); cbn; [reflexivity |]).
  - destruct (acc !! docId) as [d0 |] eqn:Hd; cbn; [| reflexivity].
    rewrite lookup_insert_eq. cbn. split; [reflexivity |].
    rewrite lookup_insert_eq. reflexivity.
  - destruct fs as [| [e |] fs]; cbn; try reflexivity;
      (destruct (acc !! docId) as [d0 |] eqn:Hd; cbn; [| reflexivity]).
    + rewrite lookup_insert_eq. cbn. split; [reflexivity |].
      rewrite lookup_insert_eq. reflexivity.
    + destruct fs as [| [e |] fs]; cbn; try reflexivity.
      * rewrite lookup_insert_eq. cbn. split; [reflexivity |].
        rewrite lookup_insert_eq. reflexivity.
      * destruct fs as [| [e |] fs]; cbn; try reflexivity;
          rewrite lookup_insert_eq; cbn; (split; [reflexivity |]);
          rewrite lookup_insert_eq; reflexivity.
Qed.

End LoginProperties.

Lemma one_account_device0 :
  AuthContextLogin.phone_of_one_account "+15550100" "u1" Samples.device0.
Proof.
  intros k d Hk _. cbn in Hk. apply lookup_singleton_Some in Hk.
  destruct Hk as [Hk _]. congruence.
Defined.

Lemma login_consumes_the_code_witness :
  AuthContextLogin.faults Samples.device0 = []
  /\ fst (AuthContextLogin.loginWithPhoneOTP sample_Date_parse "+15550100"
            (Some "482913"%string) Samples.device0)
     = AuthContextLogin.Returned
         {| AuthContextLogin.uid := "u1";
            AuthContextLogin.user_phoneNumber := "+15550100";
            AuthContextLogin.userData := Samples.asha_account |}
  /\ fst (AuthContextLogin.loginWithPhoneOTP sample_Date_parse "+15550100"
            (Some "482913"%string)
            (snd (AuthContextLogin.loginWithPhoneOTP sample_Date_parse "+15550100"
                    (Some "482913"%string) Samples.device0)))
     = AuthContextLogin.Threw (AuthContextLogin.Message "OTP is required").
Proof.
  assert (Hf : AuthContextLogin.faults Samples.device0 = []) by reflexivity.
  destruct (login_consumes_the_code sample_Date_parse Samples.device0 "+15550100"
              (Some "482913"%string) "u1" Samples.asha_account Hf
              (lookup_singleton_eq _ _) eq_refl one_account_device0 eq_refl eq_refl)
    as (Hret & _ & _ & Hreplay).
  split; [exact Hf |]. split; [exact Hret |].
  exact (proj1 (Hreplay (Some "482913"%string))).
Defined.

Lemma login_refusal_keeps_the_code_witness :
  (forall e r, AuthContextLogin.faults Samples.device0 <> Some e :: r)
  /\ fst (AuthContextLogin.loginWithPhoneOTP sample_Date_parse "+15550100"
            (Some "000000"%string) Samples.device0)
     = AuthContextLogin.Threw (AuthContextLogin.Message "Invalid OTP")
  /\ AuthContextLogin.accounts
       (snd (AuthContextLogin.loginWithPhoneOTP sample_Date_parse "+15550100"
               (Some "000000"%string) Samples.device0))
     = AuthContextLogin.accounts Samples.device0.
Proof.
  assert (Hf : forall e r, AuthContextLogin.faults Samples.device0 <> Some e :: r)
    by (intros e r; discriminate).
  assert (Hsnap : AuthContextLogin.snapshot_by_phone "+15550100"
                    (AuthContextLogin.accounts Samples.device0)
                  = [("u1"%string, Samples.asha_account)]) by (vm_compute; reflexivity).
  destruct (login_refusal_keeps_the_code sample_Date_parse Samples.device0
              "+15550100" (Some "000000"%string) "u1" Samples.asha_account []
              Hf Hsnap eq_refl) as (Hthrow & Hacc & _).
  split; [exact Hf |]. split; [exact Hthrow | exact Hacc].
Defined.

Lemma login_unknown_or_blocked_witness :
  (forall e r, AuthContextLogin.faults Samples.device_blocked <> Some e :: r)
  /\ fst (AuthContextLogin.loginWithPhoneOTP sample_Date_parse "+19990000000"
            (Some "482913"%string) Samples.device_blocked)
     = AuthContextLogin.Threw
         (AuthContextLogin.Message "No user found with this phone number")
  /\ fst (AuthContextLogin.loginWithPhoneOTP sample_Date_parse "+15550100"
            (Some "482913"%string) Samples.device_blocked)
     = AuthContextLogin.Threw
         (AuthContextLogin.Message
            "Your account has been blocked by an administrator").
Proof.
  assert (Hf : forall e r, AuthContextLogin.faults Samples.device_blocked
                           <> Some e :: r)
    by (intros e r; discriminate).
  assert (Hnone : AuthContextLogin.snapshot_by_phone "+19990000000"
                    (AuthContextLogin.accounts Samples.device_blocked) = [])
    by (vm_compute; reflexivity).
  assert (Hsnap : AuthContextLogin.snapshot_by_phone "+15550100"
                    (AuthContextLogin.accounts Samples.device_blocked)
                  = [("u1"%string, Samples.asha_blocked)]) by (vm_compute; reflexivity).
  split; [exact Hf |]. split.
  - exact (proj1 (proj1 (login_unknown_or_blocked sample_Date_parse
                           Samples.device_blocked "+19990000000"
                           (Some "482913"%string) Hf) Hnone)).
  - exact (proj1 (proj2 (login_unknown_or_blocked sample_Date_parse
                           Samples.device_blocked "+15550100"
                           (Some "482913"%string) Hf)
                    "u1"%string Samples.asha_blocked [] Hsnap eq_refl eq_refl)).
Defined.

Lemma login_not_atomic_witness :
  AuthContextLogin.faults Samples.device_no_auth = [None; None; Some unavailable]
  /\ fst (AuthContextLogin.loginWithPhoneOTP sample_Date_parse "+15550100"
            (Some "482913"%string) Samples.device_no_auth)
     = AuthContextLogin.Threw (AuthContextLogin.Rejected unavailable)
  /\ AuthContextLogin.currentOTP <$>
       AuthContextLogin.accounts
         (snd (AuthContextLogin.loginWithPhoneOTP sample_Date_parse "+15550100"
                 (Some "482913"%string) Samples.device_no_auth)) !! "u1"
     = Some None.
Proof.
  assert (Hf : AuthContextLogin.faults Samples.device_no_auth
               = [None; None; Some unavailable]) by reflexivity.
  assert (Hsnap : AuthContextLogin.snapshot_by_phone "+15550100"
                    (AuthContextLogin.accounts Samples.device_no_auth)
                  = [("u1"%string, Samples.asha_account)]) by (vm_compute; reflexivity).
  destruct (login_not_atomic sample_Date_parse Samples.device_no_auth
              "+15550100" (Some "482913"%string) "u1" Samples.asha_account []
              unavailable [] Hf Hsnap eq_refl eq_refl) as (Hthrow & Hacc & _).
  split; [exact Hf |]. split; [exact Hthrow |].
  rewrite Hacc. reflexivity.
Defined.

(** ** handleAddUsers *)

Section AddUsersProperties.

Import UserManagement.
Local Open Scope string_scope.
Local Open Scope list_scope.

Variables (project_id project_name currentUser_uid : string).

Local Abbreviation addEach := (addEach project_id currentUser_uid).
Local Abbreviation handleAddUsers := (handleAddUsers project_id project_name currentUser_uid).

Lemma run_bind {A B} (m : Run A) (f : A -> Run B) (s : State) :
  (m ≫= f) s
  = match m s with
    | (Ok a, s') => f a s'
    | (Throw e, s') => (Throw e, s')
    end.
Proof. reflexivity. Qed.

Lemma request_answers {A} (op : Run A) (s : State) (rest : list (option Firestore.Error)) :
  faults s = None :: rest -> request op s = op (set_faults rest s).
Proof. intros Hf. unfold request. rewrite Hf. reflexivity. Qed.

Lemma request_fails {A} (op : Run A) (s : State) (e : Firestore.Error)
    (rest : list (option Firestore.Error)) :
  faults s = Some e :: rest -> request op s = (Throw e, set_faults rest s).
Proof. intros Hf. unfold request. rewrite Hf. reflexivity. Qed.

Lemma userProjects_where_quiet (uid : string) (s : State) :
  faults s = [] ->
  userProjects_where uid project_id s
  = (Ok (memberships_of uid project_id (userProjects s)), s).
Proof. intros Hf. unfold userProjects_where, request. rewrite Hf. reflexivity. Qed.

Lemma userProjects_add_quiet (data : Z -> Membership) (s : State) :
  faults s = [] ->
  userProjects_add data s
  = (Ok tt, set_userProjects (userProjects s ++ [data (serverTime s)]) s).
Proof. intros Hf. unfold userProjects_add, request. rewrite Hf. reflexivity. Qed.

Lemma groups_update_members_quiet (id : string) (l : list string) (d : Group) (s : State) :
  faults s = [] ->
  groups s !! id = Some d ->
  groups_update_members id l s
  = (Ok tt,
     set_groups
       (<[id := {| group_projectId := group_projectId d;
                   isGeneralChannel := isGeneralChannel d;
                   members := Some l |}]> (groups s)) s).
Proof.
  intros Hf Hd. unfold groups_update_members, request. rewrite Hf, Hd. reflexivity.
Qed.

Lemma memberships_of_app (uid pid : string) (l l' : list Membership) :
  memberships_of uid pid (l ++ l')
  = memberships_of uid pid l ++ memberships_of uid pid l'.
Proof. apply List.filter_app. Qed.

Lemma memberships_of_new (uid x : string) (now : Z) :
  memberships_of uid project_id [newMembership x project_id currentUser_uid now]
  = if decide (x = uid) then [newMembership x project_id currentUser_uid now] else [].
Proof.
  unfold memberships_of. cbn.
  destruct (decide (x = uid)); cbn; [| reflexivity].
  destruct (decide (project_id = project_id)); [reflexivity | congruence].
Qed.

(** A user who has a membership document of the project, active or not,
    is skipped by the loop. *)
Lemma addEach_all_present (generalChannel : option (string * Group))
    (users : list string) (n : nat) (s : State) :
  faults s = [] ->
  Forall (fun x => memberships_of x project_id (userProjects s) <> []) users ->
  addEach generalChannel users n s = (Ok n, s).
Proof.
  intros Hf Hall. induction Hall as [| x rest Hx _ IH]; [reflexivity |].
  cbn [UserManagement.addEach]. rewrite run_bind, userProjects_where_quiet by exact Hf.
  destruct (memberships_of x project_id (userProjects s)); [congruence | exact IH].
Qed.

(** With a store that answers, the loop returns, leaves a membership
    document for every user it was given, keeps the documents that were
    there, and keeps the channel document in place. *)
Lemma addEach_answers (channelId : string) (channelData : Group)
    (users : list string) :
  forall (n : nat) (s : State),
    faults s = [] ->
    is_Some (groups s !! channelId) ->
    exists n' s',
      addEach (Some (channelId, channelData)) users n s = (Ok n', s')
      /\ faults s' = []
      /\ is_Some (groups s' !! channelId)
      /\ (forall x, memberships_of x project_id (userProjects s) <> [] ->
                    memberships_of x project_id (userProjects s') <> [])
      /\ Forall (fun x => memberships_of x project_id (userProjects s') <> []) users.
Proof.
  induction users as [| x rest IH]; intros n s Hf Hg.
  - exists n, s. cbn. split_and!; auto.
  - cbn [UserManagement.addEach]. rewrite run_bind, userProjects_where_quiet by exact Hf.
    destruct (memberships_of x project_id (userProjects s)) eqn:Hx.
    + rewrite run_bind, userProjects_add_quiet by exact Hf.
      set (s1 := set_userProjects _ s).
      assert (Hf1 : faults s1 = []) by exact Hf.
      assert (Hg1 : is_Some (groups s1 !! channelId)) by exact Hg.
      assert (Hx1 : memberships_of x project_id (userProjects s1) <> []).
      { unfold s1. cbn [userProjects set_userProjects]. rewrite memberships_of_app, memberships_of_new, Hx.
        destruct (decide (x = x)); [discriminate | congruence]. }
      assert (Hmono1 : forall y, memberships_of y project_id (userProjects s) <> [] ->
                                 memberships_of y project_id (userProjects s1) <> []).
      { intros y Hy. unfold s1. cbn [userProjects set_userProjects]. rewrite memberships_of_app.
        intros Habs. apply app_eq_nil in Habs. tauto. }
      rewrite run_bind.
      destruct (includes (default [] (members channelData)) x).
      * cbn [mret Run_ret].
        destruct (IH (S n) s1 Hf1 Hg1) as (n' & s' & Hrun & Hf' & Hg' & Hmono & Hall).
        exists n', s'. split_and!; [exact Hrun | exact Hf' | exact Hg' | |].
        -- intros y Hy. apply Hmono. exact (Hmono1 y Hy).
        -- constructor; [| exact Hall]. apply Hmono. exact Hx1.
      * destruct Hg1 as [d Hd].
        rewrite (groups_update_members_quiet _ _ d) by assumption.
        set (s2 := set_groups _ s1).
        assert (Hf2 : faults s2 = []) by exact Hf.
        assert (Hg2 : is_Some (groups s2 !! channelId)).
        { unfold s2. cbn. rewrite lookup_insert_eq. eauto. }
        destruct (IH (S n) s2 Hf2 Hg2) as (n' & s' & Hrun & Hf' & Hg' & Hmono & Hall).
        exists n', s'. split_and!; [exact Hrun | exact Hf' | exact Hg' | |].
        -- intros y Hy. apply Hmono. exact (Hmono1 y Hy).
        -- constructor; [| exact Hall]. apply Hmono. exact Hx1.
    + destruct (IH n s Hf Hg) as (n' & s' & Hrun & Hf' & Hg' & Hmono & Hall).
      exists n', s'. split_and!; [exact Hrun | exact Hf' | exact Hg' | exact Hmono |].
      constructor; [| exact Hall]. apply Hmono. rewrite Hx. discriminate.
Qed.

Lemma addEach_answers_no_channel (users : list string) :
  forall (n : nat) (s : State),
    faults s = [] ->
    exists n' s',
      addEach None users n s = (Ok n', s')
      /\ faults s' = []
      /\ (forall x, memberships_of x project_id (userProjects s) <> [] ->
                    memberships_of x project_id (userProjects s') <> [])
      /\ Forall (fun x => memberships_of x project_id (userProjects s') <> []) users.
Proof.
  induction users as [| x rest IH]; intros n s Hf.
  - exists n, s. cbn. split_and!; auto.
  - cbn [UserManagement.addEach]. rewrite run_bind, userProjects_where_quiet by exact Hf.
    destruct (memberships_of x project_id (userProjects s)) eqn:Hx.
    + rewrite run_bind, userProjects_add_quiet by exact Hf.
      set (s1 := set_userProjects _ s).
      assert (Hf1 : faults s1 = []) by exact Hf.
      assert (Hx1 : memberships_of x project_id (userProjects s1) <> []).
      { unfold s1. cbn [userProjects set_userProjects]. rewrite memberships_of_app, memberships_of_new, Hx.
        destruct (decide (x = x)); [discriminate | congruence]. }
      assert (Hmono1 : forall y, memberships_of y project_id (userProjects s) <> [] ->
                                 memberships_of y project_id (userProjects s1) <> []).
      { intros y Hy. unfold s1. cbn [userProjects set_userProjects]. rewrite memberships_of_app.
        intros Habs. apply app_eq_nil in Habs. tauto. }
      rewrite run_bind. cbn [mret Run_ret].
      destruct (IH (S n) s1 Hf1) as (n' & s' & Hrun & Hf' & Hmono & Hall).
      exists n', s'. split_and!; [exact Hrun | exact Hf' | |].
      * intros y Hy. apply Hmono. exact (Hmono1 y Hy).
      * constructor; [| exact Hall]. apply Hmono. exact Hx1.
    + destruct (IH n s Hf) as (n' & s' & Hrun & Hf' & Hmono & Hall).
      exists n', s'. split_and!; [exact Hrun | exact Hf' | exact Hmono |].
      constructor; [| exact Hall]. apply Hmono. rewrite Hx. discriminate.
Qed.

Lemma head_general_channels (g : gmap string Group) (id : string) (d : Group) :
  head (general_channels project_id g) = Some (id, d) ->
  g !! id = Some d.
Proof.
  intros Hh. apply In_docs_by_id.
  assert (Hin : In (id, d) (general_channels project_id g)).
  { destruct (general_channels project_id g); [discriminate |].
    cbn in Hh. injection Hh as ->. left. reflexivity. }
  unfold general_channels in Hin. apply filter_In in Hin. tauto.
Qed.

Lemma groups_where_general_quiet (s : State) :
  faults s = [] ->
  groups_where_general project_id s
  = (Ok (general_channels project_id (groups s)), s).
Proof. intros Hf. unfold groups_where_general, request. rewrite Hf. reflexivity. Qed.


Lemma handleAddUsers_run (s s' : State) (x : string) (l : list string) (n : nat) :
  faults s = [] ->
  selectedUsers s = x :: l ->
  addEach (head (general_channels project_id (groups s))) (x :: l) 0
    (set_processing true s) = (Ok n, s') ->
  handleAddUsers s
  = (Ok tt,
     set_processing false
       (set_selectedUsers []
          (set_showAddUserModal false
             (set_alerts
                (alerts s' ++ [("Success"%string, successMessage project_name n)])
                s')))).
Proof.
  intros Hf Hsel Hrun. unfold UserManagement.handleAddUsers. rewrite Hsel.
  unfold try_finally, try_catch, addSelected.
  rewrite run_bind, groups_where_general_quiet by exact Hf.
  cbn [groups set_processing]. rewrite run_bind, Hrun. reflexivity.
Qed.

(** The loop on users none of whom has a membership document or is in
    the member list the snapshot held: every one gets a membership, and
    each write of the member list starts from the snapshot's list again. *)
Lemma addEach_fresh (channelId : string) (channelData : Group) (users : list string) :
  forall (n : nat) (s : State) (d : Group),
    faults s = [] ->
    groups s !! channelId = Some d ->
    NoDup users ->
    Forall (fun x => memberships_of x project_id (userProjects s) = []
                     /\ includes (default [] (members channelData)) x = false) users ->
    exists s',
      addEach (Some (channelId, channelData)) users n s = (Ok (n + length users)%nat, s')
      /\ userProjects s'
         = userProjects s
           ++ map (fun x => newMembership x project_id currentUser_uid (serverTime s)) users
      /\ groups s'
         = match last users with
           | Some u =>
               <[channelId := {| group_projectId := group_projectId d;
                                 isGeneralChannel := isGeneralChannel d;
                                 members := Some (default [] (members channelData) ++ [u]) |}]>
                 (groups s)
           | None => groups s
           end
      /\ faults s' = []
      /\ alerts s' = alerts s
      /\ console s' = console s.
Proof.
  induction users as [| x rest IH]; intros n s d Hf Hd Hnd Hall.
  - exists s. cbn. rewrite Nat.add_0_r, app_nil_r. split_and!; auto.
  - apply NoDup_cons in Hnd as [Hx Hnd].
    apply Forall_cons in Hall as [[Hnone Hout] Hall].
    cbn [UserManagement.addEach].
    rewrite run_bind, userProjects_where_quiet by exact Hf. rewrite Hnone.
    rewrite run_bind, userProjects_add_quiet by exact Hf.
    set (s1 := set_userProjects _ s).
    rewrite run_bind, Hout.
    rewrite (groups_update_members_quiet _ _ d) by assumption.
    set (d2 := {| group_projectId := group_projectId d |}).
    set (s2 := set_groups _ s1).
    assert (Hall2 : Forall (fun y => memberships_of y project_id (userProjects s2) = []
                     /\ includes (default [] (members channelData)) y = false) rest).
    { rewrite Forall_forall in Hall |- *. intros y Hy.
      destruct (Hall y Hy) as [Hy1 Hy2]. split; [| exact Hy2].
      unfold s2, s1. cbn [userProjects set_userProjects set_groups].
      rewrite memberships_of_app, memberships_of_new, Hy1.
      destruct (decide (x = y)) as [-> |]; [contradiction | reflexivity]. }
    destruct (IH (S n) s2 d2 Hf (lookup_insert_eq _ _ _) Hnd Hall2)
      as (s' & Hrun & Hup & Hg & Hf' & Ha & Hc).
    exists s'. split_and!.
    + rewrite Hrun. do 2 f_equal. cbn. lia.
    + rewrite Hup. unfold s2, s1.
      cbn [userProjects set_userProjects set_groups serverTime map].
      rewrite <- app_assoc. reflexivity.
    + rewrite Hg. unfold s2, s1. cbn [groups set_groups set_userProjects].
      destruct rest as [| y rest']; [reflexivity |].
      change (last (x :: y :: rest')) with (last (y :: rest')).
      destruct (last (y :: rest')) eqn:Hlast.
      * rewrite insert_insert_eq. reflexivity.
      * destruct rest'; cbn in Hlast; [discriminate |].
        apply last_None in Hlast. discriminate.
    + exact Hf'.
    + exact Ha.
    + exact Hc.
Qed.

(** X2. Several new users added at once all become project members,
    but every write of the General channel's member list starts from
    the list read before the loop, so the channel ends with that list
    plus the last user only. *)
Theorem general_channel_gets_only_the_last_added_user
    (s : State) (us : list string) (u channelId : string) (channelData : Group) :
  faults s = [] ->
  selectedUsers s = us ++ [u] ->
  NoDup (us ++ [u]) ->
  head (general_channels project_id (groups s)) = Some (channelId, channelData) ->
  Forall (fun x => memberships_of x project_id (userProjects s) = []
                   /\ includes (default [] (members channelData)) x = false)
         (us ++ [u]) ->
  let s' := snd (handleAddUsers s) in
  fst (handleAddUsers s) = Ok tt
  /\ userProjects s'
     = userProjects s
       ++ map (fun x => newMembership x project_id currentUser_uid (serverTime s))
              (us ++ [u])
  /\ groups s'
     = <[channelId := {| group_projectId := group_projectId channelData;
                         isGeneralChannel := isGeneralChannel channelData;
                         members := Some (default [] (members channelData) ++ [u]) |}]>
         (groups s)
  /\ alerts s'
     = alerts s ++ [("Success"%string, successMessage project_name (length us + 1))].
Proof.
  intros Hf Hsel Hnd Hhead Hall s'.
  pose proof (head_general_channels _ _ _ Hhead) as Hd.
  destruct (addEach_fresh channelId channelData (us ++ [u]) 0 (set_processing true s)
              channelData Hf Hd Hnd Hall)
    as (s1 & Hrun & Hup & Hg & Hf1 & Ha & Hc).
  assert (Hne : exists x l, us ++ [u] = x :: l).
  { destruct us; cbn; eauto. }
  destruct Hne as (x & l & Hxl).
  assert (Hwhole := handleAddUsers_run s s1 x l (0 + length (us ++ [u])) Hf
                      (eq_trans Hsel Hxl)).
  rewrite Hhead, <- Hxl in Hwhole. specialize (Hwhole Hrun).
  subst s'. rewrite Hwhole. cbn [fst snd].
  cbn [userProjects groups alerts set_processing set_selectedUsers
       set_showAddUserModal set_alerts].
  rewrite last_snoc in Hg.
  rewrite Hup, Hg, Ha, length_app. cbn. split_and!; reflexivity.
Qed.

(** X9. With a store that answers, handleAddUsers returns, and adding
    the same selection a second time writes neither a membership nor a
    member list: the existence check skips every user, whether the
    membership found is active or not. *)
Theorem handleAddUsers_second_run_writes_nothing (s : State) :
  faults s = [] ->
  let s1 := snd (handleAddUsers s) in
  let s2 := snd (handleAddUsers (set_selectedUsers (selectedUsers s) s1)) in
  fst (handleAddUsers s) = Ok tt
  /\ userProjects s2 = userProjects s1
  /\ groups s2 = groups s1.
Proof.
  intros Hf s1 s2.
  destruct (selectedUsers s) as [| x l] eqn:Hsel.
  - subst s2 s1. unfold UserManagement.handleAddUsers. rewrite Hsel. cbn.
    split_and!; reflexivity.
  - assert (Hloop : exists n s',
      addEach (head (general_channels project_id (groups s))) (x :: l) 0
        (set_processing true s) = (Ok n, s')
      /\ faults s' = []
      /\ Forall (fun y => memberships_of y project_id (userProjects s') <> []) (x :: l)).
    { destruct (head (general_channels project_id (groups s))) as [[g gd] |] eqn:Hhead.
      - pose proof (head_general_channels _ _ _ Hhead) as Hd.
        destruct (addEach_answers g gd (x :: l) 0 (set_processing true s) Hf
                    (ex_intro _ gd Hd))
          as (n & s' & Hrun & Hf' & _ & _ & Hall).
        eauto.
      - destruct (addEach_answers_no_channel (x :: l) 0 (set_processing true s) Hf)
          as (n & s' & Hrun & Hf' & _ & Hall).
        eauto. }
    destruct Hloop as (n & s' & Hrun & Hf' & Hall).
    pose proof (handleAddUsers_run s s' x l n Hf Hsel Hrun) as Hfirst.
    assert (Hs1 : s1 = snd (handleAddUsers s)) by reflexivity.
    rewrite Hfirst in Hs1 |- *. cbn [fst snd] in Hs1 |- *.
    set (t := set_selectedUsers (x :: l) s1) in *.
    assert (Hft : faults t = []) by (unfold t; rewrite Hs1; exact Hf').
    assert (Hut : userProjects t = userProjects s') by (unfold t; rewrite Hs1; reflexivity).
    assert (Hsecond := handleAddUsers_run t (set_processing true t) x l 0 Hft eq_refl).
    rewrite addEach_all_present in Hsecond;
      [| exact Hft | cbn [userProjects set_processing]; rewrite Hut; exact Hall].
    specialize (Hsecond eq_refl).
    subst s2. rewrite Hsecond. cbn [snd].
    split_and!; [reflexivity | |].
    + cbn. unfold t. rewrite Hs1. reflexivity.
    + cbn. unfold t. rewrite Hs1. reflexivity.
Qed.

(** X30. handleAddUsers is not atomic: when the write of the member
    list is rejected for the first user, that user is a project member
    outside the General channel, the remaining users are not processed,
    nothing is taken back, the error is logged and alerted, the dialog
    keeps its selection, and processing is reset. *)
Theorem handleAddUsers_not_atomic
    (s : State) (u channelId : string) (rest : list string)
    (channelData : Group) (e : Firestore.Error) (later : list (option Firestore.Error)) :
  faults s = [None; None; None; Some e] ++ later ->
  selectedUsers s = u :: rest ->
  head (general_channels project_id (groups s)) = Some (channelId, channelData) ->
  memberships_of u project_id (userProjects s) = [] ->
  includes (default [] (members channelData)) u = false ->
  let s' := snd (handleAddUsers s) in
  fst (handleAddUsers s) = Ok tt
  /\ userProjects s'
     = userProjects s ++ [newMembership u project_id currentUser_uid (serverTime s)]
  /\ groups s' = groups s
  /\ alerts s' = alerts s ++ [("Error"%string, "Failed to add users to project"%string)]
  /\ console s' = console s ++ [("Error adding users:"%string, e)]
  /\ selectedUsers s' = u :: rest
  /\ showAddUserModal s' = showAddUserModal s
  /\ processing s' = false
  /\ faults s' = later.
Proof.
  intros Hf Hsel Hhead Hnone Hout s'. subst s'.
  unfold UserManagement.handleAddUsers. rewrite Hsel.
  unfold try_finally, try_catch, addSelected.
  rewrite run_bind. unfold groups_where_general.
  rewrite (request_answers _ (set_processing true s) _ Hf).
  cbn [groups set_faults set_processing]. rewrite Hhead, run_bind.
  cbn [UserManagement.addEach]. rewrite run_bind.
  unfold userProjects_where. erewrite request_answers by reflexivity.
  cbn [userProjects set_faults set_processing]. rewrite Hnone, run_bind.
  unfold userProjects_add. erewrite request_answers by reflexivity.
  rewrite run_bind, Hout.
  unfold groups_update_members. erewrite request_fails by reflexivity.
  unfold console_error, Alert_alert, mbind, Run_bind. cbn.
  rewrite Hsel. split_and!; reflexivity.
Qed.

End AddUsersProperties.

Lemma general_channel_gets_only_the_last_added_user_witness :
  UserManagement.selectedUsers Samples.management0 = ["u1"; "u2"]%string
  /\ UserManagement.members <$>
       UserManagement.groups
         (snd (UserManagement.handleAddUsers "p1" "Apollo" "root"
                 Samples.management0)) !! "g1"
     = Some (Some ["root"; "u2"]%string)
  /\ length (UserManagement.userProjects
               (snd (UserManagement.handleAddUsers "p1" "Apollo" "root"
                       Samples.management0)))
     = 3%nat.
Proof.
  assert (Hf : UserManagement.faults Samples.management0 = []) by reflexivity.
  assert (Hsel : UserManagement.selectedUsers Samples.management0
                 = (["u1"%string] ++ ["u2"%string])%list) by reflexivity.
  assert (Hnd : NoDup (["u1"%string] ++ ["u2"%string])%list).
  { apply (bool_decide_unpack _). vm_compute. exact I. }
  assert (Hhead : head (UserManagement.general_channels "p1"
                          (UserManagement.groups Samples.management0))
                  = Some ("g1"%string, Samples.general_p1))
    by (vm_compute; reflexivity).
  assert (Hall : Forall
            (fun x =>
               UserManagement.memberships_of x "p1"
                 (UserManagement.userProjects Samples.management0) = []
               /\ UserManagement.includes
                    (default [] (UserManagement.members Samples.general_p1)) x
                  = false)
            (["u1"%string] ++ ["u2"%string])%list).
  { repeat constructor. }
  destruct (general_channel_gets_only_the_last_added_user "p1" "Apollo" "root"
              Samples.management0 ["u1"%string] "u2" "g1" Samples.general_p1
              Hf Hsel Hnd Hhead Hall) as (_ & Hup & Hg & _).
  split; [reflexivity |]. split.
  - rewrite Hg, lookup_insert_eq. reflexivity.
  - rewrite Hup. reflexivity.
Defined.

Lemma handleAddUsers_second_run_writes_nothing_witness :
  UserManagement.faults Samples.management_again = []
  /\ UserManagement.userProjects
       (snd (UserManagement.handleAddUsers "p1" "Apollo" "root"
               (UserManagement.set_selectedUsers
                  (UserManagement.selectedUsers Samples.management_again)
                  (snd (UserManagement.handleAddUsers "p1" "Apollo" "root"
                          Samples.management_again)))))
     = UserManagement.userProjects
         (snd (UserManagement.handleAddUsers "p1" "Apollo" "root"
                 Samples.management_again)).
Proof.
  assert (Hf : UserManagement.faults Samples.management_again = []) by reflexivity.
  split; [exact Hf |].
  exact (proj1 (proj2 (handleAddUsers_second_run_writes_nothing "p1" "Apollo" "root"
                         Samples.management_again Hf))).
Defined.

Lemma handleAddUsers_not_atomic_witness :
  UserManagement.faults Samples.management_flaky
  = [None; None; None; Some unavailable]
  /\ length (UserManagement.userProjects
               (snd (UserManagement.handleAddUsers "p1" "Apollo" "root"
                       Samples.management_flaky)))
     = 2%nat
  /\ UserManagement.groups
       (snd (UserManagement.handleAddUsers "p1" "Apollo" "root"
               Samples.management_flaky))
     = UserManagement.groups Samples.management_flaky.
Proof.
  assert (Hf : UserManagement.faults Samples.management_flaky
               = ([None; None; None; Some unavailable] ++ [])%list) by reflexivity.
  assert (Hhead : head (UserManagement.general_channels "p1"
                          (UserManagement.groups Samples.management_flaky))
                  = Some ("g1"%string, Samples.general_p1))
    by (vm_compute; reflexivity).
  destruct (handleAddUsers_not_atomic "p1" "Apollo" "root"
              Samples.management_flaky "u1" "g1" ["u2"%string]
              Samples.general_p1 unavailable [] Hf eq_refl Hhead eq_refl eq_refl)
    as (_ & Hup & Hg & _).
  split; [reflexivity |]. split.
  - rewrite Hup. reflexivity.
  - exact Hg.
Defined.
